(** * Echogram metadata uploader (mi/dataset/driver/zplsc_c/zplsc_echogram_uploader.py)

    A shallow embedding of [ZplscEchogramUploadParser]: the filename
    grammars, the search window, the scan of the directory for hourly files,
    the provenance read from the earliest hourly file and its rewrite, the
    first ping time, and the particle that is appended to the record buffer.

    Python values are modelled as the code uses them: [str] as [string],
    [None]-able values as [option], exceptions as a result type, the parser
    object ([self.provenance], [self._record_buffer]) and the files it opens
    as an explicit state threaded through the calls. *)

From Stdlib Require Import ZArith List String Ascii Bool Lia SpecFloat.
Import ListNotations.

Local Open Scope string_scope.
Local Open Scope Z_scope.

(* ================================================================== *)
(** * Exceptions and results *)

(** Where a [TypeError] comes from: the two places of [parse_file] that can
    be handed [None] in place of a [str]. *)
Inductive type_error_site : Type :=
| ConcatStrNone      (* 'OOI-D' + None *)
| StrptimeArgNone.   (* datetime.strptime(None, fmt) *)

(** The [ValueError]s of [datetime.strptime] and of the [datetime]
    constructor it calls. *)
Inductive value_error : Type :=
| DoesNotMatchFormat (data : string)       (* time data ... does not match format *)
| UnconvertedDataRemains (rest : string)   (* unconverted data remains: ... *)
| FieldOutOfRange.                         (* day is out of range for month, ... *)

Inductive exn : Type :=
| SampleException (msg : string)
| ValueError (e : value_error)
| TypeError (site : type_error_site)
| OverflowError
| OSError (path : string)
| IOError (path : string)
| KeyError (key : string)
| AttributeError (name : string)
| IndexError
| ReError (pattern : string).   (* a pattern outside the modelled syntax *)

Inductive result (A : Type) : Type :=
| Ok (a : A)
| Raise (e : exn).
Arguments Ok {A} a.
Arguments Raise {A} e.

Definition result_bind {A B} (r : result A) (k : A -> result B) : result B :=
  match r with
  | Ok a => k a
  | Raise e => Raise e
  end.

(* ================================================================== *)
(** * [str] operations *)

Module Str.

Fixpoint take (n : nat) (s : string) : string :=
  match n, s with
  | O, _ => ""
  | S _, "" => ""
  | S n', String a s' => String a (take n' s')
  end.

Fixpoint drop (n : nat) (s : string) : string :=
  match n, s with
  | O, _ => s
  | S _, "" => ""
  | S n', String _ s' => drop n' s'
  end.

Definition len (s : string) : Z := Z.of_nat (String.length s).

(** [s.rfind(c)]: the highest index of [c] in [s], or [-1]. *)
Fixpoint rfind_from (c : ascii) (s : string) (i last : Z) : Z :=
  match s with
  | "" => last
  | String a s' => rfind_from c s' (i + 1) (if Ascii.eqb a c then i else last)
  end.

Definition rfind (c : ascii) (s : string) : Z := rfind_from c s 0 (-1).

(** [s[:i]], a negative [i] counting from the end. *)
Definition slice_to (s : string) (i : Z) : string :=
  if i <? 0 then take (Z.to_nat (Z.max 0 (len s + i))) s
  else take (Z.to_nat i) s.

(** [s[i:]], a negative [i] counting from the end. *)
Definition slice_from (s : string) (i : Z) : string :=
  if i <? 0 then drop (Z.to_nat (Z.max 0 (len s + i))) s
  else drop (Z.to_nat i) s.

(** [s.rstrip(c)] for a single character [c]. *)
Fixpoint rstrip (c : ascii) (s : string) : string :=
  match s with
  | "" => ""
  | String a s' =>
      match rstrip c s' with
      | "" => if Ascii.eqb a c then "" else String a ""
      | t => String a t
      end
  end.

(** [s == c * len(s)] *)
Fixpoint all_char (c : ascii) (s : string) : bool :=
  match s with
  | "" => true
  | String a s' => Ascii.eqb a c && all_char c s'
  end.

Definition startswith (s : string) (c : ascii) : bool :=
  match s with
  | String a _ => Ascii.eqb a c
  | "" => false
  end.

Fixpoint endswith (s : string) (c : ascii) : bool :=
  match s with
  | "" => false
  | String a "" => Ascii.eqb a c
  | String _ s' => endswith s' c
  end.

(** The truth value of a [str]: [not s] holds for the empty string. *)
Definition is_empty (s : string) : bool :=
  match s with
  | "" => true
  | _ => false
  end.

(** [l] is a prefix of [s]; what follows it. *)
Fixpoint strip_prefix (l s : string) : option string :=
  match l, s with
  | "", _ => Some s
  | String a l', String b s' =>
      if Ascii.eqb a b then strip_prefix l' s' else None
  | String _ _, "" => None
  end.

(** [l in s] *)
Fixpoint contains (l s : string) : bool :=
  match strip_prefix l s with
  | Some _ => true
  | None =>
      match s with
      | "" => false
      | String _ s' => contains l s'
      end
  end.

End Str.

(* ================================================================== *)
(** * Regular expressions ([re])

    The patterns of the driver use literals, [.], the class [[0-9]], bounded
    repetition, alternation, [?] and named groups.  A match is computed by
    listing every way a pattern matches a prefix of the text, in the order in
    which the backtracking matcher of [re] tries them; the first one is the
    match [re] reports. *)

Module Re.

Inductive regex : Type :=
| Eps
| Lit (c : ascii)             (* an ordinary character, or an escaped one *)
| LitI (c : ascii)            (* a character under re.IGNORECASE *)
| Dot                         (* [.]: any character but a newline *)
| Range (lo hi : ascii)       (* [lo-hi] *)
| Cat (r1 r2 : regex)
| Alt (r1 r2 : regex)         (* r1|r2 *)
| Opt (r : regex)             (* r?, greedy *)
| Group (name : string) (r : regex).   (* (?P<name>r) *)

Definition captures := list (string * string).

Definition newline : ascii := "010"%char.

Definition lower (c : ascii) : ascii :=
  if (Ascii.leb "A" c && Ascii.leb c "Z")%char
  then ascii_of_N (N_of_ascii c + 32)
  else c.

Definition in_range (lo hi c : ascii) : bool :=
  Ascii.leb lo c && Ascii.leb c hi.

(** A match: the groups that took part, the text that matched
    ([m.group(0)]) and the text after it. *)
Record match_object : Type := {
  groups : captures;
  matched : string;
  rest : string
}.

Definition one (caps : captures) (a : ascii) (s' : string) : list match_object :=
  [{| groups := caps; matched := String a ""; rest := s' |}].

(** The match of [r1 r2] made of a match [m1] of [r1] and a match [m2] of
    [r2] on what follows [m1]. *)
Definition append (m1 m2 : match_object) : match_object :=
  {| groups := groups m2;
     matched := matched m1 ++ matched m2;
     rest := rest m2 |}.

Definition capture (name : string) (m : match_object) : match_object :=
  {| groups := (name, matched m) :: groups m;
     matched := matched m;
     rest := rest m |}.

Fixpoint matches (r : regex) (caps : captures) (s : string)
  : list match_object :=
  match r with
  | Eps => [{| groups := caps; matched := ""; rest := s |}]
  | Lit c =>
      match s with
      | String a s' => if Ascii.eqb a c then one caps a s' else []
      | "" => []
      end
  | LitI c =>
      match s with
      | String a s' =>
          if Ascii.eqb (lower a) (lower c) then one caps a s' else []
      | "" => []
      end
  | Dot =>
      match s with
      | String a s' => if Ascii.eqb a newline then [] else one caps a s'
      | "" => []
      end
  | Range lo hi =>
      match s with
      | String a s' => if in_range lo hi a then one caps a s' else []
      | "" => []
      end
  | Cat r1 r2 =>
      flat_map (fun m1 => map (append m1) (matches r2 (groups m1) (rest m1)))
               (matches r1 caps s)
  | Alt r1 r2 => matches r1 caps s ++ matches r2 caps s
  | Opt r1 =>
      matches r1 caps s ++ [{| groups := caps; matched := ""; rest := s |}]
  | Group name r1 => map (capture name) (matches r1 caps s)
  end.

(** [m.group(name)]: [None] for a group that took no part in the match. *)
Fixpoint lookup (name : string) (caps : captures) : option string :=
  match caps with
  | [] => None
  | (n, v) :: caps' => if String.eqb n name then Some v else lookup name caps'
  end.

Definition group (m : match_object) (name : string) : option string :=
  lookup name (groups m).

(** [pattern.match(s)]: anchored at the start of [s] only. *)
Definition re_match (r : regex) (s : string) : option match_object :=
  match matches r [] s with
  | [] => None
  | m :: _ => Some m
  end.

(** [pattern.search(s)]: the leftmost position at which [r] matches. *)
Fixpoint search (r : regex) (s : string) : option match_object :=
  match re_match r s with
  | Some m => Some m
  | None =>
      match s with
      | "" => None
      | String _ s' => search r s'
      end
  end.

(** The whole of [s] matches [r]: how a grammar "matched as a whole"
    reads. *)
Definition fullmatch (r : regex) (s : string) : bool :=
  existsb (fun m => Str.is_empty (rest m)) (matches r [] s).

(** A literal text. *)
Fixpoint str (l : string) : regex :=
  match l with
  | "" => Eps
  | String a l' => Cat (Lit a) (str l')
  end.

(** [r{n}] *)
Fixpoint rep (n : nat) (r : regex) : regex :=
  match n with
  | O => Eps
  | S n' => Cat r (rep n' r)
  end.

Fixpoint seq (rs : list regex) : regex :=
  match rs with
  | [] => Eps
  | r :: rs' => Cat r (seq rs')
  end.

(** [[0-9]]; also [\d], which on one-byte characters is the same class. *)
Definition digit : regex := Range "0" "9".

(** [re.compile] for the patterns the driver builds at run time: a
    sequence of ordinary characters, [.], escaped characters and classes
    [[a-b]], each possibly followed by a one-digit count [{n}].  Any other
    pattern syntax is outside what is modelled ([None]). *)
Definition special (a : ascii) : bool :=
  existsb (Ascii.eqb a)
    ["\"; "."; "["; "]"; "{"; "}"; "("; ")"; "*"; "+"; "?"; "|"; "^"; "$"]%char.

Definition count_of (n : ascii) : option nat :=
  if in_range "0" "9" n then Some (N.to_nat (N_of_ascii n - 48)) else None.

Definition with_count (atom : regex) (n : ascii) (tail : option regex)
  : option regex :=
  match count_of n, tail with
  | Some k, Some r => Some (Cat (rep k atom) r)
  | _, _ => None
  end.

Definition without_count (atom : regex) (tail : option regex) : option regex :=
  match tail with
  | Some r => Some (Cat atom r)
  | None => None
  end.

Fixpoint compile (p : string) : option regex :=
  match p with
  | "" => Some Eps
  | String "[" (String lo (String "-" (String hi (String "]" p1)))) =>
      match p1 with
      | String "{" (String n (String "}" p2)) =>
          with_count (Range lo hi) n (compile p2)
      | _ => without_count (Range lo hi) (compile p1)
      end
  | String "\" (String c p1) =>
      if special c then without_count (Lit c) (compile p1) else None
  | String "." p1 => without_count Dot (compile p1)
  | String a p1 =>
      if special a then None else without_count (Lit a) (compile p1)
  end.

End Re.

(* ================================================================== *)
(** * [datetime] *)

Module Datetime.

(** A naive [datetime]; the microsecond is always 0 in this driver and is
    left out. *)
Record datetime : Type := mk {
  year : Z; month : Z; day : Z;
  hour : Z; minute : Z; second : Z
}.

Definition MINYEAR : Z := 1.
Definition MAXYEAR : Z := 9999.
Definition MAXORDINAL : Z := 3652059.   (* date.max.toordinal() *)

Definition is_leap (y : Z) : bool :=
  (y mod 4 =? 0) && (negb (y mod 100 =? 0) || (y mod 400 =? 0)).

Definition DAYS_IN_MONTH : list Z :=
  [-1; 31; 28; 31; 30; 31; 30; 31; 31; 30; 31; 30; 31].

Definition DAYS_BEFORE_MONTH : list Z :=
  [-1; 0; 31; 59; 90; 120; 151; 181; 212; 243; 273; 304; 334].

Definition days_before_year (y : Z) : Z :=
  let y1 := y - 1 in
  y1 * 365 + y1 / 4 - y1 / 100 + y1 / 400.

Definition days_in_month (y m : Z) : Z :=
  if (m =? 2) && is_leap y then 29
  else nth (Z.to_nat m) DAYS_IN_MONTH (-1).

Definition days_before_month (y m : Z) : Z :=
  nth (Z.to_nat m) DAYS_BEFORE_MONTH (-1)
  + (if (2 <? m) && is_leap y then 1 else 0).

Definition ymd2ord (y m d : Z) : Z :=
  days_before_year y + days_before_month y m + d.

Definition DI400Y : Z := 146097.
Definition DI100Y : Z := 36524.
Definition DI4Y : Z := 1461.

(** The end of [_ord2ymd]: the month and the day of the [n]-th day
    (from 0) of a year. *)
Definition month_and_day (n : Z) (leapyear : bool) : Z * Z :=
  let m := Z.shiftr (n + 50) 5 in
  let preceding :=
    nth (Z.to_nat m) DAYS_BEFORE_MONTH (-1)
    + (if (2 <? m) && leapyear then 1 else 0) in
  if n <? preceding then
    let m' := m - 1 in
    let preceding' :=
      preceding
      - (nth (Z.to_nat m') DAYS_IN_MONTH (-1)
         + (if (m' =? 2) && leapyear then 1 else 0)) in
    (m', n - preceding' + 1)
  else (m, n - preceding + 1).

Definition ord2ymd (n0 : Z) : Z * Z * Z :=
  let n := n0 - 1 in
  let n400 := n / DI400Y in
  let n := n mod DI400Y in
  let n100 := n / DI100Y in
  let n := n mod DI100Y in
  let n4 := n / DI4Y in
  let n := n mod DI4Y in
  let n1 := n / 365 in
  let n := n mod 365 in
  let y := n400 * 400 + 1 + n100 * 100 + n4 * 4 + n1 in
  if (n1 =? 4) || (n100 =? 4) then (y - 1, 12, 31)
  else
    let leapyear := (n1 =? 3) && (negb (n4 =? 24) || (n100 =? 3)) in
    let '(m, d) := month_and_day n leapyear in
    (y, m, d).

(** The constructor [datetime(y, m, d, H, M, S)] with its range checks. *)
Definition make (y m d H M S : Z) : result datetime :=
  if (MINYEAR <=? y) && (y <=? MAXYEAR)
     && (1 <=? m) && (m <=? 12)
     && (1 <=? d) && (d <=? days_in_month y m)
     && (0 <=? H) && (H <=? 23)
     && (0 <=? M) && (M <=? 59)
     && (0 <=? S) && (S <=? 59)
  then Ok (mk y m d H M S)
  else Raise (ValueError FieldOutOfRange).

Definition toordinal (t : datetime) : Z :=
  ymd2ord (year t) (month t) (day t).

Definition fields (t : datetime) : list Z :=
  [year t; month t; day t; hour t; minute t; second t].

Fixpoint compare_fields (a b : list Z) : comparison :=
  match a, b with
  | x :: a', y :: b' =>
      match x ?= y with
      | Eq => compare_fields a' b'
      | c => c
      end
  | [], [] => Eq
  | [], _ :: _ => Lt
  | _ :: _, [] => Gt
  end.

Definition compare (a b : datetime) : comparison :=
  compare_fields (fields a) (fields b).

Definition ltb (a b : datetime) : bool :=
  match compare a b with Lt => true | _ => false end.

Definition leb (a b : datetime) : bool :=
  match compare a b with Gt => false | _ => true end.

(** [t + timedelta(days=k)] *)
Definition add_days (t : datetime) (k : Z) : result datetime :=
  let o := toordinal t + k in
  if (0 <? o) && (o <=? MAXORDINAL) then
    let '(y, m, d) := ord2ymd o in
    Ok (mk y m d (hour t) (minute t) (second t))
  else Raise OverflowError.


(* ---------------------------------------------------------------- *)
(** ** [strptime] and [strftime] *)

Definition digit_value (c : ascii) : Z := Z.of_N (N_of_ascii c) - 48.

(** [int(s)] for a text of decimal digits, leading blanks skipped. *)
Fixpoint int_from (acc : Z) (s : string) : Z :=
  match s with
  | "" => acc
  | String a s' =>
      if Ascii.eqb a " " then int_from acc s'
      else int_from (10 * acc + digit_value a) s'
  end.

Definition int (s : string) : Z := int_from 0 s.

(** The pattern [_strptime] substitutes for a directive. *)
Definition directive (c : ascii) : option Re.regex :=
  let d := Re.digit in
  let r := Re.Range in
  let cat := Re.Cat in
  let alt := Re.Alt in
  if Ascii.eqb c "Y" then
    Some (Re.Group "Y" (Re.rep 4 d))
  else if Ascii.eqb c "m" then
    Some (Re.Group "m"
            (alt (cat (Re.Lit "1") (r "0" "2"))
            (alt (cat (Re.Lit "0") (r "1" "9")) (r "1" "9"))))%char
  else if Ascii.eqb c "d" then
    Some (Re.Group "d"
            (alt (cat (Re.Lit "3") (r "0" "1"))
            (alt (cat (r "1" "2") d)
            (alt (cat (Re.Lit "0") (r "1" "9"))
            (alt (r "1" "9") (cat (Re.Lit " ") (r "1" "9")))))))%char
  else if Ascii.eqb c "H" then
    Some (Re.Group "H"
            (alt (cat (Re.Lit "2") (r "0" "3"))
            (alt (cat (r "0" "1") d) d)))%char
  else if Ascii.eqb c "M" then
    Some (Re.Group "M" (alt (cat (r "0" "5") d) d))%char
  else if Ascii.eqb c "S" then
    Some (Re.Group "S"
            (alt (cat (Re.Lit "6") (r "0" "1"))
            (alt (cat (r "0" "5") d) d)))%char
  else None.

(** The pattern of a format: each directive replaced by its pattern, every
    other character matched as it is, letters in either case.  Formats
    with blanks or with other directives than the six above are not
    modelled ([None]). *)
Fixpoint format_regex (fmt : string) : option Re.regex :=
  match fmt with
  | "" => Some Re.Eps
  | String "%" (String c fmt') =>
      match directive c, format_regex fmt' with
      | Some r, Some r' => Some (Re.Cat r r')
      | _, _ => None
      end
  | String a fmt' =>
      if Ascii.eqb a " " then None
      else
        match format_regex fmt' with
        | Some r' => Some (Re.Cat (Re.LitI a) r')
        | None => None
        end
  end.

Definition field (m : Re.match_object) (name : string) (default : Z) : Z :=
  match Re.group m name with
  | Some v => int v
  | None => default
  end.

(** [datetime.strptime(data, fmt)] *)
Definition strptime (data : option string) (fmt : string) : result datetime :=
  match data with
  | None => Raise (TypeError StrptimeArgNone)
  | Some s =>
      match format_regex fmt with
      | None => Raise (ValueError (DoesNotMatchFormat s))
      | Some r =>
          match Re.re_match r s with
          | None => Raise (ValueError (DoesNotMatchFormat s))
          | Some m =>
              if Str.is_empty (Re.rest m) then
                make (field m "Y" 1900) (field m "m" 1) (field m "d" 1)
                     (field m "H" 0) (field m "M" 0) (field m "S" 0)
              else Raise (ValueError (UnconvertedDataRemains (Re.rest m)))
          end
      end
  end.

Definition digit_char (z : Z) : ascii := ascii_of_N (Z.to_N (48 + z mod 10)).

(** [z] in decimal on [n] digits, zero-padded. *)
Fixpoint zpad (n : nat) (z : Z) : string :=
  match n with
  | O => ""
  | S n' => zpad n' (z / 10) ++ String (digit_char z) ""
  end.

Definition format_directive (t : datetime) (c : ascii) : option string :=
  if Ascii.eqb c "Y" then Some (zpad 4 (year t))
  else if Ascii.eqb c "m" then Some (zpad 2 (month t))
  else if Ascii.eqb c "d" then Some (zpad 2 (day t))
  else if Ascii.eqb c "H" then Some (zpad 2 (hour t))
  else if Ascii.eqb c "M" then Some (zpad 2 (minute t))
  else if Ascii.eqb c "S" then Some (zpad 2 (second t))
  else None.

(** [t.strftime(fmt)]; a directive other than the six above is copied. *)
Fixpoint strftime (t : datetime) (fmt : string) : string :=
  match fmt with
  | "" => ""
  | String "%" (String c fmt') =>
      match format_directive t c with
      | Some v => v ++ strftime t fmt'
      | None => String "%" (String c (strftime t fmt'))
      end
  | String a fmt' => String a (strftime t fmt')
  end.

End Datetime.

(* ================================================================== *)
(** * [os.path] (posixpath) *)

Module OsPath.

(** [os.path.split(p)] *)
Definition split (p : string) : string * string :=
  let i := Str.rfind "/" p + 1 in
  let head := Str.slice_to p i in
  let tail := Str.slice_from p i in
  if negb (Str.is_empty head) && negb (Str.all_char "/" head)
  then (Str.rstrip "/" head, tail)
  else (head, tail).

(** The loop of [genericpath._splitext]: is there a character other than
    a dot among the [n] characters of [p] from [filenameIndex] on. *)
Fixpoint non_dot_before (n : nat) (p : string) (filenameIndex : Z) : bool :=
  match n with
  | O => false
  | S n' =>
      if negb (String.eqb (Str.take 1 (Str.slice_from p filenameIndex)) ".")
      then true
      else non_dot_before n' p (filenameIndex + 1)
  end.

(** [os.path.splitext(p)] *)
Definition splitext (p : string) : string * string :=
  let sepIndex := Str.rfind "/" p in
  let dotIndex := Str.rfind "." p in
  if (sepIndex <? dotIndex)
     && non_dot_before (Z.to_nat (dotIndex - (sepIndex + 1))) p (sepIndex + 1)
  then (Str.slice_to p dotIndex, Str.slice_from p dotIndex)
  else (p, "").

(** [os.path.join(a, *ps)] *)
Fixpoint join (a : string) (ps : list string) : string :=
  match ps with
  | [] => a
  | b :: ps' =>
      if Str.startswith b "/" then join b ps'
      else if Str.is_empty a || Str.endswith a "/" then join (a ++ b) ps'
      else join (a ++ "/" ++ b) ps'
  end.

End OsPath.

(* ================================================================== *)
(** * Python numbers and built-ins *)

(** IEEE 754 binary64, the [float] of Python and of netCDF variables. *)
Definition float : Type := spec_float.
Definition prec : Z := 53.
Definition emax : Z := 1024.

Definition float_add (x y : float) : float := SFadd prec emax x y.
Definition float_of_int (z : Z) : float := binary_normalize prec emax z 0 false.

(** The literal [0.001]: the double nearest to it, 0x3F50624DD2F1A9FC. *)
Definition float_0_001 : float := S754_finite false 4611686018427388 (-62).

(** A number that is either an [int] or a [float]. *)
Inductive number : Type :=
| PyInt (z : Z)
| PyFloat (f : float).

(** [x + n] for a float [x]: an [int] operand is converted first. *)
Definition float_plus (x : float) (n : number) : float :=
  match n with
  | PyInt z => float_add x (float_of_int z)
  | PyFloat f => float_add x f
  end.

(** [a + b] for a [str] [a]: [b] must be a [str] too. *)
Definition str_plus (a : string) (b : option string) : result string :=
  match b with
  | Some b' => Ok (a ++ b')
  | None => Raise (TypeError ConcatStrNone)
  end.

(** [%s] applied to a value that is a [str] or [None]. *)
Definition percent_s (v : option string) : string :=
  match v with
  | Some s => s
  | None => "None"
  end.

Definition dquote : string := String "034"%char "".

(** [sorted(l)] for a list of [str]: byte-wise lexicographic order. *)
Fixpoint insert_sorted (x : string) (l : list string) : list string :=
  match l with
  | [] => [x]
  | y :: l' => if String.leb x y then x :: l else y :: insert_sorted x l'
  end.

Fixpoint sorted (l : list string) : list string :=
  match l with
  | [] => []
  | x :: l' => insert_sorted x (sorted l')
  end.

(** An association list used as a [dict] with [str] keys. *)
Fixpoint assoc {A : Type} (k : string) (d : list (string * A)) : option A :=
  match d with
  | [] => None
  | (k', v) :: d' => if String.eqb k' k then Some v else assoc k d'
  end.

(* ================================================================== *)
(** * The files: directories and netCDF datasets *)

Module NetCDF4.

Record group : Type := {
  attributes : list (string * string);
  group_variables : list (string * list float)
}.

Record dataset : Type := {
  groups : list (string * group);
  variables : list (string * list float)
}.

(** [ds.groups[name]] *)
Definition get_group (ds : dataset) (name : string) : result group :=
  match assoc name (groups ds) with
  | Some g => Ok g
  | None => Raise (KeyError name)
  end.

(** [g.<name>], an attribute of a group *)
Definition getattr (g : group) (name : string) : result string :=
  match assoc name (attributes g) with
  | Some v => Ok v
  | None => Raise (AttributeError name)
  end.

(** [vars[name][0]] *)
Definition first_of (vars : list (string * list float)) (name : string)
  : result float :=
  match assoc name vars with
  | None => Raise (KeyError name)
  | Some [] => Raise IndexError
  | Some (x :: _) => Ok x
  end.

End NetCDF4.

(** What the driver sees of the file system: [os.listdir] and the netCDF
    files that can be opened. *)
Record filesystem : Type := {
  listdir : string -> result (list string);
  netcdf : string -> option NetCDF4.dataset
}.

Inductive io_event : Type :=
| Opened (path : string)    (* netCDF4.Dataset(path) *)
| Closed (path : string).   (* nc4_dataset.close() *)

Definition path_eqb := String.eqb.

Fixpoint remove_first (p : string) (l : list string) : list string :=
  match l with
  | [] => []
  | q :: l' => if String.eqb q p then l' else q :: remove_first p l'
  end.

(** The files that a log of events leaves open. *)
Fixpoint open_after (opened : list string) (log : list io_event) : list string :=
  match log with
  | [] => opened
  | Opened p :: log' => open_after (p :: opened) log'
  | Closed p :: log' => open_after (remove_first p opened) log'
  end.

Definition open_files (log : list io_event) : list string := open_after [] log.

Definition opens (log : list io_event) : list string :=
  flat_map (fun e => match e with Opened p => [p] | Closed _ => [] end) log.

(* ================================================================== *)
(** * The driver *)

Definition HOURLY_FILENAME_DATE_FORMAT : string := "OOI-D%Y%m%d-T%H%M%S.nc".

Module ZplscProvenanceKey.
Definition DATA_FILE_NAME : string := "data_file_name".
Definition CONVERSION_SOFTWARE_NAME : string := "conversion_software_name".
Definition CONVERSION_SOFTWARE_VERSION : string := "conversion_software_version".
Definition CONVERSION_TIME : string := "conversion_time".
End ZplscProvenanceKey.

Module ZplscEchogramType.
Definition AVERAGED : string := "Averaged".
Definition FULL : string := "Full".
Definition HOURLY : string := "Hourly".
End ZplscEchogramType.

(** [self.provenance]: a [dict] that only ever holds the four keys of
    [ZplscProvenanceKey]; a key that is not set is [None] here. *)
Record provenance_dict : Type := {
  data_file_name : option string;
  conversion_software_name : option string;
  conversion_software_version : option string;
  conversion_time : option string
}.

Definition empty_provenance : provenance_dict :=
  {| data_file_name := None; conversion_software_name := None;
     conversion_software_version := None; conversion_time := None |}.

(** [particle_data_dict] *)
Record particle_data : Type := {
  INTERNAL_TIMESTAMP : float;
  FILE_TIME : float;         (* zplsc_timestamp *)
  ECHOGRAM_PATH : string     (* filepath *)
}.

(** A [ZplscMetadataParticle]: its raw data and the two timestamps of its
    contents that the parser sets. *)
Record ZplscMetadataParticle : Type := {
  raw_data : particle_data;
  internal_timestamp : float;
  driver_timestamp : float
}.

(** The parser object and the log of the files it opened and closed. *)
Record parser_state : Type := {
  provenance : provenance_dict;
  record_buffer : list ZplscMetadataParticle;
  io_log : list io_event
}.

Definition initial_state : parser_state :=
  {| provenance := empty_provenance; record_buffer := []; io_log := [] |}.

(** Computations of the parser: they change its state and may raise. *)
Definition M (A : Type) : Type := parser_state -> result A * parser_state.

Definition ret {A} (a : A) : M A := fun st => (Ok a, st).
Definition raise {A} (e : exn) : M A := fun st => (Raise e, st).
Definition lift {A} (r : result A) : M A := fun st => (r, st).

Definition bind {A B} (c : M A) (k : A -> M B) : M B :=
  fun st =>
    match c st with
    | (Ok a, st') => k a st'
    | (Raise e, st') => (Raise e, st')
    end.

Declare Scope parser_scope.
Delimit Scope parser_scope with parser.
Notation "x <- c ;; k" := (bind c (fun x => k))
  (at level 61, c at next level, right associativity) : parser_scope.
Notation "c ;;; k" := (bind c (fun _ => k))
  (at level 61, right associativity) : parser_scope.
Notation "x <-- r ;; k" := (result_bind r (fun x => k))
  (at level 61, r at next level, right associativity) : parser_scope.
Local Open Scope parser_scope.

Definition log_event (e : io_event) : M unit :=
  fun st => (Ok tt, {| provenance := provenance st;
                       record_buffer := record_buffer st;
                       io_log := io_log st ++ [e] |}).

Definition get_provenance : M provenance_dict :=
  fun st => (Ok (provenance st), st).

Definition set_provenance (p : provenance_dict) : M unit :=
  fun st => (Ok tt, {| provenance := p;
                       record_buffer := record_buffer st;
                       io_log := io_log st |}).

Definition append_record (x : ZplscMetadataParticle) : M unit :=
  fun st => (Ok tt, {| provenance := provenance st;
                       record_buffer := record_buffer st ++ [x];
                       io_log := io_log st |}).

Definition set_data_file_name (v : string) : M unit :=
  p <- get_provenance ;;
  set_provenance {| data_file_name := Some v;
                    conversion_software_name := conversion_software_name p;
                    conversion_software_version := conversion_software_version p;
                    conversion_time := conversion_time p |}.

Definition set_conversion_software_name (v : string) : M unit :=
  p <- get_provenance ;;
  set_provenance {| data_file_name := data_file_name p;
                    conversion_software_name := Some v;
                    conversion_software_version := conversion_software_version p;
                    conversion_time := conversion_time p |}.

Definition set_conversion_software_version (v : string) : M unit :=
  p <- get_provenance ;;
  set_provenance {| data_file_name := data_file_name p;
                    conversion_software_name := conversion_software_name p;
                    conversion_software_version := Some v;
                    conversion_time := conversion_time p |}.

Definition set_conversion_time (v : string) : M unit :=
  p <- get_provenance ;;
  set_provenance {| data_file_name := data_file_name p;
                    conversion_software_name := conversion_software_name p;
                    conversion_software_version := conversion_software_version p;
                    conversion_time := Some v |}.

(** [netCDF4.Dataset(path)]: the file is open from here on. *)
Definition Dataset (fs : filesystem) (path : string) : M NetCDF4.dataset :=
  match netcdf fs path with
  | None => raise (IOError path)
  | Some ds => log_event (Opened path) ;;; ret ds
  end.

(** [nc4_dataset.close()] *)
Definition close (path : string) : M unit := log_event (Closed path).

(** [v == k] for a value [v] that is a [str] or [None]. *)
Definition eq_str (v : option string) (k : string) : bool :=
  match v with
  | Some s => String.eqb s k
  | None => false
  end.

(** The truth value of a value that is a [str] or [None]. *)
Definition truthy (v : option string) : bool :=
  match v with
  | Some s => negb (Str.is_empty s)
  | None => false
  end.

(** [d[key]] for a key of [self.provenance]. *)
Definition getitem (key : string) (v : option string) : result string :=
  match v with
  | Some s => Ok s
  | None => Raise (KeyError key)
  end.

(** [self.provenance[ZplscProvenanceKey.DATA_FILE_NAME]] *)
Definition getitem_data_file_name (p : provenance_dict) : result string :=
  getitem ZplscProvenanceKey.DATA_FILE_NAME (data_file_name p).

Definition averaged_or_full_filename_regex_str : string :=
  "Bioacoustic_Echogram_(?P<start_date>[0-9]{8})-(?P<stop_date>[0-9]{8})_Calibrated_Sv_(?P<type>Averaged|Full)_?(?P<date>[0-9]{8})?\.nc".

(** The pattern of [averaged_or_full_filename_regex_str], compiled. *)
Definition averaged_or_full_filename_regex : Re.regex :=
  Re.seq
    [ Re.str "Bioacoustic_Echogram_";
      Re.Group "start_date" (Re.rep 8 Re.digit);
      Re.Lit "-";
      Re.Group "stop_date" (Re.rep 8 Re.digit);
      Re.str "_Calibrated_Sv_";
      Re.Group "type" (Re.Alt (Re.str "Averaged") (Re.str "Full"));
      Re.Opt (Re.Lit "_");
      Re.Opt (Re.Group "date" (Re.rep 8 Re.digit));
      Re.str ".nc" ].

Definition hourly_filename_regex_str : string := "OOI-D[0-9]{8}-T[0-9]{6}\.nc".

(** The pattern of [hourly_filename_regex_str], compiled. *)
Definition hourly_filename_regex : Re.regex :=
  Re.seq
    [ Re.str "OOI-D"; Re.rep 8 Re.digit; Re.str "-T"; Re.rep 6 Re.digit;
      Re.str ".nc" ].

(** The message of the exception for a filename of neither format. *)
Definition format_error_msg (echogram_filename : string) : string :=
  "Filename " ++ dquote ++ echogram_filename ++ dquote
  ++ " not in either of the expected formats: "
  ++ dquote ++ averaged_or_full_filename_regex_str ++ dquote
  ++ " or " ++ dquote ++ hourly_filename_regex_str ++ dquote.

(** The message of the exception when no hourly file is found. *)
Definition correlation_error_msg
    (start_day_datetime stop_day_datetime : Datetime.datetime)
    (echogram_type : option string)
    (echogram_filename hourly_file_regex : string) : string :=
  "Hourly files from "
  ++ Datetime.strftime start_day_datetime HOURLY_FILENAME_DATE_FORMAT
  ++ " to "
  ++ Datetime.strftime stop_day_datetime HOURLY_FILENAME_DATE_FORMAT
  ++ " corresponding to " ++ dquote ++ percent_s echogram_type ++ dquote
  ++ " echogram " ++ dquote ++ echogram_filename ++ dquote
  ++ " could not be found that match regex "
  ++ dquote ++ hourly_file_regex ++ dquote.

(** [parse_file], lines 192-203: the two filename formats, tried in order.
    The result is the match object and [echogram_type]. *)
Definition match_filename (echogram_filename : string)
  : result (Re.match_object * option string) :=
  match Re.search averaged_or_full_filename_regex echogram_filename with
  | Some m => Ok (m, Re.group m "type")
  | None =>
      match Re.re_match hourly_filename_regex echogram_filename with
      | Some m => Ok (m, Some ZplscEchogramType.HOURLY)
      | None => Raise (SampleException (format_error_msg echogram_filename))
      end
  end.

(** [parse_file], lines 207-220: the pattern of the hourly files and the
    start and stop of the time range, from the captures of the match. *)
Definition search_window (echogram_filename : string) (m : Re.match_object)
    (echogram_type : option string)
  : result (string * Datetime.datetime * Datetime.datetime) :=
  if eq_str echogram_type ZplscEchogramType.FULL then
    prefix <-- str_plus "OOI-D" (Re.group m "date") ;;
    let hourly_file_regex := prefix ++ "-T[0-9]{6}\.nc" in
    start_day_datetime <-- Datetime.strptime (Re.group m "date") "%Y%m%d" ;;
    stop_day_datetime <-- Datetime.add_days start_day_datetime 1 ;;
    Ok (hourly_file_regex, start_day_datetime, stop_day_datetime)
  else if eq_str echogram_type ZplscEchogramType.AVERAGED then
    let hourly_file_regex := "OOI-D[0-9]{8}-T[0-9]{6}\.nc" in
    start_day_datetime <-- Datetime.strptime (Re.group m "start_date") "%Y%m%d" ;;
    stop_day_datetime <-- Datetime.strptime (Re.group m "stop_date") "%Y%m%d" ;;
    Ok (hourly_file_regex, start_day_datetime, stop_day_datetime)
  else
    let hourly_file_regex := echogram_filename in
    start_day_datetime <--
      Datetime.strptime (Some echogram_filename) HOURLY_FILENAME_DATE_FORMAT ;;
    let stop_day_datetime := start_day_datetime in
    Ok (hourly_file_regex, start_day_datetime, stop_day_datetime).

(** [re.match(pattern, f)] for a pattern given as text. *)
Definition re_match_str (pattern f : string) : result (option Re.match_object) :=
  match Re.compile pattern with
  | Some r => Ok (Re.re_match r f)
  | None => Raise (ReError pattern)
  end.

(** The condition of the list comprehension of lines 224-228 for one entry
    [f] of the directory. *)
Definition is_hourly_file (hourly_file_regex : string)
    (echogram_type : option string)
    (start_day_datetime stop_day_datetime : Datetime.datetime) (f : string)
  : result bool :=
  found <-- re_match_str hourly_file_regex f ;;
  match found with
  | None => Ok false
  | Some _ =>
      if eq_str echogram_type ZplscEchogramType.HOURLY then Ok true
      else
        t <-- Datetime.strptime (Some f) HOURLY_FILENAME_DATE_FORMAT ;;
        Ok (Datetime.leb start_day_datetime t
            && Datetime.ltb t stop_day_datetime)
  end.

(** The list comprehension of lines 224-228 over the entries of the
    directory, in the order [os.listdir] gives them. *)
Fixpoint select_hourly_files (hourly_file_regex : string)
    (echogram_type : option string)
    (start_day_datetime stop_day_datetime : Datetime.datetime)
    (entries : list string) : result (list string) :=
  match entries with
  | [] => Ok []
  | f :: entries' =>
      keep <-- is_hourly_file hourly_file_regex echogram_type
                 start_day_datetime stop_day_datetime f ;;
      others <-- select_hourly_files hourly_file_regex echogram_type
                   start_day_datetime stop_day_datetime entries' ;;
      Ok (if keep then f :: others else others)
  end.

(** Modelled from the spec: [SimpleParser._extract_sample] and the
    [DataParticle] constructor are not under src/.  The spec has the
    assembler build exactly one record from the data dictionary, with the
    internal timestamp it is given and a driver timestamp of its own that
    the parser overwrites afterwards; the two values that
    [_build_parsed_values] encodes are a [str] and a [float] already, so no
    encoding error arises. *)
Definition extract_sample (default_driver_timestamp : float)
    (data : particle_data) (internal : float) : ZplscMetadataParticle :=
  {| raw_data := data;
     internal_timestamp := internal;
     driver_timestamp := default_driver_timestamp |}.

Section Parser.

(** [mi.core.time_tools], which is not under src/: the conversions to the
    NTP epoch, and the clock behind the driver timestamp a new particle
    gets. *)
Variable time_to_ntp_date_time : float -> float.
Variable string_to_ntp_date_time : string -> result float.
Variable default_driver_timestamp : float.

Variable fs : filesystem.

Definition set_provenance_from_hourly_file (hourly_file : string) : M unit :=
  nc4_dataset <- Dataset fs hourly_file ;;
  v <- lift (g <-- NetCDF4.get_group nc4_dataset "Provenance" ;;
             NetCDF4.getattr g "src_filenames") ;;
  set_data_file_name v ;;;
  v <- lift (g <-- NetCDF4.get_group nc4_dataset "Provenance" ;;
             NetCDF4.getattr g "conversion_software_name") ;;
  set_conversion_software_name v ;;;
  v <- lift (g <-- NetCDF4.get_group nc4_dataset "Provenance" ;;
             NetCDF4.getattr g "conversion_software_version") ;;
  set_conversion_software_version v ;;;
  v <- lift (g <-- NetCDF4.get_group nc4_dataset "Provenance" ;;
             NetCDF4.getattr g "conversion_time") ;;
  set_conversion_time v ;;;
  close hourly_file.

Definition modify_provenance_for_echogram_type
    (echogram_type : option string)
    (first_datetime last_datetime : Datetime.datetime) : M unit :=
  p <- get_provenance ;;
  let data_file_name := data_file_name p in
  if eq_str echogram_type ZplscEchogramType.HOURLY || negb (truthy data_file_name)
  then ret tt
  else
    let data_file_name := percent_s data_file_name in
    let '(daily_dirname, data_filename) := OsPath.split data_file_name in
    let '(data_filename_wo_ext, data_filename_ext) :=
      OsPath.splitext data_filename in
    if eq_str echogram_type ZplscEchogramType.FULL then
      set_data_file_name
        (Str.slice_to data_file_name (Str.rfind "T" data_file_name)
         ++ "T*" ++ data_filename_ext)
    else
      last_datetime <- lift (Datetime.add_days last_datetime (-1)) ;;
      let base_time_range_str :=
        Str.slice_to data_filename_wo_ext (Str.rfind "D" data_filename_wo_ext)
        ++ "D*-T*" ++ data_filename_ext in
      let monthly_dirname := fst (OsPath.split daily_dirname) in
      let yearly_dirname := fst (OsPath.split monthly_dirname) in
      set_data_file_name
        (OsPath.join yearly_dirname
           [Datetime.strftime first_datetime "%m";
            Datetime.strftime first_datetime "%d";
            base_time_range_str]) ;;;
      if Datetime.ltb first_datetime last_datetime then
        p <- get_provenance ;;
        current <- lift (getitem_data_file_name p) ;;
        set_data_file_name
          (current ++ " ... "
           ++ OsPath.join yearly_dirname
                [Datetime.strftime last_datetime "%m";
                 Datetime.strftime last_datetime "%d";
                 base_time_range_str])
      else ret tt.

Definition get_first_ping_time_from_echogram (echogram_filepath : string)
    (echogram_type : option string) : M float :=
  nc4_dataset <- Dataset fs echogram_filepath ;;
  first_ping_time <-
    lift (if eq_str echogram_type ZplscEchogramType.HOURLY then
            g <-- NetCDF4.get_group nc4_dataset "Beam" ;;
            NetCDF4.first_of (NetCDF4.group_variables g) "ping_time"
          else
            x <-- NetCDF4.first_of (NetCDF4.variables nc4_dataset) "ping_time" ;;
            Ok (time_to_ntp_date_time x)) ;;
  close echogram_filepath ;;;
  ret first_ping_time.

(** [sorted(hourly_files)[0]] *)
Definition first_sorted (hourly_files : list string) : result string :=
  match sorted hourly_files with
  | f :: _ => Ok f
  | [] => Raise IndexError
  end.

Definition parse_file (echogram_filepath : string) : M unit :=
  let '(echogram_dirname, echogram_filename) := OsPath.split echogram_filepath in
  found <- lift (match_filename echogram_filename) ;;
  let '(m, echogram_type) := found in
  window <- lift (search_window echogram_filename m echogram_type) ;;
  let '(hourly_file_regex, start_day_datetime, stop_day_datetime) := window in
  entries <- lift (listdir fs echogram_dirname) ;;
  hourly_files <- lift (select_hourly_files hourly_file_regex echogram_type
                          start_day_datetime stop_day_datetime entries) ;;
  if (List.length hourly_files =? 0)%nat then
    raise (SampleException
             (correlation_error_msg start_day_datetime stop_day_datetime
                echogram_type echogram_filename hourly_file_regex))
  else
    first_hourly_file <- lift (first_sorted hourly_files) ;;
    set_provenance_from_hourly_file
      (OsPath.join echogram_dirname [first_hourly_file]) ;;;
    modify_provenance_for_echogram_type echogram_type
      start_day_datetime stop_day_datetime ;;;
    let timestamp_offset :=
      if eq_str echogram_type ZplscEchogramType.FULL
      then PyFloat float_0_001 else PyInt 0 in
    first_ping_time <-
      get_first_ping_time_from_echogram echogram_filepath echogram_type ;;
    let particle_data_dict :=
      {| INTERNAL_TIMESTAMP := float_plus first_ping_time timestamp_offset;
         FILE_TIME := first_ping_time;
         ECHOGRAM_PATH := echogram_filepath |} in
    let particle :=
      extract_sample default_driver_timestamp particle_data_dict
        (INTERNAL_TIMESTAMP particle_data_dict) in
    p <- get_provenance ;;
    conversion_time <- lift (getitem ZplscProvenanceKey.CONVERSION_TIME
                               (conversion_time p)) ;;
    driver_time <- lift (string_to_ntp_date_time conversion_time) ;;
    append_record {| raw_data := raw_data particle;
                     internal_timestamp := internal_timestamp particle;
                     driver_timestamp := driver_time |}.

End Parser.

(* ================================================================== *)
(** * The driver: from the provenance to the processing information *)

(** The keys of [ProcessingInfoKey] that the driver sets. *)
Module ProcessingInfoKey.
Inductive t : Type := DATA_FILE | PARSER | PARSER_VERSION.
End ProcessingInfoKey.

(** Modelled from the spec: [ParticleDataHandler] is not under src/.  The
    spec has the handler accept a small key/value set of processing-info
    strings; it is modelled by the calls of [setProcessingInfo] it
    receives, in the order in which they are made. *)
Definition particle_data_handler : Type := list (ProcessingInfoKey.t * string).

Definition setProcessingInfo (key : ProcessingInfoKey.t) (value : string)
    (handler : particle_data_handler) : particle_data_handler :=
  (handler ++ [(key, value)])%list.

(** [ZplscEchogramUploadDriver.add_provenance_to_processing_info], on the
    provenance of the parser. *)
Definition add_provenance_to_processing_info (parser_provenance : provenance_dict)
    (handler : particle_data_handler) : particle_data_handler :=
  let handler :=
    match data_file_name parser_provenance with
    | Some v => setProcessingInfo ProcessingInfoKey.DATA_FILE v handler
    | None => handler
    end in
  let handler :=
    match conversion_software_name parser_provenance with
    | Some v => setProcessingInfo ProcessingInfoKey.PARSER v handler
    | None => handler
    end in
  match conversion_software_version parser_provenance with
  | Some v => setProcessingInfo ProcessingInfoKey.PARSER_VERSION v handler
  | None => handler
  end.

(* ================================================================== *)
(** * Patterns without choice

    A pattern made of single-character classes only matches in at most one
    way: character by character. *)

Inductive atom : Type :=
| ALit (c : ascii)
| ALitI (c : ascii)
| ADot
| ARange (lo hi : ascii).

Definition accepts (a : atom) (c : ascii) : bool :=
  match a with
  | ALit x => Ascii.eqb c x
  | ALitI x => Ascii.eqb (Re.lower c) (Re.lower x)
  | ADot => negb (Ascii.eqb c Re.newline)
  | ARange lo hi => Re.in_range lo hi c
  end.

Fixpoint atoms (r : Re.regex) : option (list atom) :=
  match r with
  | Re.Eps => Some []
  | Re.Lit c => Some [ALit c]
  | Re.LitI c => Some [ALitI c]
  | Re.Dot => Some [ADot]
  | Re.Range lo hi => Some [ARange lo hi]
  | Re.Cat r1 r2 =>
      match atoms r1, atoms r2 with
      | Some a1, Some a2 => Some (a1 ++ a2)%list
      | _, _ => None
      end
  | _ => None
  end.

(** The text that the atoms accept at the start of [s], and what follows. *)
Fixpoint match_atoms (cs : list atom) (s : string) : option (string * string) :=
  match cs with
  | [] => Some ("", s)
  | a :: cs' =>
      match s with
      | String c s' =>
          if accepts a c then
            match match_atoms cs' s' with
            | Some (t, rest) => Some (String c t, rest)
            | None => None
            end
          else None
      | "" => None
      end
  end.

Definition of_atoms (caps : Re.captures) (o : option (string * string))
  : list Re.match_object :=
  match o with
  | Some (t, rest) => [{| Re.groups := caps; Re.matched := t; Re.rest := rest |}]
  | None => []
  end.

Definition is_digit (c : ascii) : bool := Re.in_range "0" "9" c.

Fixpoint all_digits (s : string) : bool :=
  match s with
  | "" => true
  | String c s' => is_digit c && all_digits s'
  end.

(** A name of the hourly form, from its eight digits of date and its six
    digits of time. *)
Definition hourly_name (d t : string) : string :=
  "OOI-D" ++ d ++ "-T" ++ t ++ ".nc".

(** ** The pattern of [HOURLY_FILENAME_DATE_FORMAT], piece by piece *)

Definition dir (c : ascii) : Re.regex :=
  match Datetime.directive c with
  | Some r => r
  | None => Re.Eps
  end.

Definition tail_nc : Re.regex :=
  Re.Cat (Re.LitI ".") (Re.Cat (Re.LitI "n") (Re.Cat (Re.LitI "c") Re.Eps)).
Definition tail_S : Re.regex := Re.Cat (dir "S") tail_nc.
Definition tail_M : Re.regex := Re.Cat (dir "M") tail_S.
Definition tail_H : Re.regex := Re.Cat (dir "H") tail_M.
Definition tail_T : Re.regex := Re.Cat (Re.LitI "-") (Re.Cat (Re.LitI "T") tail_H).
Definition tail_d : Re.regex := Re.Cat (dir "d") tail_T.
Definition tail_m : Re.regex := Re.Cat (dir "m") tail_d.
Definition tail_Y : Re.regex := Re.Cat (dir "Y") tail_m.
Definition hourly_format_regex : Re.regex :=
  Re.Cat (Re.LitI "O") (Re.Cat (Re.LitI "O") (Re.Cat (Re.LitI "I")
    (Re.Cat (Re.LitI "-") (Re.Cat (Re.LitI "D") tail_Y)))).

Definition mk_match (caps : Re.captures) (t rest : string) : Re.match_object :=
  {| Re.groups := caps; Re.matched := t; Re.rest := rest |}.

Definition s1 (a : ascii) : string := String a "".
Definition s2 (a b : ascii) : string := String a (String b "").

(** The two-character and one-character alternatives of a directive. *)
Definition two_ok (c a b : ascii) : bool :=
  if Ascii.eqb c "m" then
    (Ascii.eqb a "1" && Re.in_range "0" "2" b)
    || (Ascii.eqb a "0" && Re.in_range "1" "9" b)
  else if Ascii.eqb c "d" then
    (Ascii.eqb a "3" && Re.in_range "0" "1" b)
    || Re.in_range "1" "2" a
    || (Ascii.eqb a "0" && Re.in_range "1" "9" b)
  else if Ascii.eqb c "H" then
    (Ascii.eqb a "2" && Re.in_range "0" "3" b) || Re.in_range "0" "1" a
  else if Ascii.eqb c "M" then Re.in_range "0" "5" a
  else (Ascii.eqb a "6" && Re.in_range "0" "1" b) || Re.in_range "0" "5" a.

Definition one_ok (c a : ascii) : bool :=
  if Ascii.eqb c "m" then Re.in_range "1" "9" a
  else if Ascii.eqb c "d" then Re.in_range "1" "9" a
  else true.

Definition candidates (c : ascii) (caps : Re.captures) (a b : ascii) (s : string)
  : list Re.match_object :=
  ((if two_ok c a b
    then [mk_match ((String c "", s2 a b) :: caps) (s2 a b) s] else [])
   ++ (if one_ok c a
       then [mk_match ((String c "", s1 a) :: caps) (s1 a) (String b s)]
       else []))%list.

(** The value of a two-digit and of a four-digit field. *)
Definition val2 (a b : ascii) : Z :=
  10 * Datetime.digit_value a + Datetime.digit_value b.
Definition val4 (a b c d : ascii) : Z :=
  10 * (10 * (10 * Datetime.digit_value a + Datetime.digit_value b)
        + Datetime.digit_value c) + Datetime.digit_value d.

(** A name of the hourly form, digit by digit, and what may follow it. *)
Definition name14 (y1 y2 y3 y4 m1 m2 d1 d2 H1 H2 M1 M2 S1 S2 : ascii)
    (rest : string) : string :=
  "OOI-D" ++ String y1 (String y2 (String y3 (String y4 (String m1 (String m2
    (String d1 (String d2 ("-T" ++ String H1 (String H2 (String M1 (String M2
    (String S1 (String S2 (".nc" ++ rest)))))))))))))).

Definition fields_ok (m1 m2 d1 d2 H1 H2 M1 M2 S1 S2 : ascii) : bool :=
  two_ok "m" m1 m2 && two_ok "d" d1 d2 && two_ok "H" H1 H2
  && two_ok "M" M1 M2 && two_ok "S" S1 S2.

(** The character classes of the hourly pattern, one per character. *)
Definition hourly_atoms : list atom :=
  match atoms hourly_filename_regex with
  | Some l => l
  | None => []
  end.

(** The fourteen digits of a name are those of a date and time of day. *)
Definition make14 (y1 y2 y3 y4 m1 m2 d1 d2 H1 H2 M1 M2 S1 S2 : ascii)
  : result Datetime.datetime :=
  Datetime.make (val4 y1 y2 y3 y4) (val2 m1 m2) (val2 d1 d2)
                (val2 H1 H2) (val2 M1 M2) (val2 S1 S2).

(** The timestamp embedded in the name of an hourly file: the name matches
    the hourly pattern and [strptime] reads a date and time from it. *)
Definition hourly_timestamp (f : string) : option Datetime.datetime :=
  match Re.re_match hourly_filename_regex f,
        Datetime.strptime (Some f) HOURLY_FILENAME_DATE_FORMAT with
  | Some _, Ok t => Some t
  | _, _ => None
  end.

(** The groups of a match of the range form, from the four captures. *)
Definition range_groups (start stop type : string) (date : option string)
  : Re.captures :=
  (match date with
   | Some d => [("date", d)]
   | None => []
   end
   ++ [("type", type); ("stop_date", stop); ("start_date", start)])%list.

Definition eight_digits (d : string) : Prop :=
  all_digits d = true /\ String.length d = 8%nat.

(** The pattern of the hourly files of a [Full] echogram, as text. *)
Definition full_hourly_file_regex (date : string) : string :=
  ("OOI-D" ++ date) ++ "-T[0-9]{6}\.nc".

Definition lits (l : string) : list atom := map ALit (list_ascii_of_string l).

(** Its character classes. *)
Definition full_atoms (date : string) : list atom :=
  (lits "OOI-D" ++ lits date ++ lits "-T" ++ repeat (ARange "0" "9") 6
   ++ lits ".nc")%list.

Definition six_digits (t : string) : Prop :=
  all_digits t = true /\ String.length t = 6%nat.

(** [re.match(pattern, f)] finds a match. *)
Definition pattern_matches (pattern f : string) : Prop :=
  exists m, re_match_str pattern f = Ok (Some m).

(** The day that eight digits [YYYYMMDD] spell, at midnight, when they
    spell a day of the calendar. *)
Definition day_of_digits (s : string) : option Datetime.datetime :=
  match s with
  | String y1 (String y2 (String y3 (String y4
      (String m1 (String m2 (String d1 (String d2 ""))))))) =>
      if all_digits s then
        match Datetime.make (val4 y1 y2 y3 y4) (val2 m1 m2) (val2 d1 d2) 0 0 0 with
        | Ok D => Some D
        | Raise _ => None
        end
      else None
  | _ => None
  end.


Fixpoint has_char (c : ascii) (s : string) : bool :=
  match s with
  | "" => false
  | String a s' => Ascii.eqb a c || has_char c s'
  end.

(** ** Sample collaborators and files for the concrete cases *)

(** Seconds between the NTP epoch (1900) and the Unix epoch (1970). *)
Definition NTP_DELTA : float := float_of_int 2208988800.

Definition sample_time_to_ntp (x : float) : float := float_add x NTP_DELTA.

Definition sample_string_to_ntp (s : string) : result float :=
  if Str.is_empty s then Raise (ValueError (DoesNotMatchFormat s))
  else Ok (float_of_int 3780604800).

Definition sample_driver_timestamp : float := float_of_int 3780691200.

Definition sample_provenance : NetCDF4.group :=
  {| NetCDF4.attributes :=
       [("src_filenames", "/data/2019/10/20/OOI-D20191020-T003835.raw");
        ("conversion_software_name", "echopype");
        ("conversion_software_version", "0.1.0");
        ("conversion_time", "2019-10-21T00:00:00Z")];
     NetCDF4.group_variables := [] |}.

Definition sample_ping_time : float := float_of_int 1571531915.

(** An hourly file: provenance and a ping time under [Beam]. *)
Definition sample_hourly_dataset : NetCDF4.dataset :=
  {| NetCDF4.groups :=
       [("Provenance", sample_provenance);
        ("Beam", {| NetCDF4.attributes := [];
                    NetCDF4.group_variables :=
                      [("ping_time", [sample_ping_time])] |})];
     NetCDF4.variables := [] |}.

(** An averaged or full echogram: a flat file with a ping time. *)
Definition sample_flat_dataset : NetCDF4.dataset :=
  {| NetCDF4.groups := [];
     NetCDF4.variables := [("ping_time", [sample_ping_time])] |}.

Definition sample_averaged_path : string :=
  "/data/CE07SHSM_Bioacoustic_Echogram_20191020-20191027_Calibrated_Sv_Averaged.nc".
Definition sample_full_path : string :=
  "/data/CE07SHSM_Bioacoustic_Echogram_20191020-20191027_Calibrated_Sv_Full_20191020.nc".
Definition sample_hourly_path : string := "/data/OOI-D20191020-T003835.nc".

(** A directory [/data] with the entries [entries], in which every hourly
    name and the two echograms can be opened. *)
Definition sample_fs (entries : list string) : filesystem :=
  {| listdir := fun d =>
       if String.eqb d "/data" then Ok entries else Raise (OSError d);
     netcdf := fun p =>
       if String.eqb p sample_averaged_path || String.eqb p sample_full_path
       then Some sample_flat_dataset
       else if Str.contains "/data/OOI-D" p then Some sample_hourly_dataset
       else None |}.

(** The parser on the sample collaborators. *)
Definition sample_parse_file (fs : filesystem) (path : string)
  : result unit * parser_state :=
  parse_file sample_time_to_ntp sample_string_to_ntp sample_driver_timestamp
    fs path initial_state.

(** The exceptions of a failed read of a group, an attribute or a
    variable of an open dataset. *)
Definition read_failure (e : exn) : bool :=
  match e with
  | KeyError _ | AttributeError _ | IndexError => true
  | _ => false
  end.

(** ** The rewritten reference of an averaged echogram, in the spec's words *)

(** The directory of the year: three levels above the raw file. *)
Definition year_dir (ref : string) : string :=
  fst (OsPath.split (fst (OsPath.split (fst (OsPath.split ref))))).

(** The template [<stem>D*-T*<ext>]: the name of the raw file up to its
    last [D], the two wildcards, and its extension. *)
Definition wildcard_template (ref : string) : string :=
  let name := snd (OsPath.split ref) in
  let stem := fst (OsPath.splitext name) in
  Str.slice_to stem (Str.rfind "D" stem) ++ "D*-T*" ++ snd (OsPath.splitext name).

(** The path [<year-dir>/<MM>/<DD>/<template>] of the day of [t]. *)
Definition day_path (ref : string) (t : Datetime.datetime) : string :=
  OsPath.join (year_dir ref)
    [Datetime.zpad 2 (Datetime.month t); Datetime.zpad 2 (Datetime.day t);
     wildcard_template ref].

(** The state after [self.provenance[DATA_FILE_NAME] = v]. *)
Definition with_data_file_name (st : parser_state) (v : string) : parser_state :=
  {| provenance :=
       {| data_file_name := Some v;
          conversion_software_name := conversion_software_name (provenance st);
          conversion_software_version :=
            conversion_software_version (provenance st);
          conversion_time := conversion_time (provenance st) |};
     record_buffer := record_buffer st;
     io_log := io_log st |}.

(** A parser whose provenance holds the reference [ref]. *)
Definition state_with_reference (ref : string) : parser_state :=
  with_data_file_name initial_state ref.

(** A computation leaves open no file that it opened, unless it ends with
    the exception of a failed read. *)
Definition closes_its_files {A : Type} (c : M A) : Prop :=
  forall st,
    open_files (io_log (snd (c st))) = open_files (io_log st)
    \/ exists e, fst (c st) = Raise e /\ read_failure e = true.

(** A directory [/data] with the entries [entries] in which every file is
    a flat dataset: the hourly files have no [Provenance] group. *)
Definition sample_fs_without_provenance (entries : list string) : filesystem :=
  {| listdir := fun d =>
       if String.eqb d "/data" then Ok entries else Raise (OSError d);
     netcdf := fun _ => Some sample_flat_dataset |}.

(** A computation leaves the record buffer as it is. *)
Definition keeps_records {A : Type} (c : M A) : Prop :=
  forall st, record_buffer (snd (c st)) = record_buffer st.

(** Two floats are the same number: the same value, or the two zeros. *)
Definition same_number (x y : float) : Prop :=
  x = y \/ (x = S754_zero false /\ y = S754_zero true).

(** A day of the calendar that [datetime] can hold. *)
Definition valid_date (y m d : Z) : Prop :=
  1 <= y <= 9999 /\ 1 <= m <= 12 /\ 1 <= d <= Datetime.days_in_month y m.

(** What [month_and_day] has to satisfy for the [n]-th day of a year. *)
Definition month_and_day_ok (leapyear : bool) (n : Z) : bool :=
  let '(m, d) := Datetime.month_and_day n leapyear in
  let dim :=
    if (m =? 2) && leapyear then 29
    else nth (Z.to_nat m) Datetime.DAYS_IN_MONTH (-1) in
  let dbm :=
    nth (Z.to_nat m) Datetime.DAYS_BEFORE_MONTH (-1)
    + (if (2 <? m) && leapyear then 1 else 0) in
  (1 <=? m) && (m <=? 12) && (1 <=? d) && (d <=? dim) && (dbm + d =? n + 1).

(** ** The scan of the directory, in closed form *)

(** The atoms of the pattern that the name of an hourly echogram is, when
    it is used as the pattern of the hourly files: its characters as they
    are, and the dot before [nc] standing for any character. *)
Definition own_name_atoms (d t : string) : list atom :=
  (lits "OOI-D" ++ lits d ++ lits "-T" ++ lits t ++ [ADot] ++ lits "nc")%list.

(** [f] begins with [OOI-D<d>-T<t>], one character that is not a newline,
    and [nc]. *)
Definition matches_up_to_dot (d t f : string) : bool :=
  match Str.strip_prefix ("OOI-D" ++ d ++ "-T" ++ t) f with
  | Some (String c rest) =>
      negb (Ascii.eqb c Re.newline)
      && match Str.strip_prefix "nc" rest with
         | Some _ => true
         | None => false
         end
  | _ => false
  end.

(** [re.match(pattern, f)] finds a match, as a truth value. *)
Definition matches_pattern (pattern f : string) : bool :=
  match re_match_str pattern f with
  | Ok (Some _) => true
  | _ => false
  end.

(** The name [f] is of the hourly form and its timestamp lies in the range
    from [start] (included) to [stop] (excluded). *)
Definition in_window (start stop : Datetime.datetime) (f : string) : bool :=
  match hourly_timestamp f with
  | Some t => Datetime.leb start t && Datetime.ltb t stop
  | None => false
  end.

(** The atoms accept a text at the start of [s]. *)
Definition accepted (cs : list atom) (s : string) : bool :=
  match match_atoms cs s with
  | Some _ => true
  | None => false
  end.

(** ** The provenance of an hourly file *)

(** The provenance that the four attributes of a [Provenance] group give. *)
Definition provenance_of (src_filenames software_name software_version time : string)
  : provenance_dict :=
  {| data_file_name := Some src_filenames;
     conversion_software_name := Some software_name;
     conversion_software_version := Some software_version;
     conversion_time := Some time |}.

(** An hourly file whose [Provenance] group lacks the conversion time. *)
Definition sample_dataset_without_conversion_time : NetCDF4.dataset :=
  {| NetCDF4.groups :=
       [("Provenance",
         {| NetCDF4.attributes :=
              [("src_filenames", "/data/2019/10/20/OOI-D20191020-T003835.raw");
               ("conversion_software_name", "echopype");
               ("conversion_software_version", "0.1.0")];
            NetCDF4.group_variables := [] |})];
     NetCDF4.variables := [] |}.
(** ** What a run leaves behind *)

(** The state after [self.provenance] has become [p]. *)
Definition with_provenance (st : parser_state) (p : provenance_dict)
  : parser_state :=
  {| provenance := p; record_buffer := record_buffer st; io_log := io_log st |}.

(** The ways in which a run can have opened and closed files: the hourly
    file [h], then the echogram, each closed before anything else is
    opened. *)
Definition file_traces (h echogram_filepath : string) : list (list io_event) :=
  [ [];
    [Opened h];
    [Opened h; Closed h];
    [Opened h; Closed h; Opened echogram_filepath];
    [Opened h; Closed h; Opened echogram_filepath; Closed echogram_filepath] ].

(** The path [<root>/<Y>/<MM>/<DD>/<pre>D*-T*.<ext>] of the day of [t]
    under the year directory [<root>/<Y>]. *)
Definition wildcard_day_path (root Y pre ext : string) (t : Datetime.datetime)
  : string :=
  root ++ "/" ++ Y ++ "/" ++ Datetime.zpad 2 (Datetime.month t)
  ++ "/" ++ Datetime.zpad 2 (Datetime.day t) ++ "/" ++ pre ++ "D*-T*." ++ ext.

(* ================================================================== *)
(** * Facts about texts and patterns *)

Lemma append_assoc (a b c : string) : (a ++ b) ++ c = a ++ (b ++ c).
Proof. induction a; simpl; congruence. Qed.

Lemma append_empty_r (a : string) : a ++ "" = a.
Proof. induction a; simpl; congruence. Qed.

Lemma match_atoms_app (a b : list atom) (s : string) :
  match_atoms (a ++ b)%list s =
  match match_atoms a s with
  | Some (t1, r1) =>
      match match_atoms b r1 with
      | Some (t2, r2) => Some (t1 ++ t2, r2)
      | None => None
      end
  | None => None
  end.
Proof.
  revert s; induction a as [|x a IH]; intros s; simpl.
  - destruct (match_atoms b s) as [[t2 r2]|]; reflexivity.
  - destruct s as [|c s]; [reflexivity|].
    destruct (accepts x c); [|reflexivity].
    rewrite IH.
    destruct (match_atoms a s) as [[t1 r1]|]; [|reflexivity].
    destruct (match_atoms b r1) as [[t2 r2]|]; reflexivity.
Qed.

Lemma matches_atoms (r : Re.regex) :
  forall cs, atoms r = Some cs ->
  forall caps s, Re.matches r caps s = of_atoms caps (match_atoms cs s).
Proof.
  induction r; intros cs Hcs caps s; simpl in Hcs; try discriminate.
  - inversion Hcs; subst; reflexivity.
  - inversion Hcs; subst; simpl.
    destruct s as [|a s]; [reflexivity|].
    destruct (Ascii.eqb a c); reflexivity.
  - inversion Hcs; subst; simpl.
    destruct s as [|a s]; [reflexivity|].
    destruct (Ascii.eqb (Re.lower a) (Re.lower c)); reflexivity.
  - inversion Hcs; subst; simpl.
    destruct s as [|a s]; [reflexivity|].
    destruct (Ascii.eqb a Re.newline); reflexivity.
  - inversion Hcs; subst; simpl.
    destruct s as [|a s]; [reflexivity|].
    destruct (Re.in_range lo hi a); reflexivity.
  - destruct (atoms r1) as [a1|]; [|discriminate].
    destruct (atoms r2) as [a2|]; [|discriminate].
    inversion Hcs; subst; clear Hcs.
    simpl. rewrite (IHr1 a1 eq_refl), match_atoms_app.
    destruct (match_atoms a1 s) as [[t1 s1]|]; [|reflexivity].
    simpl. rewrite (IHr2 a2 eq_refl).
    destruct (match_atoms a2 s1) as [[t2 s2]|]; reflexivity.
Qed.

(** What [match_atoms] returns splits the text. *)
Lemma match_atoms_split (cs : list atom) :
  forall s t rest, match_atoms cs s = Some (t, rest) -> s = t ++ rest.
Proof.
  induction cs as [|a cs IH]; intros s t rest H; simpl in H.
  - inversion H; reflexivity.
  - destruct s as [|c s]; [discriminate|].
    destruct (accepts a c); [|discriminate].
    destruct (match_atoms cs s) as [[t' r']|] eqn:E; [|discriminate].
    inversion H; subst. simpl. f_equal. apply IH; assumption.
Qed.

Lemma is_digit_cases (c : ascii) :
  is_digit c = true ->
  In c ["0"; "1"; "2"; "3"; "4"; "5"; "6"; "7"; "8"; "9"]%char.
Proof.
  destruct c as [[] [] [] [] [] [] [] []]; vm_compute; intros H;
    try discriminate; tauto.
Qed.

Lemma search_some (r : Re.regex) (s : string) (m : Re.match_object) :
  Re.search r s = Some m ->
  exists pre s', s = pre ++ s' /\ Re.re_match r s' = Some m.
Proof.
  induction s as [|a s IH]; simpl.
  - destruct (Re.re_match r "") eqn:E; intros H; inversion H; subst.
    exists "", ""; auto.
  - destruct (Re.re_match r (String a s)) eqn:E; intros H.
    + inversion H; subst. exists "", (String a s); auto.
    + destruct (IH H) as (pre & s' & -> & Hm).
      exists (String a pre), s'; auto.
Qed.

Lemma re_match_in (r : Re.regex) (s : string) (m : Re.match_object) :
  Re.re_match r s = Some m -> In m (Re.matches r [] s).
Proof.
  unfold Re.re_match. destruct (Re.matches r [] s); intros H; inversion H.
  left; reflexivity.
Qed.

Ltac digit_cases H :=
  apply is_digit_cases in H; simpl In in H;
  repeat match type of H with _ \/ _ => destruct H as [H|H] end;
  [subst .. | contradiction].

Lemma matches_cat (r1 r2 : Re.regex) (caps : Re.captures) (s : string) :
  Re.matches (Re.Cat r1 r2) caps s =
  flat_map (fun m1 => map (Re.append m1)
                        (Re.matches r2 (Re.groups m1) (Re.rest m1)))
           (Re.matches r1 caps s).
Proof. reflexivity. Qed.

Lemma format_regex_hourly :
  Datetime.format_regex HOURLY_FILENAME_DATE_FORMAT = Some hourly_format_regex.
Proof. reflexivity. Qed.

(** The ways a two-digit directive matches at two digits. *)
Lemma matches_dir (c : ascii) (caps : Re.captures) (a b : ascii) (s : string) :
  In c ["m"; "d"; "H"; "M"; "S"]%char ->
  is_digit a = true -> is_digit b = true ->
  Re.matches (dir c) caps (String a (String b s)) = candidates c caps a b s.
Proof.
  intros Hc Ha Hb. simpl in Hc.
  digit_cases Ha; digit_cases Hb;
    repeat (destruct Hc as [Hc|Hc]; [subst c; reflexivity|]);
    contradiction.
Qed.

Ltac by_candidates c :=
  rewrite matches_cat, (matches_dir c) by (simpl; auto 10);
  unfold candidates;
  cbn [flat_map map app mk_match Re.groups Re.rest].

Lemma fail_nc caps a s :
  is_digit a = true -> Re.matches tail_nc caps (String a s) = [].
Proof. intros Ha. digit_cases Ha; reflexivity. Qed.

Lemma ok_nc caps rest :
  Re.matches tail_nc caps (".nc" ++ rest) = [mk_match caps ".nc" rest].
Proof. reflexivity. Qed.

Lemma fail_S caps a b c s :
  is_digit a = true -> is_digit b = true -> is_digit c = true ->
  Re.matches tail_S caps (String a (String b (String c s))) = [].
Proof.
  intros Ha Hb Hc. unfold tail_S. by_candidates "S"%char.
  destruct (two_ok "S" a b), (one_ok "S" a);
    cbn [flat_map map app mk_match Re.groups Re.rest];
    rewrite ?fail_nc by assumption; reflexivity.
Qed.

Lemma ok_S caps a b rest :
  is_digit a = true -> is_digit b = true ->
  Re.matches tail_S caps (String a (String b (".nc" ++ rest))) =
  if two_ok "S" a b
  then [mk_match (("S", s2 a b) :: caps) (s2 a b ++ ".nc") rest]
  else [].
Proof.
  intros Ha Hb. unfold tail_S. by_candidates "S"%char.
  destruct (two_ok "S" a b), (one_ok "S" a);
    cbn [flat_map map app mk_match Re.groups Re.rest];
    rewrite ?fail_nc, ?ok_nc by assumption; reflexivity.
Qed.

Lemma fail_M caps a b c d e s :
  is_digit a = true -> is_digit b = true -> is_digit c = true ->
  is_digit d = true -> is_digit e = true ->
  Re.matches tail_M caps
    (String a (String b (String c (String d (String e s))))) = [].
Proof.
  intros Ha Hb Hc Hd He. unfold tail_M. by_candidates "M"%char.
  destruct (two_ok "M" a b), (one_ok "M" a);
    cbn [flat_map map app mk_match Re.groups Re.rest];
    rewrite ?fail_S by assumption; reflexivity.
Qed.

Lemma ok_M caps a b c d rest :
  is_digit a = true -> is_digit b = true ->
  is_digit c = true -> is_digit d = true ->
  Re.matches tail_M caps
    (String a (String b (String c (String d (".nc" ++ rest))))) =
  if two_ok "M" a b && two_ok "S" c d
  then [mk_match (("S", s2 c d) :: ("M", s2 a b) :: caps)
          (s2 a b ++ s2 c d ++ ".nc") rest]
  else [].
Proof.
  intros Ha Hb Hc Hd. unfold tail_M. by_candidates "M"%char.
  destruct (two_ok "M" a b), (one_ok "M" a);
    cbn [flat_map map app mk_match Re.groups Re.rest andb];
    rewrite ?fail_S, ?ok_S by (assumption || reflexivity);
    destruct (two_ok "S" c d); reflexivity.
Qed.

Lemma ok_H caps a b c d e f rest :
  is_digit a = true -> is_digit b = true ->
  is_digit c = true -> is_digit d = true ->
  is_digit e = true -> is_digit f = true ->
  Re.matches tail_H caps
    (String a (String b (String c (String d (String e (String f
       (".nc" ++ rest))))))) =
  if two_ok "H" a b && two_ok "M" c d && two_ok "S" e f
  then [mk_match (("S", s2 e f) :: ("M", s2 c d) :: ("H", s2 a b) :: caps)
          (s2 a b ++ s2 c d ++ s2 e f ++ ".nc") rest]
  else [].
Proof.
  intros Ha Hb Hc Hd He Hf. unfold tail_H. by_candidates "H"%char.
  destruct (two_ok "H" a b), (one_ok "H" a);
    cbn [flat_map map app mk_match Re.groups Re.rest andb];
    rewrite ?fail_M, ?ok_M by (assumption || reflexivity);
    destruct (two_ok "M" c d && two_ok "S" e f); reflexivity.
Qed.

Lemma fail_T caps a s :
  is_digit a = true -> Re.matches tail_T caps (String a s) = [].
Proof. intros Ha. digit_cases Ha; reflexivity. Qed.

Lemma ok_T caps s :
  Re.matches tail_T caps ("-T" ++ s) =
  map (Re.append (mk_match caps "-T" s)) (Re.matches tail_H caps s).
Proof.
  unfold tail_T. rewrite matches_cat.
  change (Re.matches (Re.LitI "-") caps ("-T" ++ s))
    with [mk_match caps "-" (String "T" s)].
  cbn [flat_map mk_match Re.groups Re.rest]. rewrite matches_cat.
  change (Re.matches (Re.LitI "T") caps (String "T" s))
    with [mk_match caps "T" s].
  cbn [flat_map mk_match Re.groups Re.rest].
  rewrite !app_nil_r, map_map. reflexivity.
Qed.

Lemma fail_d caps a b c s :
  is_digit a = true -> is_digit b = true -> is_digit c = true ->
  Re.matches tail_d caps (String a (String b (String c s))) = [].
Proof.
  intros Ha Hb Hc. unfold tail_d. by_candidates "d"%char.
  destruct (two_ok "d" a b), (one_ok "d" a);
    cbn [flat_map map app mk_match Re.groups Re.rest];
    rewrite ?fail_T by assumption; reflexivity.
Qed.

Lemma ok_d caps a b H1 H2 M1 M2 S1 S2 rest :
  is_digit a = true -> is_digit b = true ->
  is_digit H1 = true -> is_digit H2 = true ->
  is_digit M1 = true -> is_digit M2 = true ->
  is_digit S1 = true -> is_digit S2 = true ->
  Re.matches tail_d caps
    (String a (String b ("-T" ++ String H1 (String H2 (String M1 (String M2
       (String S1 (String S2 (".nc" ++ rest))))))))) =
  if two_ok "d" a b && (two_ok "H" H1 H2 && two_ok "M" M1 M2 && two_ok "S" S1 S2)
  then [mk_match (("S", s2 S1 S2) :: ("M", s2 M1 M2) :: ("H", s2 H1 H2)
                  :: ("d", s2 a b) :: caps)
          (s2 a b ++ "-T" ++ s2 H1 H2 ++ s2 M1 M2 ++ s2 S1 S2 ++ ".nc") rest]
  else [].
Proof.
  intros Ha Hb HH1 HH2 HM1 HM2 HS1 HS2. unfold tail_d. by_candidates "d"%char.
  destruct (two_ok "d" a b), (one_ok "d" a);
    cbn [flat_map map app mk_match Re.groups Re.rest andb];
    rewrite ?fail_T, ?ok_T, ?ok_H by (assumption || reflexivity);
    destruct (two_ok "H" H1 H2 && two_ok "M" M1 M2 && two_ok "S" S1 S2);
    reflexivity.
Qed.

Lemma ok_m caps m1 m2 d1 d2 H1 H2 M1 M2 S1 S2 rest :
  is_digit m1 = true -> is_digit m2 = true ->
  is_digit d1 = true -> is_digit d2 = true ->
  is_digit H1 = true -> is_digit H2 = true ->
  is_digit M1 = true -> is_digit M2 = true ->
  is_digit S1 = true -> is_digit S2 = true ->
  Re.matches tail_m caps
    (String m1 (String m2 (String d1 (String d2
       ("-T" ++ String H1 (String H2 (String M1 (String M2
          (String S1 (String S2 (".nc" ++ rest))))))))))) =
  if fields_ok m1 m2 d1 d2 H1 H2 M1 M2 S1 S2
  then [mk_match (("S", s2 S1 S2) :: ("M", s2 M1 M2) :: ("H", s2 H1 H2)
                  :: ("d", s2 d1 d2) :: ("m", s2 m1 m2) :: caps)
          (s2 m1 m2 ++ s2 d1 d2 ++ "-T" ++ s2 H1 H2 ++ s2 M1 M2 ++ s2 S1 S2
           ++ ".nc") rest]
  else [].
Proof.
  intros Hm1 Hm2 Hd1 Hd2 HH1 HH2 HM1 HM2 HS1 HS2.
  unfold tail_m, fields_ok. by_candidates "m"%char.
  destruct (two_ok "m" m1 m2), (one_ok "m" m1);
    cbn [flat_map map app mk_match Re.groups Re.rest andb];
    rewrite ?ok_d by (assumption || reflexivity);
    rewrite ?(fail_d _ m2 d1 d2) by assumption;
    destruct (two_ok "d" d1 d2), (two_ok "H" H1 H2), (two_ok "M" M1 M2),
      (two_ok "S" S1 S2); reflexivity.
Qed.

Lemma matches_Y caps y1 y2 y3 y4 s :
  is_digit y1 = true -> is_digit y2 = true ->
  is_digit y3 = true -> is_digit y4 = true ->
  Re.matches (dir "Y") caps (String y1 (String y2 (String y3 (String y4 s)))) =
  [mk_match (("Y", String y1 (String y2 (String y3 (String y4 ""))))
             :: caps)
     (String y1 (String y2 (String y3 (String y4 "")))) s].
Proof.
  unfold is_digit. intros H1 H2 H3 H4.
  change (dir "Y") with (Re.Group "Y" (Re.rep 4 Re.digit)).
  cbn [Re.matches Re.rep Re.digit flat_map map app Re.one Re.groups Re.rest].
  rewrite H1. cbn [flat_map map app Re.one Re.groups Re.rest].
  rewrite H2. cbn [flat_map map app Re.one Re.groups Re.rest].
  rewrite H3. cbn [flat_map map app Re.one Re.groups Re.rest].
  rewrite H4. reflexivity.
Qed.

Lemma matches_OOI_D caps s :
  Re.matches hourly_format_regex caps ("OOI-D" ++ s) =
  map (Re.append (mk_match caps "OOI-D" s)) (Re.matches tail_Y caps s).
Proof.
  unfold hourly_format_regex.
  rewrite matches_cat.
  change (Re.matches (Re.LitI "O") caps ("OOI-D" ++ s))
    with [mk_match caps "O" ("OI-D" ++ s)].
  cbn [flat_map mk_match Re.groups Re.rest]. rewrite matches_cat.
  change (Re.matches (Re.LitI "O") caps ("OI-D" ++ s))
    with [mk_match caps "O" ("I-D" ++ s)].
  cbn [flat_map mk_match Re.groups Re.rest]. rewrite matches_cat.
  change (Re.matches (Re.LitI "I") caps ("I-D" ++ s))
    with [mk_match caps "I" ("-D" ++ s)].
  cbn [flat_map mk_match Re.groups Re.rest]. rewrite matches_cat.
  change (Re.matches (Re.LitI "-") caps ("-D" ++ s))
    with [mk_match caps "-" ("D" ++ s)].
  cbn [flat_map mk_match Re.groups Re.rest]. rewrite matches_cat.
  change (Re.matches (Re.LitI "D") caps ("D" ++ s))
    with [mk_match caps "D" s].
  cbn [flat_map mk_match Re.groups Re.rest].
  rewrite !app_nil_r, !map_map. reflexivity.
Qed.

(** The matches of the pattern of [HOURLY_FILENAME_DATE_FORMAT] on a name of
    the hourly form: there is one when the month, day, hour, minute and
    second each match their two-digit alternatives, and none otherwise. *)
Lemma matches_hourly_format y1 y2 y3 y4 m1 m2 d1 d2 H1 H2 M1 M2 S1 S2 rest :
  is_digit y1 = true -> is_digit y2 = true ->
  is_digit y3 = true -> is_digit y4 = true ->
  is_digit m1 = true -> is_digit m2 = true ->
  is_digit d1 = true -> is_digit d2 = true ->
  is_digit H1 = true -> is_digit H2 = true ->
  is_digit M1 = true -> is_digit M2 = true ->
  is_digit S1 = true -> is_digit S2 = true ->
  Re.matches hourly_format_regex []
    (name14 y1 y2 y3 y4 m1 m2 d1 d2 H1 H2 M1 M2 S1 S2 rest) =
  if fields_ok m1 m2 d1 d2 H1 H2 M1 M2 S1 S2
  then [mk_match [("S", s2 S1 S2); ("M", s2 M1 M2); ("H", s2 H1 H2);
                  ("d", s2 d1 d2); ("m", s2 m1 m2);
                  ("Y", String y1 (String y2 (String y3 (String y4 ""))))]
          (name14 y1 y2 y3 y4 m1 m2 d1 d2 H1 H2 M1 M2 S1 S2 "") rest]
  else [].
Proof.
  intros. unfold name14. rewrite matches_OOI_D.
  unfold tail_Y. rewrite matches_cat, matches_Y by assumption.
  cbn [flat_map mk_match Re.groups Re.rest].
  rewrite ok_m by assumption.
  destruct (fields_ok m1 m2 d1 d2 H1 H2 M1 M2 S1 S2); reflexivity.
Qed.

Lemma digit_not_space a : is_digit a = true -> Ascii.eqb a " " = false.
Proof. intros Ha. digit_cases Ha; reflexivity. Qed.


Lemma int_s2 a b :
  is_digit a = true -> is_digit b = true -> Datetime.int (s2 a b) = val2 a b.
Proof.
  intros Ha Hb. unfold Datetime.int, s2, val2; simpl.
  rewrite (digit_not_space a Ha), (digit_not_space b Hb). lia.
Qed.

Lemma int_s4 a b c d :
  is_digit a = true -> is_digit b = true ->
  is_digit c = true -> is_digit d = true ->
  Datetime.int (String a (String b (String c (String d "")))) = val4 a b c d.
Proof.
  intros Ha Hb Hc Hd. unfold Datetime.int, val4; simpl.
  rewrite (digit_not_space a Ha), (digit_not_space b Hb),
    (digit_not_space c Hc), (digit_not_space d Hd). lia.
Qed.

(** [strptime] with [HOURLY_FILENAME_DATE_FORMAT] on a name of the hourly
    form and what follows it. *)
Lemma strptime_name14 y1 y2 y3 y4 m1 m2 d1 d2 H1 H2 M1 M2 S1 S2 rest :
  is_digit y1 = true -> is_digit y2 = true ->
  is_digit y3 = true -> is_digit y4 = true ->
  is_digit m1 = true -> is_digit m2 = true ->
  is_digit d1 = true -> is_digit d2 = true ->
  is_digit H1 = true -> is_digit H2 = true ->
  is_digit M1 = true -> is_digit M2 = true ->
  is_digit S1 = true -> is_digit S2 = true ->
  Datetime.strptime
    (Some (name14 y1 y2 y3 y4 m1 m2 d1 d2 H1 H2 M1 M2 S1 S2 rest))
    HOURLY_FILENAME_DATE_FORMAT =
  if fields_ok m1 m2 d1 d2 H1 H2 M1 M2 S1 S2 then
    if Str.is_empty rest
    then make14 y1 y2 y3 y4 m1 m2 d1 d2 H1 H2 M1 M2 S1 S2
    else Raise (ValueError (UnconvertedDataRemains rest))
  else
    Raise (ValueError (DoesNotMatchFormat
             (name14 y1 y2 y3 y4 m1 m2 d1 d2 H1 H2 M1 M2 S1 S2 rest))).
Proof.
  intros. unfold Datetime.strptime. rewrite format_regex_hourly.
  unfold Re.re_match. rewrite matches_hourly_format by assumption.
  destruct (fields_ok m1 m2 d1 d2 H1 H2 M1 M2 S1 S2); [|reflexivity].
  cbn [mk_match Re.rest]. destruct (Str.is_empty rest); [|reflexivity].
  unfold make14, Datetime.field, Re.group, mk_match; cbn [Re.groups].
  change (Re.lookup "Y" _) with
    (Some (String y1 (String y2 (String y3 (String y4 ""))))).
  change (Re.lookup "m" _) with (Some (s2 m1 m2)).
  change (Re.lookup "d" _) with (Some (s2 d1 d2)).
  change (Re.lookup "H" _) with (Some (s2 H1 H2)).
  change (Re.lookup "M" _) with (Some (s2 M1 M2)).
  change (Re.lookup "S" _) with (Some (s2 S1 S2)).
  cbv beta iota. rewrite int_s4, !int_s2 by assumption. reflexivity.
Qed.

Lemma days_in_month_le_31 y m : Datetime.days_in_month y m <= 31.
Proof.
  unfold Datetime.days_in_month.
  destruct ((m =? 2) && Datetime.is_leap y); [lia|].
  unfold Datetime.DAYS_IN_MONTH.
  generalize (Z.to_nat m); intros n.
  do 13 (destruct n as [|n]; [simpl; lia|]).
  destruct n; simpl; lia.
Qed.

Lemma two_ok_in_range (c : ascii) (lo hi : Z) a b :
  In (c, lo, hi) [("m", 1, 12); ("d", 1, 31); ("H", 0, 23);
                  ("M", 0, 59); ("S", 0, 59)]%char ->
  is_digit a = true -> is_digit b = true ->
  lo <= val2 a b <= hi -> two_ok c a b = true.
Proof.
  intros Hc Ha Hb. simpl in Hc.
  repeat (destruct Hc as [Hc|Hc];
          [inversion Hc; subst; clear Hc;
           digit_cases Ha; digit_cases Hb; vm_compute;
           intros [H1 H2]; try reflexivity;
           (exfalso; apply H1; reflexivity) || (exfalso; apply H2; reflexivity)|]).
  contradiction.
Qed.

(** When the fourteen digits are those of a date and time, each two-digit
    field matches its directive. *)
Lemma make14_fields_ok y1 y2 y3 y4 m1 m2 d1 d2 H1 H2 M1 M2 S1 S2 dt :
  is_digit m1 = true -> is_digit m2 = true ->
  is_digit d1 = true -> is_digit d2 = true ->
  is_digit H1 = true -> is_digit H2 = true ->
  is_digit M1 = true -> is_digit M2 = true ->
  is_digit S1 = true -> is_digit S2 = true ->
  make14 y1 y2 y3 y4 m1 m2 d1 d2 H1 H2 M1 M2 S1 S2 = Ok dt ->
  fields_ok m1 m2 d1 d2 H1 H2 M1 M2 S1 S2 = true
  /\ dt = Datetime.mk (val4 y1 y2 y3 y4) (val2 m1 m2) (val2 d1 d2)
                      (val2 H1 H2) (val2 M1 M2) (val2 S1 S2).
Proof.
  intros Hm1 Hm2 Hd1 Hd2 HH1 HH2 HM1 HM2 HS1 HS2.
  unfold make14, Datetime.make.
  destruct (_ && _) eqn:E; [|discriminate]. intros Hdt; inversion Hdt; subst.
  repeat (apply andb_prop in E; destruct E as [E ?]).
  repeat match goal with H : (_ <=? _) = true |- _ => apply Z.leb_le in H end.
  pose proof (days_in_month_le_31 (val4 y1 y2 y3 y4) (val2 m1 m2)).
  split; [|reflexivity].
  unfold fields_ok.
  rewrite (two_ok_in_range "m" 1 12), (two_ok_in_range "d" 1 31),
    (two_ok_in_range "H" 0 23), (two_ok_in_range "M" 0 59),
    (two_ok_in_range "S" 0 59); simpl; auto 10; lia.
Qed.

Lemma atoms_hourly : atoms hourly_filename_regex = Some hourly_atoms.
Proof. reflexivity. Qed.

Lemma match_atoms_cons a cs s t rest :
  match_atoms (a :: cs) s = Some (t, rest) ->
  exists c s' t', s = String c s' /\ accepts a c = true
                  /\ t = String c t' /\ match_atoms cs s' = Some (t', rest).
Proof.
  simpl. destruct s as [|c s']; [discriminate|].
  destruct (accepts a c) eqn:E; [|discriminate].
  destruct (match_atoms cs s') as [[t' r']|] eqn:E'; [|discriminate].
  intros H; inversion H; subst. exists c, s', t'; repeat split; auto.
Qed.

Lemma accepts_lit x c : accepts (ALit x) c = true -> c = x.
Proof. simpl. apply Ascii.eqb_eq. Qed.

(** A text that starts with a match of the hourly pattern is a name of the
    hourly form followed by the rest of the text. *)
Lemma match_atoms_hourly_inv f t rest :
  match_atoms hourly_atoms f = Some (t, rest) ->
  exists y1 y2 y3 y4 m1 m2 d1 d2 H1 H2 M1 M2 S1 S2,
    (is_digit y1 = true /\ is_digit y2 = true /\ is_digit y3 = true
     /\ is_digit y4 = true /\ is_digit m1 = true /\ is_digit m2 = true
     /\ is_digit d1 = true /\ is_digit d2 = true)
    /\ (is_digit H1 = true /\ is_digit H2 = true /\ is_digit M1 = true
        /\ is_digit M2 = true /\ is_digit S1 = true /\ is_digit S2 = true)
    /\ f = name14 y1 y2 y3 y4 m1 m2 d1 d2 H1 H2 M1 M2 S1 S2 rest
    /\ t = name14 y1 y2 y3 y4 m1 m2 d1 d2 H1 H2 M1 M2 S1 S2 "".
Proof.
  intros H. change hourly_atoms with
    [ALit "O"; ALit "O"; ALit "I"; ALit "-"; ALit "D";
     ARange "0" "9"; ARange "0" "9"; ARange "0" "9"; ARange "0" "9";
     ARange "0" "9"; ARange "0" "9"; ARange "0" "9"; ARange "0" "9";
     ALit "-"; ALit "T";
     ARange "0" "9"; ARange "0" "9"; ARange "0" "9"; ARange "0" "9";
     ARange "0" "9"; ARange "0" "9";
     ALit "."; ALit "n"; ALit "c"]%char in H.
  repeat match type of H with
         | match_atoms (_ :: _) _ = Some _ =>
             let c := fresh "c" in
             let E := fresh "E" in
             apply match_atoms_cons in H;
             destruct H as (c & ? & ? & -> & E & -> & H);
             first [apply accepts_lit in E; subst c | simpl in E]
         end.
  simpl in H. inversion H; subst.
  do 14 eexists. repeat split; try eassumption; reflexivity.
Qed.

Lemma match_atoms_name14 y1 y2 y3 y4 m1 m2 d1 d2 H1 H2 M1 M2 S1 S2 rest :
  is_digit y1 = true -> is_digit y2 = true ->
  is_digit y3 = true -> is_digit y4 = true ->
  is_digit m1 = true -> is_digit m2 = true ->
  is_digit d1 = true -> is_digit d2 = true ->
  is_digit H1 = true -> is_digit H2 = true ->
  is_digit M1 = true -> is_digit M2 = true ->
  is_digit S1 = true -> is_digit S2 = true ->
  match_atoms hourly_atoms
    (name14 y1 y2 y3 y4 m1 m2 d1 d2 H1 H2 M1 M2 S1 S2 rest) =
  Some (name14 y1 y2 y3 y4 m1 m2 d1 d2 H1 H2 M1 M2 S1 S2 "", rest).
Proof.
  unfold is_digit. intros.
  cbn -[Re.in_range].
  repeat match goal with
         | H : Re.in_range _ _ _ = true |- _ => rewrite H; clear H
         end.
  reflexivity.
Qed.

(** ** Order of names and order of timestamps *)





Lemma re_match_hourly f :
  Re.re_match hourly_filename_regex f =
  match match_atoms hourly_atoms f with
  | Some (t, rest) => Some (mk_match [] t rest)
  | None => None
  end.
Proof.
  unfold Re.re_match. rewrite (matches_atoms _ _ atoms_hourly).
  destruct (match_atoms hourly_atoms f) as [[t rest]|]; reflexivity.
Qed.


(** Conversely, such a name carries the timestamp its digits spell. *)
Lemma hourly_timestamp_name14 y1 y2 y3 y4 m1 m2 d1 d2 H1 H2 M1 M2 S1 S2 t :
  is_digit y1 = true -> is_digit y2 = true ->
  is_digit y3 = true -> is_digit y4 = true ->
  is_digit m1 = true -> is_digit m2 = true ->
  is_digit d1 = true -> is_digit d2 = true ->
  is_digit H1 = true -> is_digit H2 = true ->
  is_digit M1 = true -> is_digit M2 = true ->
  is_digit S1 = true -> is_digit S2 = true ->
  make14 y1 y2 y3 y4 m1 m2 d1 d2 H1 H2 M1 M2 S1 S2 = Ok t ->
  hourly_timestamp (name14 y1 y2 y3 y4 m1 m2 d1 d2 H1 H2 M1 M2 S1 S2 "")
  = Some t.
Proof.
  intros. unfold hourly_timestamp.
  rewrite re_match_hourly, match_atoms_name14, strptime_name14 by assumption.
  destruct (make14_fields_ok y1 y2 y3 y4 m1 m2 d1 d2 H1 H2 M1 M2 S1 S2 t)
    as [-> _]; try assumption.
  cbn [Str.is_empty].
  match goal with H : make14 _ _ _ _ _ _ _ _ _ _ _ _ _ _ = Ok _ |- _ =>
    rewrite H end.
  reflexivity.
Qed.

Lemma ascii_compare_refl a : Ascii.compare a a = Eq.
Proof. unfold Ascii.compare. apply N.compare_refl. Qed.


(** ** [sorted] puts a least name first *)

Lemma string_compare_refl x : String.compare x x = Eq.
Proof. induction x; simpl; [reflexivity|]. rewrite ascii_compare_refl; assumption. Qed.

Lemma string_leb_refl x : String.leb x x = true.
Proof. unfold String.leb. rewrite string_compare_refl. reflexivity. Qed.

Lemma string_compare_trans x :
  forall y z, String.compare x y <> Gt -> String.compare y z <> Gt ->
              String.compare x z <> Gt.
Proof.
  induction x as [|a x IH]; intros [|b y] [|c z]; simpl; try congruence.
  unfold Ascii.compare.
  destruct (N.compare_spec (N_of_ascii a) (N_of_ascii b)) as [E|E|E];
    destruct (N.compare_spec (N_of_ascii b) (N_of_ascii c)) as [F|F|F];
    try congruence; intros Hxy Hyz.
  - rewrite E, F, N.compare_refl. apply (IH y z); assumption.
  - rewrite E. rewrite (proj2 (N.compare_lt_iff _ _) F). discriminate.
  - rewrite <- F. rewrite (proj2 (N.compare_lt_iff _ _) E). discriminate.
  - rewrite (proj2 (N.compare_lt_iff _ _) (N.lt_trans _ _ _ E F)). discriminate.
Qed.

Lemma string_leb_trans x y z :
  String.leb x y = true -> String.leb y z = true -> String.leb x z = true.
Proof.
  unfold String.leb. intros Hxy Hyz.
  pose proof (string_compare_trans x y z) as T.
  destruct (String.compare x y); try discriminate;
    destruct (String.compare y z); try discriminate;
    destruct (String.compare x z); try reflexivity;
    exfalso; apply T; congruence.
Qed.

Lemma sorted_head (l : list string) :
  match sorted l with
  | [] => l = []
  | f :: _ => In f l /\ forall g, In g l -> String.leb f g = true
  end.
Proof.
  induction l as [|x l IH]; simpl; [reflexivity|].
  destruct (sorted l) as [|y ys]; simpl.
  - subst l. split; [left; reflexivity|].
    intros g [<-|[]]. apply string_leb_refl.
  - destruct IH as [Hin Hmin].
    destruct (String.leb x y) eqn:E.
    + split; [left; reflexivity|].
      intros g [<-|Hg]; [apply string_leb_refl|].
      apply (string_leb_trans x y g); auto.
    + split; [right; assumption|].
      intros g [<-|Hg]; [|auto].
      destruct (String.leb_total x y) as [H|H]; congruence.
Qed.


(* ================================================================== *)
(** * C4: the order of the names is the order of the timestamps *)



(* ================================================================== *)
(** * The matches of the pattern of the range form *)

Lemma in_matches_cat r1 r2 caps s m :
  In m (Re.matches (Re.Cat r1 r2) caps s) ->
  exists m1 m2, In m1 (Re.matches r1 caps s)
                /\ In m2 (Re.matches r2 (Re.groups m1) (Re.rest m1))
                /\ m = Re.append m1 m2.
Proof.
  rewrite matches_cat. intros H. apply in_flat_map in H.
  destruct H as (m1 & H1 & H). apply in_map_iff in H.
  destruct H as (m2 & <- & H2). exists m1, m2; auto.
Qed.

Lemma in_matches_group n r caps s m :
  In m (Re.matches (Re.Group n r) caps s) ->
  exists m1, In m1 (Re.matches r caps s) /\ m = Re.capture n m1.
Proof.
  simpl. intros H. apply in_map_iff in H.
  destruct H as (m1 & <- & H1). exists m1; auto.
Qed.

Lemma in_matches_alt r1 r2 caps s m :
  In m (Re.matches (Re.Alt r1 r2) caps s) ->
  In m (Re.matches r1 caps s) \/ In m (Re.matches r2 caps s).
Proof. simpl. apply in_app_or. Qed.

Lemma in_matches_opt r caps s m :
  In m (Re.matches (Re.Opt r) caps s) ->
  In m (Re.matches r caps s) \/ m = mk_match caps "" s.
Proof.
  simpl. intros H. apply in_app_or in H. destruct H as [H|[<-|[]]]; auto.
Qed.

Lemma in_matches_atoms r cs caps s m :
  atoms r = Some cs ->
  In m (Re.matches r caps s) ->
  exists t rest, match_atoms cs s = Some (t, rest) /\ m = mk_match caps t rest.
Proof.
  intros Hcs. rewrite (matches_atoms r cs Hcs).
  destruct (match_atoms cs s) as [[t rest]|]; simpl; [|tauto].
  intros [<-|[]]. exists t, rest; auto.
Qed.

(** The text that [n] digit classes accept is [n] digits. *)
Lemma match_atoms_digits n :
  forall s t rest,
    match_atoms (repeat (ARange "0" "9") n) s = Some (t, rest) ->
    all_digits t = true /\ String.length t = n.
Proof.
  induction n as [|n IH]; intros s t rest H.
  - simpl in H. inversion H; subst. split; reflexivity.
  - simpl repeat in H. apply match_atoms_cons in H.
    destruct H as (c & s' & t' & -> & Hc & -> & H).
    destruct (IH _ _ _ H) as [Hd Hl]. simpl. simpl in Hc.
    unfold is_digit. rewrite Hc, Hd, Hl. split; reflexivity.
Qed.

Lemma atoms_str l : atoms (Re.str l) = Some (map ALit (list_ascii_of_string l)).
Proof. induction l; simpl; [reflexivity|]. rewrite IHl. reflexivity. Qed.

Lemma match_atoms_lits l :
  forall s t rest,
    match_atoms (map ALit (list_ascii_of_string l)) s = Some (t, rest) -> t = l.
Proof.
  induction l as [|a l IH]; intros s t rest H.
  - simpl in H. inversion H; reflexivity.
  - cbn [list_ascii_of_string map] in H. apply match_atoms_cons in H.
    destruct H as (c & s' & t' & -> & Hc & -> & H).
    apply accepts_lit in Hc. subst c. f_equal. eapply IH; eassumption.
Qed.

Lemma in_matches_str l caps s m :
  In m (Re.matches (Re.str l) caps s) ->
  exists rest, m = mk_match caps l rest.
Proof.
  intros H. apply (in_matches_atoms _ _ _ _ _ (atoms_str l)) in H.
  destruct H as (t & rest & Ht & ->).
  apply match_atoms_lits in Ht. subst t. exists rest; reflexivity.
Qed.

Lemma atoms_rep_digit n :
  atoms (Re.rep n Re.digit) = Some (repeat (ARange "0" "9") n).
Proof. induction n; simpl; [reflexivity|]. rewrite IHn. reflexivity. Qed.

Lemma in_matches_digits n caps s m :
  In m (Re.matches (Re.rep n Re.digit) caps s) ->
  exists t rest, m = mk_match caps t rest
                 /\ all_digits t = true /\ String.length t = n.
Proof.
  intros H.
  apply (in_matches_atoms _ _ _ _ _ (atoms_rep_digit n)) in H.
  destruct H as (t & rest & Ht & ->).
  apply match_atoms_digits in Ht. exists t, rest. tauto.
Qed.

(** Every match of the pattern of the range form captures two dates of
    eight digits, the type [Averaged] or [Full], and either no date or a
    date of eight digits. *)
Lemma range_match_inv fn m :
  In m (Re.matches averaged_or_full_filename_regex [] fn) ->
  exists start stop type date,
    Re.groups m = range_groups start stop type date
    /\ eight_digits start /\ eight_digits stop
    /\ (type = ZplscEchogramType.AVERAGED \/ type = ZplscEchogramType.FULL)
    /\ (forall d, date = Some d -> eight_digits d).
Proof.
  unfold averaged_or_full_filename_regex. cbn [Re.seq]. intros H.
  repeat match type of H with
  | In _ (Re.matches (Re.Cat _ _) _ _) =>
      let m1 := fresh "m" in let H1 := fresh "H" in
      apply in_matches_cat in H; destruct H as (m1 & ? & H1 & H & ->)
  end.
  destruct H as [<-|[]].
  apply in_matches_str in H0. destruct H0 as (r0 & ->).
  apply in_matches_group in H1. destruct H1 as (m' & H1 & ->).
  apply in_matches_digits in H1. destruct H1 as (start & r1 & -> & Hstart).
  apply (in_matches_atoms _ [ALit "-"%char]) in H2; [|reflexivity].
  destruct H2 as (? & r2 & _ & ->).
  apply in_matches_group in H3. destruct H3 as (m' & H3 & ->).
  apply in_matches_digits in H3. destruct H3 as (stop & r3 & -> & Hstop).
  apply in_matches_str in H4. destruct H4 as (r4 & ->).
  apply in_matches_group in H5. destruct H5 as (m' & H5 & ->).
  assert (Htype : exists type r5,
             m' = mk_match [("stop_date", stop); ("start_date", start)] type r5
             /\ (type = ZplscEchogramType.AVERAGED
                 \/ type = ZplscEchogramType.FULL)).
  { apply in_matches_alt in H5. destruct H5 as [H5|H5];
      apply in_matches_str in H5; destruct H5 as (r5 & ->);
      eexists _, r5; split; [reflexivity|auto| reflexivity|auto]. }
  destruct Htype as (type & r5 & -> & Htype).
  assert (Hm5 : Re.groups m5 =
                [("type", type); ("stop_date", stop); ("start_date", start)]).
  { apply in_matches_opt in H6. destruct H6 as [H6 | ->]; [|reflexivity].
    apply (in_matches_atoms _ [ALit "_"%char]) in H6; [|reflexivity].
    destruct H6 as (? & ? & _ & ->). reflexivity. }
  assert (Hm6 : exists date,
             Re.groups m6 = range_groups start stop type date
             /\ (forall d, date = Some d -> eight_digits d)).
  { apply in_matches_opt in H7. destruct H7 as [H7 | ->].
    - apply in_matches_group in H7. destruct H7 as (m' & H7 & ->).
      apply in_matches_digits in H7. destruct H7 as (d & r7 & -> & Hd).
      exists (Some d). split.
      + unfold range_groups. simpl. rewrite Hm5. reflexivity.
      + intros d' E; inversion E; subst; exact Hd.
    - exists None. split; [exact Hm5|discriminate]. }
  destruct Hm6 as (date & Hm6 & Hdate).
  apply in_matches_str in H8. destruct H8 as (r8 & ->).
  exists start, stop, type, date.
  split; [simpl; exact Hm6|].
  split; [exact Hstart|]. split; [exact Hstop|]. split; [exact Htype|exact Hdate].
Qed.

Lemma range_groups_lookup start stop type date :
  Re.lookup "type" (range_groups start stop type date) = Some type
  /\ Re.lookup "date" (range_groups start stop type date) = date
  /\ Re.lookup "start_date" (range_groups start stop type date) = Some start
  /\ Re.lookup "stop_date" (range_groups start stop type date) = Some stop.
Proof. destruct date; repeat split; reflexivity. Qed.

(** What [search] finds of the range form in a filename. *)
Lemma range_search_inv fn m :
  Re.search averaged_or_full_filename_regex fn = Some m ->
  exists start stop type date,
    Re.group m "start_date" = Some start
    /\ Re.group m "stop_date" = Some stop
    /\ Re.group m "type" = Some type
    /\ Re.group m "date" = date
    /\ eight_digits start /\ eight_digits stop
    /\ (type = ZplscEchogramType.AVERAGED \/ type = ZplscEchogramType.FULL)
    /\ (forall d, date = Some d -> eight_digits d).
Proof.
  intros H. apply search_some in H. destruct H as (pre & s' & _ & H).
  apply re_match_in, range_match_inv in H.
  destruct H as (start & stop & type & date & Hg & H).
  exists start, stop, type, date. unfold Re.group. rewrite Hg.
  destruct (range_groups_lookup start stop type date) as (-> & -> & -> & ->).
  tauto.
Qed.

(* ================================================================== *)
(** * The pattern of the hourly files of one day *)

Lemma compile_digit a p r :
  is_digit a = true -> Re.compile p = Some r ->
  Re.compile (String a p) = Some (Re.Cat (Re.Lit a) r).
Proof. intros Ha Hp. digit_cases Ha; simpl; rewrite Hp; reflexivity. Qed.

Lemma compile_digits d p r :
  all_digits d = true -> Re.compile p = Some r ->
  exists r', Re.compile (d ++ p) = Some r'
             /\ forall cs, atoms r = Some cs ->
                           atoms r' = Some (lits d ++ cs)%list.
Proof.
  intros Hd Hp. induction d as [|a d IH]; simpl in *.
  - exists r. split; [assumption|]. intros cs Hcs. exact Hcs.
  - apply andb_prop in Hd. destruct Hd as [Ha Hd].
    destruct (IH Hd) as (r' & Hr' & Hat).
    exists (Re.Cat (Re.Lit a) r'). split.
    + apply compile_digit; assumption.
    + intros cs Hcs. simpl. rewrite (Hat cs Hcs). reflexivity.
Qed.

Lemma compile_full_hourly_file_regex d :
  all_digits d = true ->
  exists r, Re.compile (full_hourly_file_regex d) = Some r
            /\ atoms r = Some (full_atoms d).
Proof.
  intros Hd. unfold full_hourly_file_regex.
  destruct (compile_digits d "-T[0-9]{6}\.nc" _ Hd eq_refl) as (r' & Hr' & Hat).
  rewrite append_assoc.
  cbn [append]. cbn [Re.compile]. rewrite Hr'.
  eexists. split; [reflexivity|].
  cbn [atoms Re.without_count]. rewrite (Hat _ eq_refl). reflexivity.
Qed.

Lemma match_atoms_app_inv a b s t rest :
  match_atoms (a ++ b)%list s = Some (t, rest) ->
  exists t1 r1 t2,
    match_atoms a s = Some (t1, r1) /\ match_atoms b r1 = Some (t2, rest)
    /\ t = t1 ++ t2.
Proof.
  rewrite match_atoms_app.
  destruct (match_atoms a s) as [[t1 r1]|] eqn:E1; [|discriminate].
  destruct (match_atoms b r1) as [[t2 r2]|] eqn:E2; [|discriminate].
  intros H; inversion H; subst. exists t1, r1, t2; auto.
Qed.

Lemma match_atoms_lits_inv l s t rest :
  match_atoms (lits l) s = Some (t, rest) -> t = l /\ s = l ++ rest.
Proof.
  intros H. pose proof (match_atoms_split _ _ _ _ H) as Hs.
  apply match_atoms_lits in H. subst t. auto.
Qed.

Lemma match_atoms_lits_ok l rest :
  match_atoms (lits l) (l ++ rest) = Some (l, rest).
Proof.
  induction l as [|a l IH]; [reflexivity|].
  unfold lits in *. cbn [list_ascii_of_string map append match_atoms accepts].
  rewrite Ascii.eqb_refl, IH. reflexivity.
Qed.

Lemma match_atoms_digits_ok t rest :
  all_digits t = true ->
  match_atoms (repeat (ARange "0" "9") (String.length t)) (t ++ rest)
  = Some (t, rest).
Proof.
  induction t as [|a t IH]; intros Ht; [reflexivity|].
  simpl in Ht. apply andb_prop in Ht. destruct Ht as [Ha Ht].
  cbn [String.length repeat append match_atoms accepts].
  unfold is_digit in Ha. rewrite Ha, (IH Ht). reflexivity.
Qed.

(** The names that the pattern of the hourly files of day [d] matches:
    [OOI-D<d>-T<6 digits>.nc], and whatever follows. *)
Lemma match_atoms_full d f :
  (exists t rest, match_atoms (full_atoms d) f = Some (t, rest))
  <-> exists time rest,
        six_digits time /\ f = hourly_name d time ++ rest.
Proof.
  unfold full_atoms, hourly_name. split.
  - intros (t & rest & H).
    apply match_atoms_app_inv in H. destruct H as (t1 & r1 & ta & H1 & H & ->).
    apply match_atoms_lits_inv in H1. destruct H1 as [-> ->].
    apply match_atoms_app_inv in H. destruct H as (t2 & r2 & tb & H2 & H & ->).
    apply match_atoms_lits_inv in H2. destruct H2 as [-> ->].
    apply match_atoms_app_inv in H. destruct H as (t3 & r3 & tc & H3 & H & ->).
    apply match_atoms_lits_inv in H3. destruct H3 as [-> ->].
    apply match_atoms_app_inv in H. destruct H as (t4 & r4 & td & H4 & H & ->).
    pose proof (match_atoms_split _ _ _ _ H4) as ->.
    apply match_atoms_digits in H4.
    apply match_atoms_lits_inv in H. destruct H as [-> ->].
    exists t4, rest. split; [exact H4|].
    rewrite !append_assoc. reflexivity.
  - intros (time & rest & [Hd Hl] & ->).
    exists (hourly_name d time), rest. unfold hourly_name.
    rewrite !append_assoc.
    rewrite match_atoms_app, match_atoms_lits_ok.
    rewrite match_atoms_app, match_atoms_lits_ok.
    rewrite match_atoms_app, match_atoms_lits_ok.
    rewrite match_atoms_app, <- Hl, match_atoms_digits_ok by assumption.
    rewrite match_atoms_lits_ok. reflexivity.
Qed.

Lemma pattern_matches_atoms pattern r cs f :
  Re.compile pattern = Some r -> atoms r = Some cs ->
  pattern_matches pattern f
  <-> exists t rest, match_atoms cs f = Some (t, rest).
Proof.
  intros Hr Hcs. unfold pattern_matches, re_match_str, Re.re_match.
  rewrite Hr, (matches_atoms r cs Hcs).
  destruct (match_atoms cs f) as [[t rest]|]; simpl; split.
  - intros _. exists t, rest; reflexivity.
  - intros _. eexists; reflexivity.
  - intros (m & H); discriminate.
  - intros (t & rest & H); discriminate.
Qed.

Lemma full_pattern_matches d f :
  all_digits d = true ->
  pattern_matches (full_hourly_file_regex d) f
  <-> exists time rest, six_digits time /\ f = hourly_name d time ++ rest.
Proof.
  intros Hd.
  destruct (compile_full_hourly_file_regex d Hd) as (r & Hr & Hat).
  rewrite (pattern_matches_atoms _ r _ f Hr Hat).
  apply match_atoms_full.
Qed.

(* ================================================================== *)
(** * Dates read from eight digits *)



(** [strptime] with [%Y%m%d] reads the day that eight digits spell. *)
Lemma strptime_Ymd date D :
  day_of_digits date = Some D ->
  Datetime.strptime (Some date) "%Y%m%d" = Ok D.
Proof.
  unfold day_of_digits.
  destruct date as [|y1 [|y2 [|y3 [|y4 [|m1 [|m2 [|d1 [|d2 [|]]]]]]]]];
    try discriminate.
  destruct (all_digits _) eqn:Hd; [|discriminate].
  simpl in Hd. rewrite !andb_true_iff in Hd.
  destruct Hd as (Hy1 & Hy2 & Hy3 & Hy4 & Hm1 & Hm2 & Hd1 & Hd2 & _).
  destruct (Datetime.make _ _ _ 0 0 0) as [D'|] eqn:Em; [|discriminate].
  intros HD; inversion HD; subst D'.
  assert (Hok : two_ok "m" m1 m2 = true /\ two_ok "d" d1 d2 = true).
  { unfold Datetime.make in Em.
    destruct (_ && _) eqn:E in Em; [|discriminate].
    repeat (apply andb_prop in E; destruct E as [E ?]).
    repeat match goal with H : (_ <=? _) = true |- _ => apply Z.leb_le in H end.
    pose proof (days_in_month_le_31 (val4 y1 y2 y3 y4) (val2 m1 m2)).
    split; [apply (two_ok_in_range "m" 1 12)|apply (two_ok_in_range "d" 1 31)];
      simpl; auto 10; lia. }
  destruct Hok as [Hm Hdd].
  unfold Datetime.strptime.
  change (Datetime.format_regex "%Y%m%d")
    with (Some (Re.Cat (dir "Y") (Re.Cat (dir "m") (Re.Cat (dir "d") Re.Eps)))).
  unfold Re.re_match.
  rewrite matches_cat, matches_Y by assumption.
  cbn [flat_map mk_match Re.groups Re.rest].
  rewrite matches_cat, (matches_dir "m") by (simpl; auto 10).
  unfold candidates at 1. rewrite Hm.
  cbn [flat_map map app mk_match Re.groups Re.rest].
  rewrite matches_cat, (matches_dir "d") by (simpl; auto 10).
  unfold candidates at 1. rewrite Hdd.
  cbn [flat_map map app mk_match Re.groups Re.rest Re.matches Re.append
       Re.matched Str.is_empty].
  unfold Datetime.field, Re.group; cbn [Re.groups].
  change (Re.lookup "Y" _) with
    (Some (String y1 (String y2 (String y3 (String y4 ""))))).
  change (Re.lookup "m" _) with (Some (s2 m1 m2)).
  change (Re.lookup "d" _) with (Some (s2 d1 d2)).
  change (Re.lookup "H" _) with (@None string).
  change (Re.lookup "M" _) with (@None string).
  change (Re.lookup "S" _) with (@None string).
  cbv beta iota. rewrite int_s4, !int_s2 by assumption. exact Em.
Qed.

(* ================================================================== *)
(** * C2: the window of a [Full] echogram *)



(* ================================================================== *)
(** * C8: the window of an hourly echogram *)






(* ================================================================== *)
(** * The parser, step by step *)

Lemma bind_ok {A B} (c : M A) (k : A -> M B) st a st1 :
  c st = (Ok a, st1) -> bind c k st = k a st1.
Proof. unfold bind. intros ->. reflexivity. Qed.

Lemma bind_raise {A B} (c : M A) (k : A -> M B) st e st1 :
  c st = (Raise e, st1) -> bind c k st = (Raise e, st1).
Proof. unfold bind. intros ->. reflexivity. Qed.

Lemma bind_inv {A B} (c : M A) (k : A -> M B) st r st' :
  bind c k st = (r, st') ->
  (exists a st1, c st = (Ok a, st1) /\ k a st1 = (r, st'))
  \/ (exists e, c st = (Raise e, st') /\ r = Raise e).
Proof.
  unfold bind. destruct (c st) as [[a|e] st1]; intros H.
  - left. exists a, st1; auto.
  - right. inversion H; subst. exists e; auto.
Qed.

(* ================================================================== *)
(** * C10: a [Full] filename without its date *)

(** C10, as amended.  For every filename in which the range form is found
    with type [Full] and without the trailing date, [parse_file] raises a
    [TypeError]; it is the one of ['OOI-D' + None], raised while the
    pattern of the hourly files is built, before [strptime] is reached.  It
    is neither of the two [SampleException]s, and nothing is read. *)
Theorem full_without_date_raises_type_error
    (time_to_ntp : float -> float) (string_to_ntp : string -> result float)
    (driver_ts : float) (fs : filesystem)
    (path : string) (m : Re.match_object) (st : parser_state) :
  Re.search averaged_or_full_filename_regex (snd (OsPath.split path)) = Some m ->
  Re.group m "type" = Some ZplscEchogramType.FULL ->
  Re.group m "date" = None ->
  parse_file time_to_ntp string_to_ntp driver_ts fs path st
  = (Raise (TypeError ConcatStrNone), st).
Proof.
  intros Hs Ht Hd. unfold parse_file.
  destruct (OsPath.split path) as [dir fn]. cbn [snd] in Hs.
  assert (Hm : match_filename fn = Ok (m, Some ZplscEchogramType.FULL)).
  { unfold match_filename. rewrite Hs, Ht. reflexivity. }
  rewrite (bind_ok _ _ st _ st (f_equal (fun r => (r, st)) Hm)).
  apply bind_raise. unfold lift, search_window. cbn [eq_str].
  change (String.eqb ZplscEchogramType.FULL ZplscEchogramType.FULL) with true.
  rewrite Hd. reflexivity.
Qed.

Lemma full_without_date_raises_type_error_witness :
  let path := "/data/CE07SHSM_Bioacoustic_Echogram_20191020-20191027_Calibrated_Sv_Full.nc" in
  let m := {| Re.groups := [("type", "Full"); ("stop_date", "20191027");
                            ("start_date", "20191020")];
              Re.matched := "Bioacoustic_Echogram_20191020-20191027_Calibrated_Sv_Full.nc";
              Re.rest := "" |} in
  Re.search averaged_or_full_filename_regex (snd (OsPath.split path)) = Some m
  /\ Re.group m "type" = Some ZplscEchogramType.FULL
  /\ Re.group m "date" = None
  /\ sample_parse_file (sample_fs []) path
     = (Raise (TypeError ConcatStrNone), initial_state).
Proof.
  intros path m.
  assert (H1 : Re.search averaged_or_full_filename_regex
                 (snd (OsPath.split path)) = Some m)
    by (vm_compute; reflexivity).
  assert (H2 : Re.group m "type" = Some ZplscEchogramType.FULL) by reflexivity.
  assert (H3 : Re.group m "date" = None) by reflexivity.
  split; [exact H1|]. split; [exact H2|]. split; [exact H3|].
  exact (full_without_date_raises_type_error _ _ _ _ path m _ H1 H2 H3).
Defined.

(** C10, as stated, fails: on a [Full] filename without date the
    [TypeError] does not come from [strptime(None, ...)]. *)
Lemma full_without_date_not_from_strptime :
  fst (sample_parse_file (sample_fs [])
         "/data/CE07SHSM_Bioacoustic_Echogram_20191020-20191027_Calibrated_Sv_Full.nc")
  <> Raise (TypeError StrptimeArgNone).
Proof. vm_compute. discriminate. Qed.

(* ================================================================== *)
(** * C1: filenames of neither format *)

(** A substring is contained in what is built around it. *)
Lemma strip_prefix_app l rest : Str.strip_prefix l (l ++ rest) = Some rest.
Proof.
  induction l as [|a l IH]; simpl; [destruct rest; reflexivity|].
  rewrite Ascii.eqb_refl. exact IH.
Qed.

Lemma contains_app pre l post : Str.contains l (pre ++ l ++ post) = true.
Proof.
  induction pre as [|a pre IH].
  - simpl append. destruct (l ++ post) eqn:E; simpl;
      rewrite <- E, strip_prefix_app; reflexivity.
  - simpl. destruct (Str.strip_prefix l (String a (pre ++ l ++ post)));
      [reflexivity|exact IH].
Qed.

Lemma contains_mid l pre post s :
  s = pre ++ l ++ post -> Str.contains l s = true.
Proof. intros ->. apply contains_app. Qed.

Ltac contains_after pre :=
  eapply (contains_mid _ pre); rewrite ?append_assoc; reflexivity.

(** When neither pattern matches at the places [parse_file] tries them,
    the exception names the filename and both patterns, and nothing is read
    or recorded. *)
Lemma unmatched_filename_raises_format_error
    (time_to_ntp : float -> float) (string_to_ntp : string -> result float)
    (driver_ts : float) (fs : filesystem) (path : string) (st : parser_state) :
  let fn := snd (OsPath.split path) in
  Re.search averaged_or_full_filename_regex fn = None ->
  Re.re_match hourly_filename_regex fn = None ->
  parse_file time_to_ntp string_to_ntp driver_ts fs path st
  = (Raise (SampleException (format_error_msg fn)), st)
  /\ Str.contains fn (format_error_msg fn) = true
  /\ Str.contains averaged_or_full_filename_regex_str (format_error_msg fn) = true
  /\ Str.contains hourly_filename_regex_str (format_error_msg fn) = true.
Proof.
  intros fn Hs Hm. split; [|split; [|split]].
  - unfold parse_file. subst fn. destruct (OsPath.split path) as [dir fn].
    cbn [snd] in *. apply bind_raise.
    unfold lift, match_filename. rewrite Hs, Hm. reflexivity.
  - unfold format_error_msg. contains_after ("Filename " ++ dquote).
  - unfold format_error_msg.
    contains_after ("Filename " ++ dquote ++ fn ++ dquote
                    ++ " not in either of the expected formats: " ++ dquote).
  - unfold format_error_msg.
    contains_after ("Filename " ++ dquote ++ fn ++ dquote
                    ++ " not in either of the expected formats: " ++ dquote
                    ++ averaged_or_full_filename_regex_str ++ dquote
                    ++ " or " ++ dquote).
Qed.

(** C1, at the input where the code departs from it.  The filename
    [OOI-D20191020-T013835.nc.bak] matches neither grammar (the range form
    occurs nowhere, the hourly form does not match it as a whole), yet
    [parse_file] raises no [SampleException]: the hourly pattern is only
    anchored at the start, the filename is taken for an hourly one, and
    [strptime] then raises a [ValueError]. *)
Theorem hourly_name_with_suffix_raises_value_error
    (time_to_ntp : float -> float) (string_to_ntp : string -> result float)
    (driver_ts : float) (fs : filesystem) (st : parser_state) :
  Re.search averaged_or_full_filename_regex "OOI-D20191020-T013835.nc.bak" = None
  /\ Re.fullmatch hourly_filename_regex "OOI-D20191020-T013835.nc.bak" = false
  /\ parse_file time_to_ntp string_to_ntp driver_ts fs
       "/data/OOI-D20191020-T013835.nc.bak" st
     = (Raise (ValueError (UnconvertedDataRemains ".bak")), st).
Proof.
  split; [vm_compute; reflexivity|]. split; [vm_compute; reflexivity|].
  vm_compute. reflexivity.
Qed.

(* ================================================================== *)
(** * C3: no hourly file in the directory *)

(** When the scan of the directory selects no file, the exception names the
    bounds of the range, the type, the filename and the pattern, and no
    file has been opened. *)
Lemma no_hourly_file_raises_correlation_error
    (time_to_ntp : float -> float) (string_to_ntp : string -> result float)
    (driver_ts : float) (fs : filesystem) (path : string) (st : parser_state)
    m type pattern start stop entries :
  let dir := fst (OsPath.split path) in
  let fn := snd (OsPath.split path) in
  match_filename fn = Ok (m, type) ->
  search_window fn m type = Ok (pattern, start, stop) ->
  listdir fs dir = Ok entries ->
  select_hourly_files pattern type start stop entries = Ok [] ->
  let msg := correlation_error_msg start stop type fn pattern in
  parse_file time_to_ntp string_to_ntp driver_ts fs path st
  = (Raise (SampleException msg), st)
  /\ Str.contains (Datetime.strftime start HOURLY_FILENAME_DATE_FORMAT) msg = true
  /\ Str.contains (Datetime.strftime stop HOURLY_FILENAME_DATE_FORMAT) msg = true
  /\ Str.contains (percent_s type) msg = true
  /\ Str.contains fn msg = true
  /\ Str.contains pattern msg = true.
Proof.
  intros dir fn Hm Hw Hl Hsel msg.
  split; [|repeat split].
  - unfold parse_file. subst dir fn msg.
    destruct (OsPath.split path) as [dir fn]. cbn [fst snd] in *.
    unfold bind, lift. rewrite Hm, Hw, Hl, Hsel. reflexivity.
  - unfold msg, correlation_error_msg. contains_after "Hourly files from ".
  - unfold msg, correlation_error_msg.
    contains_after ("Hourly files from "
                    ++ Datetime.strftime start HOURLY_FILENAME_DATE_FORMAT
                    ++ " to ").
  - unfold msg, correlation_error_msg.
    contains_after ("Hourly files from "
                    ++ Datetime.strftime start HOURLY_FILENAME_DATE_FORMAT
                    ++ " to "
                    ++ Datetime.strftime stop HOURLY_FILENAME_DATE_FORMAT
                    ++ " corresponding to " ++ dquote).
  - unfold msg, correlation_error_msg.
    contains_after ("Hourly files from "
                    ++ Datetime.strftime start HOURLY_FILENAME_DATE_FORMAT
                    ++ " to "
                    ++ Datetime.strftime stop HOURLY_FILENAME_DATE_FORMAT
                    ++ " corresponding to " ++ dquote ++ percent_s type
                    ++ dquote ++ " echogram " ++ dquote).
  - unfold msg, correlation_error_msg.
    contains_after ("Hourly files from "
                    ++ Datetime.strftime start HOURLY_FILENAME_DATE_FORMAT
                    ++ " to "
                    ++ Datetime.strftime stop HOURLY_FILENAME_DATE_FORMAT
                    ++ " corresponding to " ++ dquote ++ percent_s type
                    ++ dquote ++ " echogram " ++ dquote ++ fn ++ dquote
                    ++ " could not be found that match regex " ++ dquote).
Qed.

(** C3, at the input where the code departs from it.  The directory of an
    averaged echogram for 2019-10-20 to 2019-10-27 holds one entry,
    [OOI-D20180101-T000000.nc.bak]: the pattern of the hourly files
    matches it, and the timestamp in its name is outside the range, so no
    entry is a correlated hourly file.  [parse_file] raises the
    [ValueError] of [strptime] from inside the scan, not the
    [SampleException]; no file has been opened. *)
Theorem stray_directory_entry_raises_value_error
    (time_to_ntp : float -> float) (string_to_ntp : string -> result float)
    (driver_ts : float) (st : parser_state) :
  pattern_matches hourly_filename_regex_str "OOI-D20180101-T000000.nc.bak"
  /\ hourly_timestamp "OOI-D20180101-T000000.nc"
     = Some (Datetime.mk 2018 1 1 0 0 0)
  /\ Datetime.leb (Datetime.mk 2019 10 20 0 0 0) (Datetime.mk 2018 1 1 0 0 0)
     = false
  /\ parse_file time_to_ntp string_to_ntp driver_ts
       (sample_fs ["OOI-D20180101-T000000.nc.bak"]) sample_averaged_path st
     = (Raise (ValueError (UnconvertedDataRemains ".bak")), st).
Proof.
  split; [eexists; vm_compute; reflexivity|].
  split; [vm_compute; reflexivity|]. split; [reflexivity|].
  vm_compute. reflexivity.
Qed.

(* ================================================================== *)
(** * C7: when the provenance is left as it is *)

(** C7.  When the type is [Hourly], or the source-file reference is absent
    or empty, [modify_provenance_for_echogram_type] returns without changing
    anything: the reference and every other field of the provenance (and
    the rest of the parser) are as before, however often it is invoked. *)
Theorem modify_provenance_is_noop
    (echogram_type : option string)
    (first_datetime last_datetime : Datetime.datetime) (st : parser_state) :
  echogram_type = Some ZplscEchogramType.HOURLY
  \/ data_file_name (provenance st) = None
  \/ data_file_name (provenance st) = Some "" ->
  modify_provenance_for_echogram_type echogram_type first_datetime
    last_datetime st = (Ok tt, st)
  /\ forall n,
       Nat.iter n
         (fun s => snd (modify_provenance_for_echogram_type echogram_type
                          first_datetime last_datetime s)) st = st.
Proof.
  intros H.
  assert (Hone : modify_provenance_for_echogram_type echogram_type
                   first_datetime last_datetime st = (Ok tt, st)).
  { unfold modify_provenance_for_echogram_type, bind, get_provenance.
    destruct H as [-> | [-> | ->]].
    - reflexivity.
    - cbn [truthy negb]. rewrite orb_true_r. reflexivity.
    - cbn [truthy negb Str.is_empty]. rewrite orb_true_r. reflexivity. }
  split; [exact Hone|].
  induction n as [|n IH]; [reflexivity|].
  rewrite Nat.iter_succ, IH, Hone. reflexivity.
Qed.

Lemma modify_provenance_is_noop_witness :
  let st := state_with_reference "/data/2019/10/20/OOI-D20191020-T003835.raw" in
  let t := Datetime.mk 2019 10 20 0 38 35 in
  modify_provenance_for_echogram_type (Some ZplscEchogramType.HOURLY) t t st
  = (Ok tt, st)
  /\ forall n,
       Nat.iter n
         (fun s => snd (modify_provenance_for_echogram_type
                          (Some ZplscEchogramType.HOURLY) t t s)) st = st.
Proof.
  intros st t.
  exact (modify_provenance_is_noop (Some ZplscEchogramType.HOURLY) t t st
           (or_introl eq_refl)).
Defined.

(* ================================================================== *)
(** * The reference of an averaged echogram: the transformer *)

Lemma strftime_m t : Datetime.strftime t "%m" = Datetime.zpad 2 (Datetime.month t).
Proof. cbn [Datetime.strftime Datetime.format_directive]. simpl Ascii.eqb. cbv iota. apply append_empty_r. Qed.

Lemma strftime_d t : Datetime.strftime t "%d" = Datetime.zpad 2 (Datetime.day t).
Proof. cbn [Datetime.strftime Datetime.format_directive]. simpl Ascii.eqb. cbv iota. apply append_empty_r. Qed.

(** The transformer on an [Averaged] echogram with a non-empty source-file
    reference: the reference becomes the path
    [<year-dir>/<MM>/<DD>/<stem>D*-T*<ext>] of the start day; the path of
    the last covered day (the stop minus one day) is appended after the
    separator [" ... "] when the guard of the code holds, that is when the
    last day is later than the start day. *)
Lemma averaged_reference_rewrite
    (ref : string) (first_datetime last_datetime last_day : Datetime.datetime)
    (st : parser_state) :
  data_file_name (provenance st) = Some ref ->
  ref <> "" ->
  Datetime.add_days last_datetime (-1) = Ok last_day ->
  modify_provenance_for_echogram_type (Some ZplscEchogramType.AVERAGED)
    first_datetime last_datetime st
  = (Ok tt,
     with_data_file_name st
       (day_path ref first_datetime
        ++ (if Datetime.ltb first_datetime last_day
            then " ... " ++ day_path ref last_day
            else ""))).
Proof.
  intros Href Hne Hlast.
  unfold modify_provenance_for_echogram_type.
  unfold bind at 1. unfold get_provenance at 1. rewrite Href.
  change (eq_str (Some ZplscEchogramType.AVERAGED) ZplscEchogramType.HOURLY)
    with false.
  change (eq_str (Some ZplscEchogramType.AVERAGED) ZplscEchogramType.FULL)
    with false.
  assert (Ht : truthy (Some ref) = true)
    by (destruct ref; [contradiction Hne; reflexivity|reflexivity]).
  rewrite Ht. cbn [negb orb percent_s].
  unfold day_path, year_dir, wildcard_template.
  destruct (OsPath.split ref) as [daily_dirname data_filename].
  cbn [fst snd].
  destruct (OsPath.splitext data_filename) as [wo_ext ext].
  cbn [fst snd]. rewrite !strftime_m, !strftime_d.
  unfold bind, lift. rewrite Hlast.
  rewrite !strftime_m, !strftime_d.
  cbv [set_data_file_name bind get_provenance set_provenance
       getitem_data_file_name getitem ret with_data_file_name].
  cbn [provenance data_file_name conversion_software_name
       conversion_software_version conversion_time record_buffer io_log].
  destruct (Datetime.ltb first_datetime last_day);
    cbn [provenance data_file_name conversion_software_name
         conversion_software_version conversion_time record_buffer io_log];
    rewrite ?append_empty_r; reflexivity.
Qed.

(* ================================================================== *)
(** * C9: the files that are opened are closed *)








Lemma closes_set_provenance p : closes_its_files (set_provenance p).
Proof. intros st. left. reflexivity. Qed.













(* ================================================================== *)
(** * C6: the timestamps of the particle *)

Lemma keeps_bind {A B} (c : M A) (k : A -> M B) :
  keeps_records c -> (forall a, keeps_records (k a)) ->
  keeps_records (bind c k).
Proof.
  intros Hc Hk st. unfold bind. specialize (Hc st).
  destruct (c st) as [[a|e] st1]; cbn [fst snd] in *.
  - rewrite (Hk a st1). exact Hc.
  - exact Hc.
Qed.

Lemma keeps_lift {A} (r : result A) : keeps_records (lift r).
Proof. intros st. reflexivity. Qed.

Lemma keeps_ret {A} (a : A) : keeps_records (ret a).
Proof. intros st. reflexivity. Qed.

Lemma keeps_get_provenance : keeps_records get_provenance.
Proof. intros st. reflexivity. Qed.

Lemma keeps_log_event e : keeps_records (log_event e).
Proof. intros st. reflexivity. Qed.

Lemma keeps_set_data_file_name v : keeps_records (set_data_file_name v).
Proof. intros st. reflexivity. Qed.

Lemma keeps_Dataset fs path : keeps_records (Dataset fs path).
Proof.
  unfold Dataset. destruct (netcdf fs path); [|intros st; reflexivity].
  apply keeps_bind; [apply keeps_log_event|intros _; apply keeps_ret].
Qed.

Lemma keeps_set_provenance_from_hourly_file fs hourly_file :
  keeps_records (set_provenance_from_hourly_file fs hourly_file).
Proof.
  unfold set_provenance_from_hourly_file.
  apply keeps_bind; [apply keeps_Dataset|intros ds].
  repeat (apply keeps_bind; [apply keeps_lift|intros ?];
          apply keeps_bind; [intros st; reflexivity|intros _]).
  apply keeps_log_event.
Qed.

Lemma keeps_modify_provenance echogram_type first_datetime last_datetime :
  keeps_records
    (modify_provenance_for_echogram_type echogram_type first_datetime
       last_datetime).
Proof.
  unfold modify_provenance_for_echogram_type.
  apply keeps_bind; [apply keeps_get_provenance|intros p].
  destruct (_ || _); [apply keeps_ret|].
  destruct (OsPath.split _) as [daily name].
  destruct (OsPath.splitext _) as [wo_ext ext].
  destruct (eq_str _ _); [apply keeps_set_data_file_name|].
  apply keeps_bind; [apply keeps_lift|intros last].
  apply keeps_bind; [apply keeps_set_data_file_name|intros _].
  destruct (Datetime.ltb _ _); [|apply keeps_ret].
  apply keeps_bind; [apply keeps_get_provenance|intros p'].
  apply keeps_bind; [apply keeps_lift|intros current].
  apply keeps_set_data_file_name.
Qed.

Lemma keeps_get_first_ping_time time_to_ntp fs echogram_filepath echogram_type :
  keeps_records
    (get_first_ping_time_from_echogram time_to_ntp fs echogram_filepath
       echogram_type).
Proof.
  unfold get_first_ping_time_from_echogram.
  apply keeps_bind; [apply keeps_Dataset|intros ds].
  apply keeps_bind; [apply keeps_lift|intros x].
  apply keeps_bind; [apply keeps_log_event|intros _; apply keeps_ret].
Qed.

Lemma float_add_zero (x : float) :
  same_number (float_add x (float_of_int 0)) x.
Proof.
  change (float_of_int 0) with (S754_zero false).
  destruct x as [[|]| | |]; unfold same_number; cbn; auto.
Qed.

(** The types that [match_filename] assigns. *)
Lemma match_filename_type fn m type :
  match_filename fn = Ok (m, type) ->
  type = Some ZplscEchogramType.AVERAGED
  \/ type = Some ZplscEchogramType.FULL
  \/ type = Some ZplscEchogramType.HOURLY.
Proof.
  unfold match_filename.
  destruct (Re.search _ fn) as [m'|] eqn:Es.
  - intros H; inversion H; subst.
    destruct (range_search_inv _ _ Es)
      as (start & stop & ty & date & _ & _ & Hty & _ & _ & _ & [->| ->] & _);
      rewrite Hty; auto.
  - destruct (Re.re_match _ fn); intros H; inversion H; auto.
Qed.

Lemma bind_ok_inv {A B} (c : M A) (k : A -> M B) st b st' :
  bind c k st = (Ok b, st') ->
  exists a st1, c st = (Ok a, st1) /\ k a st1 = (Ok b, st').
Proof.
  intros H. destruct (bind_inv _ _ _ _ _ H) as [H'|(e & _ & He)];
    [exact H'|discriminate].
Qed.

Lemma lift_ok_inv {A} (r : result A) st a st1 :
  lift r st = (Ok a, st1) -> r = Ok a /\ st1 = st.
Proof. unfold lift. intros H; inversion H; auto. Qed.

(** What a successful [parse_file] went through. *)
Lemma parse_file_ok_inv time_to_ntp string_to_ntp driver_ts fs path st st' :
  parse_file time_to_ntp string_to_ntp driver_ts fs path st = (Ok tt, st') ->
  exists m type pattern start stop entries files first st1 st2 st3 fpt ct dts,
    match_filename (snd (OsPath.split path)) = Ok (m, type)
    /\ search_window (snd (OsPath.split path)) m type = Ok (pattern, start, stop)
    /\ listdir fs (fst (OsPath.split path)) = Ok entries
    /\ select_hourly_files pattern type start stop entries = Ok files
    /\ files <> []
    /\ first_sorted files = Ok first
    /\ set_provenance_from_hourly_file fs
         (OsPath.join (fst (OsPath.split path)) [first]) st = (Ok tt, st1)
    /\ modify_provenance_for_echogram_type type start stop st1 = (Ok tt, st2)
    /\ get_first_ping_time_from_echogram time_to_ntp fs path type st2
       = (Ok fpt, st3)
    /\ conversion_time (provenance st3) = Some ct
    /\ string_to_ntp ct = Ok dts
    /\ st' = {| provenance := provenance st3;
                record_buffer :=
                  record_buffer st3
                  ++ [{| raw_data :=
                           {| INTERNAL_TIMESTAMP :=
                                float_plus fpt
                                  (if eq_str type ZplscEchogramType.FULL
                                   then PyFloat float_0_001 else PyInt 0);
                              FILE_TIME := fpt;
                              ECHOGRAM_PATH := path |};
                         internal_timestamp :=
                           float_plus fpt
                             (if eq_str type ZplscEchogramType.FULL
                              then PyFloat float_0_001 else PyInt 0);
                         driver_timestamp := dts |}];
                io_log := io_log st3 |}.
Proof.
  unfold parse_file. destruct (OsPath.split path) as [dir fn]. cbn [fst snd].
  intros H.
  apply bind_ok_inv in H. destruct H as ([m type] & s0 & H0 & H).
  apply lift_ok_inv in H0. destruct H0 as [H0 ->].
  apply bind_ok_inv in H. destruct H as ([[pattern start] stop] & s0 & H1 & H).
  apply lift_ok_inv in H1. destruct H1 as [H1 ->].
  apply bind_ok_inv in H. destruct H as (entries & s0 & H2 & H).
  apply lift_ok_inv in H2. destruct H2 as [H2 ->].
  apply bind_ok_inv in H. destruct H as (files & s0 & H3 & H).
  apply lift_ok_inv in H3. destruct H3 as [H3 ->].
  destruct files as [|f0 files]; [discriminate|]. cbn [List.length Nat.eqb] in H.
  apply bind_ok_inv in H. destruct H as (first & s0 & H4 & H).
  apply lift_ok_inv in H4. destruct H4 as [H4 ->].
  apply bind_ok_inv in H. destruct H as ([] & st1 & H5 & H).
  apply bind_ok_inv in H. destruct H as ([] & st2 & H6 & H).
  apply bind_ok_inv in H. destruct H as (fpt & st3 & H7 & H).
  apply bind_ok_inv in H. destruct H as (p & s0 & H8 & H).
  unfold get_provenance in H8. inversion H8; subst p s0; clear H8.
  apply bind_ok_inv in H. destruct H as (ct & s0 & H9 & H).
  apply lift_ok_inv in H9. destruct H9 as [H9 ->].
  apply bind_ok_inv in H. destruct H as (dts & s0 & H10 & H).
  apply lift_ok_inv in H10. destruct H10 as [H10 ->].
  unfold append_record, extract_sample in H. cbn in H. inversion H; clear H.
  exists m, type, pattern, start, stop, entries, (f0 :: files), first,
    st1, st2, st3, fpt, ct, dts.
  repeat (split; [first [assumption|discriminate]|]).
  split.
  - unfold getitem in H9. destruct (conversion_time (provenance st3));
      inversion H9; reflexivity.
  - split; [assumption|reflexivity].
Qed.

(** C6.  For every successful invocation, one particle is appended to the
    record buffer.  Its internal timestamp is the first ping time plus
    [0.001] when the type is [Full]; for [Averaged] and [Hourly] it is the
    first ping time plus the integer [0], the same number as the first ping
    time.  Its file time is the first ping time without offset. *)
Theorem particle_timestamps
    (time_to_ntp : float -> float) (string_to_ntp : string -> result float)
    (driver_ts : float) (fs : filesystem) (path : string) (st : parser_state) :
  let run := parse_file time_to_ntp string_to_ntp driver_ts fs path st in
  fst run = Ok tt ->
  exists m type first_ping_time st2 st3 particle,
    match_filename (snd (OsPath.split path)) = Ok (m, type)
    /\ get_first_ping_time_from_echogram time_to_ntp fs path type st2
       = (Ok first_ping_time, st3)
    /\ record_buffer (snd run) = (record_buffer st ++ [particle])%list
    /\ FILE_TIME (raw_data particle) = first_ping_time
    /\ internal_timestamp particle = INTERNAL_TIMESTAMP (raw_data particle)
    /\ ((type = Some ZplscEchogramType.FULL
         /\ internal_timestamp particle
            = float_add first_ping_time float_0_001)
        \/ ((type = Some ZplscEchogramType.AVERAGED
             \/ type = Some ZplscEchogramType.HOURLY)
            /\ internal_timestamp particle
               = float_add first_ping_time (float_of_int 0)
            /\ same_number (internal_timestamp particle) first_ping_time)).
Proof.
  intros run Hok. subst run.
  destruct (parse_file time_to_ntp string_to_ntp driver_ts fs path st)
    as [r st'] eqn:E.
  cbn [fst snd] in *. subst r.
  destruct (parse_file_ok_inv _ _ _ _ _ _ _ E)
    as (m & type & pattern & start & stop & entries & files & first
        & st1 & st2 & st3 & fpt & ct & dts
        & Hm & Hw & Hl & Hs & Hne & Hf & H1 & H2 & H3 & Hct & Hd & ->).
  eexists m, type, fpt, st2, st3, _.
  split; [exact Hm|]. split; [exact H3|].
  split.
  { cbn [record_buffer]. f_equal.
    pose proof (keeps_get_first_ping_time time_to_ntp fs path type st2) as K3.
    rewrite H3 in K3. cbn [snd] in K3. rewrite K3.
    pose proof (keeps_modify_provenance type start stop st1) as K2.
    rewrite H2 in K2. cbn [snd] in K2. rewrite K2.
    pose proof (keeps_set_provenance_from_hourly_file fs
                  (OsPath.join (fst (OsPath.split path)) [first]) st) as K1.
    rewrite H1 in K1. exact K1. }
  cbn [raw_data FILE_TIME INTERNAL_TIMESTAMP internal_timestamp].
  split; [reflexivity|]. split; [reflexivity|].
  destruct (match_filename_type _ _ _ Hm) as [-> | [-> | ->]].
  - right. split; [left; reflexivity|].
    split; [reflexivity|apply float_add_zero].
  - left. split; reflexivity.
  - right. split; [right; reflexivity|].
    split; [reflexivity|apply float_add_zero].
Qed.

Lemma particle_timestamps_witness :
  let run := sample_parse_file (sample_fs ["OOI-D20191020-T003835.nc"])
               sample_full_path in
  fst run = Ok tt
  /\ exists particle,
       record_buffer (snd run) = [particle]
       /\ FILE_TIME (raw_data particle) = sample_time_to_ntp sample_ping_time
       /\ internal_timestamp particle
          = float_add (sample_time_to_ntp sample_ping_time) float_0_001.
Proof.
  intros run.
  assert (H : fst run = Ok tt) by (vm_compute; reflexivity).
  split; [exact H|].
  destruct (particle_timestamps sample_time_to_ntp sample_string_to_ntp
              sample_driver_timestamp
              (sample_fs ["OOI-D20191020-T003835.nc"]) sample_full_path
              initial_state H)
    as (m & type & fpt & st2 & st3 & particle & _ & _ & Hb & _ & _ & _).
  exists particle. split; [exact Hb|].
  fold run in Hb. revert Hb. vm_compute. intros Hb. inversion Hb.
  split; reflexivity.
Defined.

(** The guard of the transformer is an order, not a difference: called
    with a stop that is the start itself, the last covered day (the day
    before) differs from the start day and no second path is appended.  A
    run never calls the transformer so: the scan finds no hourly file in an
    empty range, and the run stops before with the exception of the
    missing hourly files. *)
Lemma transformer_guard_is_an_order :
  let st := state_with_reference "/data/2019/10/20/OOI-D20191020-T003835.raw" in
  let first := Datetime.mk 2019 10 20 0 0 0 in
  let last_day := Datetime.mk 2019 10 19 0 0 0 in
  Datetime.add_days first (-1) = Ok last_day
  /\ last_day <> first
  /\ modify_provenance_for_echogram_type (Some ZplscEchogramType.AVERAGED)
       first first st
     = (Ok tt, with_data_file_name st "/data/2019/10/20/OOI-D*-T*.raw")
  /\ Str.contains " ... " "/data/2019/10/20/OOI-D*-T*.raw" = false.
Proof.
  split; [vm_compute; reflexivity|]. split; [discriminate|].
  split; vm_compute; reflexivity.
Qed.

(* ================================================================== *)
(** * The calendar: days and their ordinals *)

Lemma days_before_year_decomp a b c e :
  0 <= b <= 3 -> 0 <= c <= 24 -> 0 <= e <= 3 ->
  Datetime.days_before_year (400 * a + 100 * b + 4 * c + e + 1)
  = 146097 * a + 36524 * b + 1461 * c + 365 * e.
Proof.
  intros Hb Hc He. unfold Datetime.days_before_year.
  replace (400 * a + 100 * b + 4 * c + e + 1 - 1)
    with (400 * a + 100 * b + 4 * c + e) by lia.
  assert (H4 : (400 * a + 100 * b + 4 * c + e) / 4 = 100 * a + 25 * b + c)
    by (symmetry; apply (Z.div_unique _ 4 _ e); lia).
  assert (H100 : (400 * a + 100 * b + 4 * c + e) / 100 = 4 * a + b)
    by (symmetry; apply (Z.div_unique _ 100 _ (4 * c + e)); lia).
  assert (H400 : (400 * a + 100 * b + 4 * c + e) / 400 = a)
    by (symmetry; apply (Z.div_unique _ 400 _ (100 * b + 4 * c + e)); lia).
  rewrite H4, H100, H400. lia.
Qed.

Lemma is_leap_decomp a b c e :
  0 <= b <= 3 -> 0 <= c <= 24 -> 0 <= e <= 3 ->
  Datetime.is_leap (400 * a + 100 * b + 4 * c + e + 1)
  = (e =? 3) && (negb (c =? 24) || (b =? 3)).
Proof.
  intros Hb Hc He. unfold Datetime.is_leap.
  assert (H4 : (400 * a + 100 * b + 4 * c + e + 1) mod 4 = (e + 1) mod 4).
  { replace (400 * a + 100 * b + 4 * c + e + 1)
      with ((e + 1) + (100 * a + 25 * b + c) * 4) by lia.
    apply Z.mod_add. lia. }
  assert (H100 : (400 * a + 100 * b + 4 * c + e + 1) mod 100
                 = (4 * c + e + 1) mod 100).
  { replace (400 * a + 100 * b + 4 * c + e + 1)
      with ((4 * c + e + 1) + (4 * a + b) * 100) by lia.
    apply Z.mod_add. lia. }
  assert (H400 : (400 * a + 100 * b + 4 * c + e + 1) mod 400
                 = (100 * b + 4 * c + e + 1) mod 400).
  { replace (400 * a + 100 * b + 4 * c + e + 1)
      with ((100 * b + 4 * c + e + 1) + a * 400) by lia.
    apply Z.mod_add. lia. }
  rewrite H4, H100, H400.
  assert (He' : e = 0 \/ e = 1 \/ e = 2 \/ e = 3) by lia.
  destruct (Z.eqb_spec e 3) as [E3|E3].
  - subst e. change ((3 + 1) mod 4 =? 0) with true. cbn [andb].
    destruct (Z.eqb_spec c 24) as [E24|E24].
    + subst c. change ((4 * 24 + 3 + 1) mod 100 =? 0) with true.
      cbn [negb orb].
      assert (Hb' : b = 0 \/ b = 1 \/ b = 2 \/ b = 3) by lia.
      destruct Hb' as [-> | [-> | [-> | ->]]]; reflexivity.
    + cbn [negb orb].
      replace ((4 * c + 3 + 1) mod 100 =? 0) with false; [reflexivity|].
      symmetry. apply Z.eqb_neq.
      rewrite Z.mod_small by lia. lia.
  - replace ((e + 1) mod 4 =? 0) with false; [reflexivity|].
    symmetry. apply Z.eqb_neq. rewrite Z.mod_small by lia. lia.
Qed.

Lemma days_before_year_mono y y' :
  y <= y' -> Datetime.days_before_year y <= Datetime.days_before_year y'.
Proof.
  intros H. unfold Datetime.days_before_year.
  Z.div_mod_to_equations. lia.
Qed.

Lemma days_before_year_succ y :
  Datetime.days_before_year (y + 1)
  = Datetime.days_before_year y + (if Datetime.is_leap y then 366 else 365).
Proof.
  unfold Datetime.days_before_year, Datetime.is_leap.
  replace (y + 1 - 1) with y by lia.
  destruct (Z.eqb_spec (y mod 4) 0) as [E4|E4];
    destruct (Z.eqb_spec (y mod 100) 0) as [E100|E100];
    destruct (Z.eqb_spec (y mod 400) 0) as [E400|E400];
    cbn [andb orb negb]; Z.div_mod_to_equations; lia.
Qed.

Lemma month_and_day_spec leapyear n :
  0 <= n <= 364 -> month_and_day_ok leapyear n = true.
Proof.
  intros Hn.
  assert (Hall : forallb (fun k => month_and_day_ok leapyear (Z.of_nat k))
                   (List.seq 0 365) = true)
    by (destruct leapyear; vm_compute; reflexivity).
  rewrite forallb_forall in Hall.
  specialize (Hall (Z.to_nat n)).
  rewrite Z2Nat.id in Hall by lia. apply Hall.
  apply in_seq. lia.
Qed.

Lemma month_cases m : 1 <= m <= 12 ->
  m = 1 \/ m = 2 \/ m = 3 \/ m = 4 \/ m = 5 \/ m = 6 \/ m = 7 \/ m = 8
  \/ m = 9 \/ m = 10 \/ m = 11 \/ m = 12.
Proof. lia. Qed.

Ltac each_month H :=
  apply month_cases in H;
  repeat match type of H with _ \/ _ => destruct H as [H|H] end; subst.

Ltac eval_tables :=
  repeat match goal with
         | |- context [nth ?k ?l ?d] =>
             let v := eval vm_compute in (nth k l d) in
             change (nth k l d) with v
         | H : context [nth ?k ?l ?d] |- _ =>
             let v := eval vm_compute in (nth k l d) in
             change (nth k l d) with v in H
         | |- context [(?a =? ?b)] =>
             let v := eval vm_compute in (a =? b) in
             change (a =? b) with v
         | H : context [(?a =? ?b)] |- _ =>
             let v := eval vm_compute in (a =? b) in
             change (a =? b) with v in H
         | |- context [(?a <? ?b)] =>
             let v := eval vm_compute in (a <? b) in
             change (a <? b) with v
         | H : context [(?a <? ?b)] |- _ =>
             let v := eval vm_compute in (a <? b) in
             change (a <? b) with v in H
         end;
  cbn [andb] in *.

(** Within a year, the day of the year grows with the month and the day. *)
Lemma day_of_year_bounds y m d :
  1 <= m <= 12 -> 1 <= d <= Datetime.days_in_month y m ->
  1 <= Datetime.days_before_month y m + d
    <= (if Datetime.is_leap y then 366 else 365).
Proof.
  intros Hm Hd. unfold Datetime.days_in_month, Datetime.days_before_month in *.
  each_month Hm; destruct (Datetime.is_leap y); eval_tables; lia.
Qed.

Lemma day_of_year_lt y m d m' d' :
  1 <= m <= 12 -> 1 <= m' <= 12 ->
  1 <= d <= Datetime.days_in_month y m -> 1 <= d' ->
  m < m' ->
  Datetime.days_before_month y m + d < Datetime.days_before_month y m' + d'.
Proof.
  intros Hm Hm' Hd Hd' Hlt.
  unfold Datetime.days_in_month, Datetime.days_before_month in *.
  each_month Hm; each_month Hm'; try lia;
    destruct (Datetime.is_leap y); eval_tables; lia.
Qed.

(** The ordinal of a day grows with the day. *)
Lemma ymd2ord_lt y m d y' m' d' :
  valid_date y m d -> valid_date y' m' d' ->
  y < y' \/ (y = y' /\ (m < m' \/ (m = m' /\ d < d'))) ->
  Datetime.ymd2ord y m d < Datetime.ymd2ord y' m' d'.
Proof.
  intros (Hy & Hm & Hd) (Hy' & Hm' & Hd') H. unfold Datetime.ymd2ord.
  destruct H as [H | [-> [H | [-> H]]]].
  - pose proof (day_of_year_bounds y m d Hm Hd).
    pose proof (day_of_year_bounds y' m' d' Hm' Hd').
    pose proof (days_before_year_succ y).
    pose proof (days_before_year_mono (y + 1) y' ltac:(lia)).
    destruct (Datetime.is_leap y); lia.
  - pose proof (day_of_year_lt y' m d m' d' Hm Hm' Hd ltac:(lia) H). lia.
  - lia.
Qed.

Lemma ymd2ord_range y m d :
  valid_date y m d -> 1 <= Datetime.ymd2ord y m d <= Datetime.MAXORDINAL.
Proof.
  intros (Hy & Hm & Hd). unfold Datetime.ymd2ord.
  pose proof (day_of_year_bounds y m d Hm Hd).
  pose proof (days_before_year_succ y).
  pose proof (days_before_year_mono 1 y ltac:(lia)).
  pose proof (days_before_year_mono (y + 1) 10000 ltac:(lia)).
  change (Datetime.days_before_year 1) with 0 in *.
  change (Datetime.days_before_year 10000) with 3652059 in *.
  unfold Datetime.MAXORDINAL.
  destruct (Datetime.is_leap y); lia.
Qed.

(** [_ord2ymd] gives the day that has the ordinal. *)
Lemma ord2ymd_spec n :
  1 <= n <= Datetime.MAXORDINAL ->
  let '(y, m, d) := Datetime.ord2ymd n in
  valid_date y m d /\ Datetime.ymd2ord y m d = n.
Proof.
  unfold Datetime.MAXORDINAL. intros Hn. unfold Datetime.ord2ymd.
  unfold Datetime.DI400Y, Datetime.DI100Y, Datetime.DI4Y.
  pose proof (Z.div_mod (n - 1) 146097 ltac:(lia)) as E400.
  pose proof (Z.mod_pos_bound (n - 1) 146097 ltac:(lia)) as B400.
  set (n400 := (n - 1) / 146097) in *. set (r400 := (n - 1) mod 146097) in *.
  pose proof (Z.div_mod r400 36524 ltac:(lia)) as E100.
  pose proof (Z.mod_pos_bound r400 36524 ltac:(lia)) as B100.
  set (n100 := r400 / 36524) in *. set (r100 := r400 mod 36524) in *.
  pose proof (Z.div_mod r100 1461 ltac:(lia)) as E4.
  pose proof (Z.mod_pos_bound r100 1461 ltac:(lia)) as B4.
  set (n4 := r100 / 1461) in *. set (r4 := r100 mod 1461) in *.
  pose proof (Z.div_mod r4 365 ltac:(lia)) as E1.
  pose proof (Z.mod_pos_bound r4 365 ltac:(lia)) as B1.
  set (n1 := r4 / 365) in *. set (r := r4 mod 365) in *.
  clearbody n400 r400 n100 r100 n4 r4 n1 r.
  assert (H400 : 0 <= n400 <= 24) by lia.
  assert (H100 : 0 <= n100 <= 4) by lia.
  assert (H4 : 0 <= n4 <= 24) by lia.
  assert (H1 : 0 <= n1 <= 4) by lia.
  assert (Hyear : forall y, 1 <= y -> Datetime.days_before_year y < n -> y <= 9999).
  { intros y Hy Hlt. destruct (Z_le_gt_dec y 9999) as [|Hgt]; [assumption|].
    pose proof (days_before_year_mono 10000 y ltac:(lia)) as Hm.
    change (Datetime.days_before_year 10000) with 3652059 in Hm. lia. }
  destruct ((n1 =? 4) || (n100 =? 4)) eqn:Elast.
  - (* the last day of a leap year *)
    assert (Hcase : (n1 = 4 /\ n100 <= 3 /\ n4 <= 23 /\ r = 0)
                    \/ (n100 = 4 /\ n4 = 0 /\ n1 = 0 /\ r = 0 /\ r100 = 0)).
    { apply orb_true_iff in Elast. destruct Elast as [E|E]; apply Z.eqb_eq in E.
      - destruct (Z.eq_dec n100 4); [right; lia|left; lia].
      - right. lia. }
    assert (Hy : exists b c,
               0 <= b <= 3 /\ 0 <= c <= 24 /\ (c = 24 -> b = 3)
               /\ n400 * 400 + 1 + n100 * 100 + n4 * 4 + n1 - 1
                  = 400 * n400 + 100 * b + 4 * c + 3 + 1
               /\ n = 146097 * n400 + 36524 * b + 1461 * c + 365 * 3 + 366).
    { destruct Hcase as [Hc|Hc].
      - exists n100, n4. lia.
      - exists 3, 24. lia. }
    destruct Hy as (b & c & Hb & Hc & Hbc & -> & Hord).
    pose proof (days_before_year_decomp n400 b c 3 Hb Hc ltac:(lia)) as Hdby.
    pose proof (is_leap_decomp n400 b c 3 Hb Hc ltac:(lia)) as Hleap.
    assert (Hl : Datetime.is_leap (400 * n400 + 100 * b + 4 * c + 3 + 1) = true).
    { rewrite Hleap. change (3 =? 3) with true. cbn [andb].
      destruct (Z.eqb_spec c 24) as [E|E]; [|reflexivity].
      rewrite (Hbc E). reflexivity. }
    split.
    + split; [|split].
      * split; [lia|]. apply Hyear; [lia|]. rewrite Hdby. lia.
      * lia.
      * unfold Datetime.days_in_month. eval_tables. lia.
    + unfold Datetime.ymd2ord, Datetime.days_before_month.
      rewrite Hdby, Hl. eval_tables. lia.
  - apply orb_false_iff in Elast. destruct Elast as [En1 En100].
    apply Z.eqb_neq in En1, En100.
    pose proof (month_and_day_spec
                  ((n1 =? 3) && (negb (n4 =? 24) || (n100 =? 3))) r
                  ltac:(lia)) as Hmd.
    unfold month_and_day_ok in Hmd.
    destruct (Datetime.month_and_day r _) as [m d].
    replace (n400 * 400 + 1 + n100 * 100 + n4 * 4 + n1)
      with (400 * n400 + 100 * n100 + 4 * n4 + n1 + 1) by lia.
    pose proof (days_before_year_decomp n400 n100 n4 n1
                  ltac:(lia) ltac:(lia) ltac:(lia)) as Hdby.
    pose proof (is_leap_decomp n400 n100 n4 n1
                  ltac:(lia) ltac:(lia) ltac:(lia)) as Hleap.
    rewrite !andb_true_iff in Hmd.
    destruct Hmd as ((((Hm1 & Hm2) & Hd1) & Hd2) & Hsum).
    apply Z.leb_le in Hm1, Hm2, Hd1, Hd2. apply Z.eqb_eq in Hsum.
    split.
    + split; [|split].
      * split; [lia|]. apply Hyear; [lia|]. rewrite Hdby. lia.
      * lia.
      * unfold Datetime.days_in_month. rewrite Hleap. lia.
    + unfold Datetime.ymd2ord, Datetime.days_before_month.
      rewrite Hdby, Hleap. lia.
Qed.

(** [strptime] with [%Y%m%d] reads nothing else from eight digits than the
    day they spell. *)
Lemma strptime_Ymd_inv date D :
  eight_digits date ->
  Datetime.strptime (Some date) "%Y%m%d" = Ok D ->
  day_of_digits date = Some D.
Proof.
  intros [Hd Hl].
  destruct date as [|y1 [|y2 [|y3 [|y4 [|m1 [|m2 [|d1 [|d2 [|]]]]]]]]];
    try discriminate.
  unfold day_of_digits. rewrite Hd.
  simpl in Hd. rewrite !andb_true_iff in Hd.
  destruct Hd as (Hy1 & Hy2 & Hy3 & Hy4 & Hm1 & Hm2 & Hd1 & Hd2 & _).
  unfold Datetime.strptime.
  change (Datetime.format_regex "%Y%m%d")
    with (Some (Re.Cat (dir "Y") (Re.Cat (dir "m") (Re.Cat (dir "d") Re.Eps)))).
  unfold Re.re_match.
  rewrite matches_cat, matches_Y by assumption.
  cbn [flat_map mk_match Re.groups Re.rest].
  rewrite matches_cat, (matches_dir "m") by (simpl; auto 10).
  unfold candidates at 1.
  destruct (two_ok "m" m1 m2), (one_ok "m" m1);
    cbn [flat_map map app mk_match Re.groups Re.rest];
    rewrite ?matches_cat;
    rewrite ?(matches_dir "d") by (first [assumption | simpl; auto 10]);
    unfold candidates;
    destruct (two_ok "d" d1 d2), (one_ok "d" d1);
    try destruct (two_ok "d" m2 d1); try destruct (one_ok "d" m2);
    cbn [flat_map map app mk_match Re.groups Re.rest Re.matches Re.append
         Re.matched Str.is_empty s1 s2 append];
    try discriminate.
  all: unfold Datetime.field, Re.group; cbn [Re.groups];
    change (Re.lookup "Y" _) with
      (Some (String y1 (String y2 (String y3 (String y4 "")))));
    change (Re.lookup "m" _) with (Some (s2 m1 m2));
    change (Re.lookup "d" _) with (Some (s2 d1 d2));
    change (Re.lookup "H" _) with (@None string);
    change (Re.lookup "M" _) with (@None string);
    change (Re.lookup "S" _) with (@None string);
    cbv beta iota; rewrite int_s4, !int_s2 by assumption;
    intros ->; reflexivity.
Qed.

Lemma day_of_digits_valid date D :
  day_of_digits date = Some D ->
  exists y m d, D = Datetime.mk y m d 0 0 0 /\ valid_date y m d.
Proof.
  unfold day_of_digits.
  destruct date as [|y1 [|y2 [|y3 [|y4 [|m1 [|m2 [|d1 [|d2 [|]]]]]]]]];
    try discriminate.
  destruct (all_digits _); [|discriminate].
  unfold Datetime.make.
  destruct (_ && _) eqn:E; [|discriminate].
  intros H; inversion H; subst.
  repeat (apply andb_prop in E; destruct E as [E ?]).
  repeat match goal with H : (_ <=? _) = true |- _ => apply Z.leb_le in H end.
  unfold Datetime.MINYEAR, Datetime.MAXYEAR in *.
  eexists _, _, _. split; [reflexivity|]. unfold valid_date. lia.
Qed.

(** ** The order of [datetime] values *)

Lemma compare_fields_trans a :
  forall t b,
    List.length a = List.length t -> List.length t = List.length b ->
    Datetime.compare_fields a t <> Gt ->
    Datetime.compare_fields t b = Lt ->
    Datetime.compare_fields a b = Lt.
Proof.
  induction a as [|x a IH]; intros [|y t] [|z b] Hat Htb; simpl in *;
    try discriminate; try congruence.
  destruct (Z.compare_spec x y) as [E|E|E];
    destruct (Z.compare_spec y z) as [F|F|F]; try congruence; intros H1 H2.
  - subst. rewrite Z.compare_refl. apply (IH t b); congruence.
  - subst. rewrite (proj2 (Z.compare_lt_iff _ _) F). reflexivity.
  - subst. rewrite (proj2 (Z.compare_lt_iff _ _) E). reflexivity.
  - rewrite (proj2 (Z.compare_lt_iff x z)) by lia. reflexivity.
Qed.

Lemma datetime_le_lt_trans a t b :
  Datetime.leb a t = true -> Datetime.ltb t b = true -> Datetime.ltb a b = true.
Proof.
  unfold Datetime.leb, Datetime.ltb, Datetime.compare. intros H1 H2.
  rewrite (compare_fields_trans (Datetime.fields a) (Datetime.fields t)
             (Datetime.fields b)); try reflexivity.
  - destruct (Datetime.compare_fields _ _); congruence.
  - destruct (Datetime.compare_fields (Datetime.fields t) _); congruence.
Qed.

Lemma compare_days y m d y' m' d' :
  Datetime.compare (Datetime.mk y m d 0 0 0) (Datetime.mk y' m' d' 0 0 0)
  = match y ?= y' with
    | Eq => match m ?= m' with
            | Eq => d ?= d'
            | c => c
            end
    | c => c
    end.
Proof.
  unfold Datetime.compare. simpl.
  destruct (y ?= y'); try reflexivity.
  destruct (m ?= m'); try reflexivity.
  destruct (d ?= d'); reflexivity.
Qed.

(** The day before a day that is after another day is that other day or a
    later one. *)
Lemma day_before_later_day y m d y' m' d' :
  valid_date y m d -> valid_date y' m' d' ->
  Datetime.ltb (Datetime.mk y m d 0 0 0) (Datetime.mk y' m' d' 0 0 0) = true ->
  exists last,
    Datetime.add_days (Datetime.mk y' m' d' 0 0 0) (-1) = Ok last
    /\ ((last = Datetime.mk y m d 0 0 0
         /\ Datetime.ltb (Datetime.mk y m d 0 0 0) last = false)
        \/ (last <> Datetime.mk y m d 0 0 0
            /\ Datetime.ltb (Datetime.mk y m d 0 0 0) last = true)).
Proof.
  intros Hv Hv' Hlt.
  assert (Hord : Datetime.ymd2ord y m d < Datetime.ymd2ord y' m' d').
  { apply ymd2ord_lt; try assumption.
    unfold Datetime.ltb in Hlt. rewrite compare_days in Hlt.
    destruct (Z.compare_spec y y') as [E|E|E]; try discriminate; [|lia].
    right. split; [assumption|].
    destruct (Z.compare_spec m m') as [F|F|F]; try discriminate; [|lia].
    right. split; [assumption|].
    destruct (Z.compare_spec d d') as [G|G|G]; try discriminate. lia. }
  pose proof (ymd2ord_range _ _ _ Hv) as Hr.
  pose proof (ymd2ord_range _ _ _ Hv') as Hr'.
  unfold Datetime.add_days, Datetime.toordinal.
  cbn [Datetime.year Datetime.month Datetime.day Datetime.hour
       Datetime.minute Datetime.second].
  replace (0 <? Datetime.ymd2ord y' m' d' + -1) with true
    by (symmetry; apply Z.ltb_lt; lia).
  replace (Datetime.ymd2ord y' m' d' + -1 <=? Datetime.MAXORDINAL) with true
    by (symmetry; apply Z.leb_le; lia).
  cbn [andb].
  pose proof (ord2ymd_spec (Datetime.ymd2ord y' m' d' + -1) ltac:(lia)) as Hs.
  destruct (Datetime.ord2ymd _) as [[yl ml] dl]. destruct Hs as [Hvl Hol].
  eexists. split; [reflexivity|].
  unfold Datetime.ltb. rewrite compare_days.
  destruct (Z.compare_spec y yl) as [E|E|E].
  - subst yl. destruct (Z.compare_spec m ml) as [F|F|F].
    + subst ml. destruct (Z.compare_spec d dl) as [G|G|G].
      * subst dl. left. split; reflexivity.
      * right. split; [intros K; inversion K; lia|reflexivity].
      * exfalso.
        pose proof (ymd2ord_lt y m dl y m d Hvl Hv ltac:(lia)). lia.
    + right. split; [intros K; inversion K; lia|reflexivity].
    + exfalso. pose proof (ymd2ord_lt y ml dl y m d Hvl Hv ltac:(lia)). lia.
  - right. split; [intros K; inversion K; lia|reflexivity].
  - exfalso. pose proof (ymd2ord_lt yl ml dl y m d Hvl Hv ltac:(lia)). lia.
Qed.

(* ================================================================== *)
(** * The hourly files that the scan selects *)

Lemma is_hourly_file_true pattern type start stop f :
  eq_str type ZplscEchogramType.HOURLY = false ->
  is_hourly_file pattern type start stop f = Ok true ->
  pattern_matches pattern f
  /\ exists t,
       Datetime.strptime (Some f) HOURLY_FILENAME_DATE_FORMAT = Ok t
       /\ Datetime.leb start t = true /\ Datetime.ltb t stop = true.
Proof.
  intros Hty. unfold is_hourly_file, pattern_matches.
  destruct (re_match_str pattern f) as [[mo|]|e] eqn:Er; cbn [result_bind];
    try discriminate.
  rewrite Hty.
  destruct (Datetime.strptime (Some f) HOURLY_FILENAME_DATE_FORMAT)
    as [t|e] eqn:Et; cbn [result_bind]; [|discriminate].
  intros H; injection H as Hb. apply andb_prop in Hb.
  split; [exists mo; reflexivity|]. exists t.
  split; [reflexivity|exact Hb].
Qed.

(** For an echogram that is not an hourly one, every file that the scan
    selects is an entry of the directory whose name the pattern matches
    and whose timestamp lies in the range. *)
Lemma select_hourly_files_sound pattern type start stop entries :
  eq_str type ZplscEchogramType.HOURLY = false ->
  forall files,
    select_hourly_files pattern type start stop entries = Ok files ->
    forall f, In f files ->
      In f entries /\ pattern_matches pattern f
      /\ exists t,
           Datetime.strptime (Some f) HOURLY_FILENAME_DATE_FORMAT = Ok t
           /\ Datetime.leb start t = true /\ Datetime.ltb t stop = true.
Proof.
  intros Hty. induction entries as [|a entries IH]; intros files H f Hin.
  - inversion H; subst. destruct Hin.
  - cbn [select_hourly_files] in H.
    destruct (is_hourly_file pattern type start stop a) as [keep|e] eqn:Ek;
      cbn [result_bind] in H; [|discriminate].
    destruct (select_hourly_files pattern type start stop entries)
      as [others|e] eqn:Eo; cbn [result_bind] in H; [|discriminate].
    inversion H; subst; clear H.
    destruct keep.
    + destruct Hin as [<-|Hin].
      * split; [left; reflexivity|].
        exact (is_hourly_file_true _ _ _ _ _ Hty Ek).
      * destruct (IH others eq_refl f Hin) as [Hi Hr].
        split; [right; exact Hi|exact Hr].
    + destruct (IH others eq_refl f Hin) as [Hi Hr].
      split; [right; exact Hi|exact Hr].
Qed.

(** The window of an averaged echogram: the pattern of every hourly file,
    and the two days that the dates of the filename spell. *)
Lemma averaged_window_inv fn m pattern start stop :
  match_filename fn = Ok (m, Some ZplscEchogramType.AVERAGED) ->
  search_window fn m (Some ZplscEchogramType.AVERAGED)
  = Ok (pattern, start, stop) ->
  pattern = hourly_filename_regex_str
  /\ exists start_date stop_date,
       Re.group m "start_date" = Some start_date
       /\ Re.group m "stop_date" = Some stop_date
       /\ day_of_digits start_date = Some start
       /\ day_of_digits stop_date = Some stop.
Proof.
  unfold match_filename.
  destruct (Re.search averaged_or_full_filename_regex fn) as [m'|] eqn:Es.
  - intros H; inversion H; subst m'; clear H.
    destruct (range_search_inv _ _ Es)
      as (s1 & s2 & ty & date & Hs1 & Hs2 & _ & _ & Hd1 & Hd2 & _ & _).
    unfold search_window. rewrite ?H2.
    change (eq_str (Some ZplscEchogramType.AVERAGED) ZplscEchogramType.FULL)
      with false.
    change (eq_str (Some ZplscEchogramType.AVERAGED) ZplscEchogramType.AVERAGED)
      with true.
    cbv iota. rewrite Hs1, Hs2.
    destruct (Datetime.strptime (Some s1) "%Y%m%d") as [t1|] eqn:E1;
      cbn [result_bind]; [|discriminate].
    destruct (Datetime.strptime (Some s2) "%Y%m%d") as [t2|] eqn:E2;
      cbn [result_bind]; [|discriminate].
    intros H; inversion H; subst.
    split; [reflexivity|]. exists s1, s2.
    repeat split; try reflexivity; apply strptime_Ymd_inv; assumption.
  - destruct (Re.re_match hourly_filename_regex fn); intros H; inversion H.
Qed.

(* ================================================================== *)
(** * C5: the reference of an averaged echogram, in a run *)

(** C5.  For every averaged echogram (its filename classified as
    [Averaged], with its window, for which the scan found hourly files)
    whose source-file reference is not empty: the reference becomes the
    path [<year-dir>/<MM>/<DD>/<stem>D*-T*<ext>] of the start day; the
    last covered day is the stop minus one day, and exactly when it differs
    from the start day the path of that last day is appended after the
    separator [" ... "]; when the two days are equal the result is the path
    of the start day alone.  (The code appends when the last day is later
    than the start day; in a window that holds an hourly file the last day
    is never before the start day.) *)
Theorem averaged_reference_in_run
    (echogram_filename pattern ref : string) (m : Re.match_object)
    (start stop : Datetime.datetime) (entries files : list string)
    (st : parser_state) :
  match_filename echogram_filename = Ok (m, Some ZplscEchogramType.AVERAGED) ->
  search_window echogram_filename m (Some ZplscEchogramType.AVERAGED)
  = Ok (pattern, start, stop) ->
  select_hourly_files pattern (Some ZplscEchogramType.AVERAGED) start stop
    entries = Ok files ->
  files <> [] ->
  data_file_name (provenance st) = Some ref ->
  ref <> "" ->
  exists last_day,
    Datetime.add_days stop (-1) = Ok last_day
    /\ ((last_day <> start
         /\ modify_provenance_for_echogram_type
              (Some ZplscEchogramType.AVERAGED) start stop st
            = (Ok tt,
               with_data_file_name st
                 (day_path ref start ++ " ... " ++ day_path ref last_day)))
        \/ (last_day = start
            /\ modify_provenance_for_echogram_type
                 (Some ZplscEchogramType.AVERAGED) start stop st
               = (Ok tt, with_data_file_name st (day_path ref start)))).
Proof.
  intros Hm Hw Hsel Hne Href Hnonempty.
  destruct (averaged_window_inv _ _ _ _ _ Hm Hw)
    as (_ & s1 & s2 & _ & _ & Hd1 & Hd2).
  destruct (day_of_digits_valid _ _ Hd1) as (y & mo & d & -> & Hv).
  destruct (day_of_digits_valid _ _ Hd2) as (y' & mo' & d' & -> & Hv').
  assert (Hlt : Datetime.ltb (Datetime.mk y mo d 0 0 0)
                  (Datetime.mk y' mo' d' 0 0 0) = true).
  { destruct files as [|f files]; [contradiction Hne; reflexivity|].
    destruct (select_hourly_files_sound _ (Some ZplscEchogramType.AVERAGED)
                _ _ _ eq_refl _ Hsel f (or_introl eq_refl))
      as (_ & _ & t & _ & Hle & Hlt).
    exact (datetime_le_lt_trans _ _ _ Hle Hlt). }
  destruct (day_before_later_day _ _ _ _ _ _ Hv Hv' Hlt)
    as (last & Hlast & Hcases).
  exists last. split; [exact Hlast|].
  pose proof (averaged_reference_rewrite ref (Datetime.mk y mo d 0 0 0) _ last
                st Href Hnonempty Hlast) as Hrw.
  destruct Hcases as [[-> Hfalse]|[Hdiff Htrue]].
  - right. split; [reflexivity|].
    rewrite Hrw, Hfalse, append_empty_r. reflexivity.
  - left. split; [exact Hdiff|].
    rewrite Hrw, Htrue. reflexivity.
Qed.

Lemma averaged_reference_in_run_witness :
  let fn := "CE07SHSM_Bioacoustic_Echogram_20191020-20191027_Calibrated_Sv_Averaged.nc" in
  let m := {| Re.groups := [("type", "Averaged"); ("stop_date", "20191027");
                            ("start_date", "20191020")];
              Re.matched := "Bioacoustic_Echogram_20191020-20191027_Calibrated_Sv_Averaged.nc";
              Re.rest := "" |} in
  let start := Datetime.mk 2019 10 20 0 0 0 in
  let stop := Datetime.mk 2019 10 27 0 0 0 in
  let ref := "/data/2019/10/20/OOI-D20191020-T003835.raw" in
  let st := state_with_reference ref in
  match_filename fn = Ok (m, Some ZplscEchogramType.AVERAGED)
  /\ search_window fn m (Some ZplscEchogramType.AVERAGED)
     = Ok (hourly_filename_regex_str, start, stop)
  /\ select_hourly_files hourly_filename_regex_str
       (Some ZplscEchogramType.AVERAGED) start stop
       ["notes.txt"; "OOI-D20191020-T003835.nc"]
     = Ok ["OOI-D20191020-T003835.nc"]
  /\ modify_provenance_for_echogram_type (Some ZplscEchogramType.AVERAGED)
       start stop st
     = (Ok tt,
        with_data_file_name st
          "/data/2019/10/20/OOI-D*-T*.raw ... /data/2019/10/26/OOI-D*-T*.raw").
Proof.
  intros fn m start stop ref st.
  assert (H1 : match_filename fn = Ok (m, Some ZplscEchogramType.AVERAGED))
    by (vm_compute; reflexivity).
  assert (H2 : search_window fn m (Some ZplscEchogramType.AVERAGED)
               = Ok (hourly_filename_regex_str, start, stop))
    by (vm_compute; reflexivity).
  assert (H3 : select_hourly_files hourly_filename_regex_str
                 (Some ZplscEchogramType.AVERAGED) start stop
                 ["notes.txt"; "OOI-D20191020-T003835.nc"]
               = Ok ["OOI-D20191020-T003835.nc"])
    by (vm_compute; reflexivity).
  assert (H4 : ["OOI-D20191020-T003835.nc"] <> []) by discriminate.
  assert (H5 : data_file_name (provenance st) = Some ref) by reflexivity.
  assert (H6 : ref <> "") by discriminate.
  split; [exact H1|]. split; [exact H2|]. split; [exact H3|].
  destruct (averaged_reference_in_run fn _ ref m start stop _ _ st
              H1 H2 H3 H4 H5 H6) as (last & Hlast & [[_ Hr]|[Heq _]]).
  - rewrite Hr. revert Hlast. vm_compute. intros Hl; inversion Hl. reflexivity.
  - exfalso. revert Hlast. subst last. vm_compute. discriminate.
Defined.

(* ================================================================== *)
(** * The file that the loader opens, in a run *)

Lemma compile_hourly_filename_regex_str :
  exists r, Re.compile hourly_filename_regex_str = Some r
            /\ atoms r = Some hourly_atoms.
Proof. eexists. split; vm_compute; reflexivity. Qed.

Lemma hourly_name_match_atoms d time rest :
  eight_digits d -> six_digits time ->
  exists t, match_atoms hourly_atoms (hourly_name d time ++ rest)
            = Some (t, rest).
Proof.
  intros [Hd Hl] [Ht Hl'].
  destruct d as [|y1 [|y2 [|y3 [|y4 [|m1 [|m2 [|d1 [|d2 [|]]]]]]]]];
    try discriminate Hl.
  destruct time as [|H1 [|H2 [|M1 [|M2 [|S1 [|S2 [|]]]]]]];
    try discriminate Hl'.
  cbn [all_digits Str.all_char] in Hd, Ht.
  repeat (apply andb_prop in Hd; destruct Hd as [? Hd]).
  repeat (apply andb_prop in Ht; destruct Ht as [? Ht]).
  eexists.
  change (hourly_name
            (String y1 (String y2 (String y3 (String y4 (String m1 (String m2
              (String d1 (String d2 ""))))))))
            (String H1 (String H2 (String M1 (String M2 (String S1
              (String S2 "")))))) ++ rest)
    with (name14 y1 y2 y3 y4 m1 m2 d1 d2 H1 H2 M1 M2 S1 S2 rest).
  apply match_atoms_name14; assumption.
Qed.

(** A name that the hourly pattern matches at its start and from which
    [strptime] reads a timestamp is a name of the fixed-width hourly
    form. *)
Lemma matched_name_has_timestamp f t :
  (exists w rest, match_atoms hourly_atoms f = Some (w, rest)) ->
  Datetime.strptime (Some f) HOURLY_FILENAME_DATE_FORMAT = Ok t ->
  hourly_timestamp f = Some t.
Proof.
  intros (w & rest & Hm) Hs.
  destruct (match_atoms_hourly_inv _ _ _ Hm)
    as (y1 & y2 & y3 & y4 & m1 & m2 & d1 & d2 & H1 & H2 & M1 & M2 & S1 & S2
        & (? & ? & ? & ? & ? & ? & ? & ?) & (? & ? & ? & ? & ? & ?)
        & -> & _).
  rewrite strptime_name14 in Hs by assumption.
  destruct (fields_ok m1 m2 d1 d2 H1 H2 M1 M2 S1 S2); [|discriminate].
  destruct rest as [|c rest]; [|discriminate].
  cbn [Str.is_empty] in Hs.
  apply hourly_timestamp_name14; assumption.
Qed.

(** The pattern of the hourly files of an echogram that is not an hourly
    one matches only names that begin as the hourly pattern wants. *)
Lemma window_pattern_inv fn m type pattern start stop f :
  match_filename fn = Ok (m, type) ->
  eq_str type ZplscEchogramType.HOURLY = false ->
  search_window fn m type = Ok (pattern, start, stop) ->
  pattern_matches pattern f ->
  exists w rest, match_atoms hourly_atoms f = Some (w, rest).
Proof.
  unfold match_filename.
  destruct (Re.search averaged_or_full_filename_regex fn) as [m'|] eqn:Es.
  - intros H; inversion H; subst m' type; clear H. intros _.
    destruct (range_search_inv _ _ Es)
      as (s1 & s2 & ty & date & _ & _ & Hty & Hdate & _ & _ & Hcases & Hd).
    unfold search_window. rewrite Hty, Hdate.
    destruct Hcases as [-> | ->].
    + change (eq_str (Some ZplscEchogramType.AVERAGED) ZplscEchogramType.FULL)
        with false.
      change (eq_str (Some ZplscEchogramType.AVERAGED)
                ZplscEchogramType.AVERAGED) with true.
      cbv iota.
      destruct (Datetime.strptime (Re.group m "start_date") "%Y%m%d");
        cbn [result_bind]; [|discriminate].
      destruct (Datetime.strptime (Re.group m "stop_date") "%Y%m%d");
        cbn [result_bind]; [|discriminate].
      intros H; inversion H; subst; clear H. intros Hp.
      destruct compile_hourly_filename_regex_str as (r & Hr & Ha).
      exact (proj1 (pattern_matches_atoms _ r _ f Hr Ha) Hp).
    + change (eq_str (Some ZplscEchogramType.FULL) ZplscEchogramType.FULL)
        with true.
      cbv iota.
      destruct date as [d|]; cbn [str_plus result_bind]; [|discriminate].
      destruct (Datetime.strptime (Some d) "%Y%m%d") as [t1|];
        cbn [result_bind]; [|discriminate].
      destruct (Datetime.add_days t1 1); cbn [result_bind]; [|discriminate].
      intros H; inversion H; subst; clear H. intros Hp.
      pose proof (Hd d eq_refl) as Hd8.
      apply (full_pattern_matches d f (proj1 Hd8)) in Hp.
      destruct Hp as (time & rest & Ht & ->).
      destruct (hourly_name_match_atoms d time rest Hd8 Ht) as (w & Hw).
      exists w, rest. exact Hw.
  - destruct (Re.re_match hourly_filename_regex fn);
      intros H; inversion H; subst. discriminate.
Qed.


(* ================================================================== *)
(** * The outcomes of the classification of a filename *)

Lemma name14_hourly_name y1 y2 y3 y4 m1 m2 d1 d2 H1 H2 M1 M2 S1 S2 rest :
  name14 y1 y2 y3 y4 m1 m2 d1 d2 H1 H2 M1 M2 S1 S2 rest
  = hourly_name
      (String y1 (String y2 (String y3 (String y4 (String m1 (String m2
        (String d1 (String d2 ""))))))))
      (String H1 (String H2 (String M1 (String M2 (String S1
        (String S2 "")))))) ++ rest.
Proof. reflexivity. Qed.

(** The texts at whose start the hourly pattern matches. *)
Lemma match_atoms_hourly_iff f :
  (exists w rest, match_atoms hourly_atoms f = Some (w, rest))
  <-> exists d t rest,
        eight_digits d /\ six_digits t /\ f = hourly_name d t ++ rest.
Proof.
  split.
  - intros (w & rest & H).
    destruct (match_atoms_hourly_inv _ _ _ H)
      as (y1 & y2 & y3 & y4 & m1 & m2 & d1 & d2 & H1 & H2 & M1 & M2 & S1 & S2
          & (E1 & E2 & E3 & E4 & E5 & E6 & E7 & E8)
          & (F1 & F2 & F3 & F4 & F5 & F6) & -> & _).
    eexists _, _, rest. rewrite name14_hourly_name.
    split; [|split; [|reflexivity]]; split; try reflexivity;
      cbn [all_digits];
      rewrite ?E1, ?E2, ?E3, ?E4, ?E5, ?E6, ?E7, ?E8,
              ?F1, ?F2, ?F3, ?F4, ?F5, ?F6; reflexivity.
  - intros (d & t & rest & Hd & Ht & ->).
    destruct (hourly_name_match_atoms d t rest Hd Ht) as (w & Hw).
    exists w, rest. exact Hw.
Qed.

Lemma re_match_hourly_shape fn m :
  Re.re_match hourly_filename_regex fn = Some m ->
  exists d t rest,
    eight_digits d /\ six_digits t /\ fn = hourly_name d t ++ rest.
Proof.
  intros H. apply re_match_in in H.
  apply (in_matches_atoms _ _ _ _ _ atoms_hourly) in H.
  destruct H as (w & rest & H & _).
  apply match_atoms_hourly_iff. exists w, rest. exact H.
Qed.

(** The classification of a filename (lines 192-203) has three outcomes.
    Where the range pattern is found somewhere in the filename the type is
    the text of its group [type], which is [Averaged] or [Full] and never
    missing, and the two dates are eight digits each.  The hourly pattern is
    tried only when the range pattern is found nowhere, and at the start of
    the filename only: the type is then [Hourly] and the filename begins
    with a name of the hourly form.  Otherwise the [SampleException] with
    the message of the two formats is raised; there is no other
    exception. *)
Theorem classification_outcomes (fn : string) :
  (exists m type start_date stop_date,
      match_filename fn = Ok (m, Some type)
      /\ Re.search averaged_or_full_filename_regex fn = Some m
      /\ (type = ZplscEchogramType.AVERAGED \/ type = ZplscEchogramType.FULL)
      /\ Re.group m "start_date" = Some start_date
      /\ Re.group m "stop_date" = Some stop_date
      /\ eight_digits start_date /\ eight_digits stop_date)
  \/ (exists m d t rest,
         match_filename fn = Ok (m, Some ZplscEchogramType.HOURLY)
         /\ Re.search averaged_or_full_filename_regex fn = None
         /\ eight_digits d /\ six_digits t
         /\ fn = hourly_name d t ++ rest)
  \/ (match_filename fn = Raise (SampleException (format_error_msg fn))
      /\ Re.search averaged_or_full_filename_regex fn = None
      /\ Re.re_match hourly_filename_regex fn = None).
Proof.
  unfold match_filename.
  destruct (Re.search averaged_or_full_filename_regex fn) as [m|] eqn:Es.
  - left.
    destruct (range_search_inv _ _ Es)
      as (s & e & ty & date & Hs & He & Hty & _ & Hds & Hde & Hcases & _).
    exists m, ty, s, e. rewrite Hty. repeat split; try assumption;
      try apply Hds; try apply Hde.
  - right.
    destruct (Re.re_match hourly_filename_regex fn) as [m|] eqn:Em.
    + left. destruct (re_match_hourly_shape _ _ Em)
        as (d & t & rest & Hd & Ht & Hfn).
      exists m, d, t, rest. repeat split; try assumption;
        try apply Hd; try apply Ht.
    + right. repeat split.
Qed.

(* ================================================================== *)
(** * The window of an averaged echogram *)

(** For every filename in which the range pattern is found with type
    [Averaged] and start and stop dates that spell the days [S] and [E]:
    the filename is classified as [Averaged], the range starts at [S] and
    stops at [E] (both at midnight), whatever follows the type (a trailing
    date is accepted and not read), and the pattern of the hourly files is
    the hourly pattern itself, which matches exactly the names that begin
    with [OOI-D<8 digits>-T<6 digits>.nc]. *)
Theorem averaged_echogram_window
    (echogram_filename start_date stop_date : string) (m : Re.match_object)
    (S E : Datetime.datetime) :
  Re.search averaged_or_full_filename_regex echogram_filename = Some m ->
  Re.group m "type" = Some ZplscEchogramType.AVERAGED ->
  Re.group m "start_date" = Some start_date ->
  Re.group m "stop_date" = Some stop_date ->
  day_of_digits start_date = Some S ->
  day_of_digits stop_date = Some E ->
  match_filename echogram_filename = Ok (m, Some ZplscEchogramType.AVERAGED)
  /\ search_window echogram_filename m (Some ZplscEchogramType.AVERAGED)
     = Ok (hourly_filename_regex_str, S, E)
  /\ (forall f,
         pattern_matches hourly_filename_regex_str f
         <-> exists d t rest,
               eight_digits d /\ six_digits t /\ f = hourly_name d t ++ rest).
Proof.
  intros Hs Ht Hsd Hed HS HE. split; [|split].
  - unfold match_filename. rewrite Hs, Ht. reflexivity.
  - unfold search_window.
    change (eq_str (Some ZplscEchogramType.AVERAGED) ZplscEchogramType.FULL)
      with false.
    change (eq_str (Some ZplscEchogramType.AVERAGED) ZplscEchogramType.AVERAGED)
      with true.
    cbv iota. rewrite Hsd, Hed.
    rewrite (strptime_Ymd _ _ HS). cbn [result_bind].
    rewrite (strptime_Ymd _ _ HE). reflexivity.
  - intros f. destruct compile_hourly_filename_regex_str as (r & Hr & Ha).
    rewrite (pattern_matches_atoms _ r _ f Hr Ha).
    apply match_atoms_hourly_iff.
Qed.

Lemma averaged_echogram_window_witness :
  let fn := "CE07SHSM_Bioacoustic_Echogram_20191020-20191027_Calibrated_Sv_Averaged_20191020.nc" in
  let m := {| Re.groups := [("date", "20191020"); ("type", "Averaged");
                            ("stop_date", "20191027");
                            ("start_date", "20191020")];
              Re.matched := "Bioacoustic_Echogram_20191020-20191027_Calibrated_Sv_Averaged_20191020.nc";
              Re.rest := "" |} in
  let S := Datetime.mk 2019 10 20 0 0 0 in
  let E := Datetime.mk 2019 10 27 0 0 0 in
  Re.search averaged_or_full_filename_regex fn = Some m
  /\ day_of_digits "20191020" = Some S
  /\ day_of_digits "20191027" = Some E
  /\ match_filename fn = Ok (m, Some ZplscEchogramType.AVERAGED)
  /\ search_window fn m (Some ZplscEchogramType.AVERAGED)
     = Ok ("OOI-D[0-9]{8}-T[0-9]{6}\.nc", S, E).
Proof.
  intros fn m S E.
  assert (H1 : Re.search averaged_or_full_filename_regex fn = Some m)
    by (vm_compute; reflexivity).
  assert (H2 : Re.group m "type" = Some ZplscEchogramType.AVERAGED)
    by reflexivity.
  assert (H3 : Re.group m "start_date" = Some "20191020") by reflexivity.
  assert (H4 : Re.group m "stop_date" = Some "20191027") by reflexivity.
  assert (H5 : day_of_digits "20191020" = Some S) by (vm_compute; reflexivity).
  assert (H6 : day_of_digits "20191027" = Some E) by (vm_compute; reflexivity).
  destruct (averaged_echogram_window fn _ _ m S E H1 H2 H3 H4 H5 H6)
    as (K1 & K2 & _).
  split; [exact H1|]. split; [exact H5|]. split; [exact H6|].
  split; [exact K1|exact K2].
Defined.

(* ================================================================== *)
(** * Digits in the filename that are not a day of the calendar *)

(** Whatever [strptime] raises on a text is a [ValueError]. *)
Lemma strptime_raises_value_error s fmt e :
  Datetime.strptime (Some s) fmt = Raise e -> exists v, e = ValueError v.
Proof.
  unfold Datetime.strptime.
  destruct (Datetime.format_regex fmt) as [r|];
    [|intros H; inversion H; eauto].
  destruct (Re.re_match r s) as [m|]; [|intros H; inversion H; eauto].
  destruct (Str.is_empty (Re.rest m)); [|intros H; inversion H; eauto].
  unfold Datetime.make.
  match goal with |- (if ?b then _ else _) = _ -> _ => destruct b end;
    intros H; inversion H; eauto.
Qed.

Lemma strptime_Ymd_not_a_day date :
  eight_digits date -> day_of_digits date = None ->
  exists v, Datetime.strptime (Some date) "%Y%m%d" = Raise (ValueError v).
Proof.
  intros Hd Hn.
  destruct (Datetime.strptime (Some date) "%Y%m%d") as [D|e] eqn:E.
  - rewrite (strptime_Ymd_inv _ _ Hd E) in Hn. discriminate.
  - destruct (strptime_raises_value_error _ _ _ E) as (v & ->).
    exists v. reflexivity.
Qed.

(** The two dates of an averaged echogram are checked by the pattern to be
    eight digits only.  When one of them is not a day of the calendar (a
    month 13, a day 30 of February), [parse_file] raises the [ValueError]
    of [strptime], not a [SampleException], before the directory is listed;
    the parser is left as it was. *)
Theorem averaged_date_not_a_day_raises_value_error
    (time_to_ntp : float -> float) (string_to_ntp : string -> result float)
    (driver_ts : float) (fs : filesystem) (path : string) (st : parser_state)
    (m : Re.match_object) (start_date stop_date : string) :
  Re.search averaged_or_full_filename_regex (snd (OsPath.split path)) = Some m ->
  Re.group m "type" = Some ZplscEchogramType.AVERAGED ->
  Re.group m "start_date" = Some start_date ->
  Re.group m "stop_date" = Some stop_date ->
  day_of_digits start_date = None \/ day_of_digits stop_date = None ->
  exists v,
    parse_file time_to_ntp string_to_ntp driver_ts fs path st
    = (Raise (ValueError v), st).
Proof.
  intros Hs Ht Hsd Hed Hbad.
  destruct (range_search_inv _ _ Hs)
    as (s & e & ty & date & Hs' & He' & _ & _ & Hds & Hde & _ & _).
  rewrite Hsd in Hs'. rewrite Hed in He'.
  inversion Hs'; subst s. inversion He'; subst e. clear Hs' He'.
  assert (Hw : exists v,
             search_window (snd (OsPath.split path)) m
               (Some ZplscEchogramType.AVERAGED) = Raise (ValueError v)).
  { unfold search_window.
    change (eq_str (Some ZplscEchogramType.AVERAGED) ZplscEchogramType.FULL)
      with false.
    change (eq_str (Some ZplscEchogramType.AVERAGED) ZplscEchogramType.AVERAGED)
      with true.
    cbv iota. rewrite Hsd, Hed.
    destruct (day_of_digits start_date) as [S|] eqn:ES.
    - destruct Hbad as [Hbad|Hbad]; [discriminate|].
      rewrite (strptime_Ymd _ _ ES). cbn [result_bind].
      destruct (strptime_Ymd_not_a_day _ Hde Hbad) as (v & ->).
      exists v. reflexivity.
    - destruct (strptime_Ymd_not_a_day _ Hds ES) as (v & ->).
      exists v. reflexivity. }
  destruct Hw as (v & Hw). exists v.
  unfold parse_file. destruct (OsPath.split path) as [dir fn].
  cbn [fst snd] in *.
  unfold bind, lift, match_filename. rewrite Hs, Ht, Hw. reflexivity.
Qed.

Lemma averaged_date_not_a_day_raises_value_error_witness :
  exists v,
    parse_file sample_time_to_ntp sample_string_to_ntp sample_driver_timestamp
      (sample_fs ["OOI-D20191020-T003835.nc"])
      "/data/CE07SHSM_Bioacoustic_Echogram_20190230-20191327_Calibrated_Sv_Averaged.nc"
      initial_state
    = (Raise (ValueError v), initial_state).
Proof.
  apply (averaged_date_not_a_day_raises_value_error _ _ _ _ _ _
           {| Re.groups := [("type", "Averaged"); ("stop_date", "20191327");
                            ("start_date", "20190230")];
              Re.matched := "Bioacoustic_Echogram_20190230-20191327_Calibrated_Sv_Averaged.nc";
              Re.rest := "" |} "20190230" "20191327").
  - vm_compute; reflexivity.
  - reflexivity.
  - reflexivity.
  - reflexivity.
  - left. vm_compute; reflexivity.
Defined.

(* ================================================================== *)
(** * The scan for an hourly echogram: its own name as the pattern *)

Lemma lits_app a b : lits (a ++ b) = (lits a ++ lits b)%list.
Proof.
  unfold lits. induction a as [|c a IH]; [reflexivity|].
  cbn [append list_ascii_of_string map app]. f_equal. exact IH.
Qed.

Lemma accepted_lits l cs s :
  accepted (lits l ++ cs)%list s
  = match Str.strip_prefix l s with
    | Some s' => accepted cs s'
    | None => false
    end.
Proof.
  revert s. induction l as [|a l IH]; intros s.
  - destruct s; reflexivity.
  - unfold accepted in *. unfold lits in *.
    cbn [list_ascii_of_string map app match_atoms accepts Str.strip_prefix].
    destruct s as [|c s]; [reflexivity|].
    rewrite (Ascii.eqb_sym c a).
    destruct (Ascii.eqb a c); [|reflexivity].
    specialize (IH s).
    destruct (match_atoms _ s) as [[w r]|]; exact IH.
Qed.

Lemma compile_hourly_name d t :
  all_digits d = true -> all_digits t = true ->
  exists r, Re.compile (hourly_name d t) = Some r
            /\ atoms r = Some (own_name_atoms d t).
Proof.
  intros Hd Ht. unfold hourly_name, own_name_atoms.
  destruct (compile_digits t ".nc" _ Ht eq_refl) as (r1 & Hr1 & Ha1).
  assert (H2 : exists r2, Re.compile ("-T" ++ t ++ ".nc") = Some r2
                          /\ atoms r2 = Some (lits "-T" ++ lits t ++ [ADot]
                                              ++ lits "nc")%list).
  { cbn [append]. cbn [Re.compile]. rewrite Hr1.
    eexists. split; [reflexivity|].
    cbn [atoms Re.without_count]. rewrite (Ha1 _ eq_refl). reflexivity. }
  destruct H2 as (r2 & Hr2 & Ha2).
  destruct (compile_digits d _ _ Hd Hr2) as (r3 & Hr3 & Ha3).
  cbn [append] in Hr3 |- *. cbn [Re.compile]. rewrite Hr3.
  eexists. split; [reflexivity|].
  cbn [atoms Re.without_count]. rewrite (Ha3 _ Ha2). reflexivity.
Qed.

Lemma accepted_own_name d t f :
  accepted (own_name_atoms d t) f = matches_up_to_dot d t f.
Proof.
  unfold own_name_atoms, matches_up_to_dot.
  replace (lits "OOI-D" ++ lits d ++ lits "-T" ++ lits t ++ [ADot]
           ++ lits "nc")%list
    with (lits ("OOI-D" ++ d ++ "-T" ++ t) ++ [ADot] ++ lits "nc")%list
    by (rewrite !lits_app, <- !app_assoc; reflexivity).
  rewrite accepted_lits.
  destruct (Str.strip_prefix ("OOI-D" ++ d ++ "-T" ++ t) f) as [[|c rest]|];
    try reflexivity.
  unfold accepted. cbn [app match_atoms accepts].
  destruct (Ascii.eqb c Re.newline); [reflexivity|]. cbn [negb andb].
  pose proof (accepted_lits "nc" [] rest) as H.
  rewrite app_nil_r in H. unfold accepted in H. cbn [match_atoms] in H.
  destruct (match_atoms (lits "nc") rest) as [[w r]|];
    destruct (Str.strip_prefix "nc" rest); try reflexivity; discriminate H.
Qed.

Lemma matches_pattern_atoms pattern r cs f :
  Re.compile pattern = Some r -> atoms r = Some cs ->
  matches_pattern pattern f = accepted cs f.
Proof.
  intros Hr Hcs. unfold matches_pattern, re_match_str, Re.re_match, accepted.
  rewrite Hr, (matches_atoms r cs Hcs).
  destruct (match_atoms cs f) as [[w rest]|]; reflexivity.
Qed.

Lemma select_hourly_files_hourly pattern start stop entries :
  (exists r, Re.compile pattern = Some r) ->
  select_hourly_files pattern (Some ZplscEchogramType.HOURLY) start stop entries
  = Ok (filter (matches_pattern pattern) entries).
Proof.
  intros (r & Hr). induction entries as [|f entries IH]; [reflexivity|].
  cbn [select_hourly_files filter]. rewrite IH.
  unfold is_hourly_file, matches_pattern, re_match_str. rewrite Hr.
  cbn [result_bind].
  destruct (Re.re_match r f); reflexivity.
Qed.

(** For an hourly echogram the pattern of the hourly files is the name of
    the echogram itself, read as a pattern and matched at the start of each
    entry: the dot before [nc] stands for any character and what follows
    [nc] is not looked at.  The scan never fails and never reads a
    timestamp; it returns, in the order of the listing, the entries that
    begin with the name up to its dot, one character and [nc].  The
    echogram's own name is among them whenever the directory lists it. *)
Theorem hourly_scan_uses_name_as_pattern
    (d t : string) (start stop : Datetime.datetime) (entries : list string) :
  all_digits d = true -> all_digits t = true ->
  select_hourly_files (hourly_name d t) (Some ZplscEchogramType.HOURLY)
    start stop entries
  = Ok (filter (matches_up_to_dot d t) entries)
  /\ (forall c rest,
         c <> Re.newline ->
         matches_up_to_dot d t
           (("OOI-D" ++ d ++ "-T" ++ t) ++ String c ("nc" ++ rest)) = true)
  /\ (In (hourly_name d t) entries ->
      In (hourly_name d t) (filter (matches_up_to_dot d t) entries)).
Proof.
  intros Hd Ht.
  destruct (compile_hourly_name d t Hd Ht) as (r & Hr & Ha).
  assert (Hdot : forall c rest,
             c <> Re.newline ->
             matches_up_to_dot d t
               (("OOI-D" ++ d ++ "-T" ++ t) ++ String c ("nc" ++ rest)) = true).
  { intros c rest Hc. unfold matches_up_to_dot.
    rewrite strip_prefix_app.
    destruct (Ascii.eqb c Re.newline) eqn:E;
      [apply Ascii.eqb_eq in E; contradiction|].
    rewrite (strip_prefix_app "nc" rest). reflexivity. }
  split; [|split].
  - rewrite select_hourly_files_hourly by (exists r; exact Hr).
    f_equal. apply filter_ext. intros f.
    rewrite (matches_pattern_atoms _ r _ f Hr Ha). apply accepted_own_name.
  - exact Hdot.
  - intros Hin. apply filter_In. split; [exact Hin|].
    replace (hourly_name d t)
      with (("OOI-D" ++ d ++ "-T" ++ t) ++ String "." ("nc" ++ ""))
      by (unfold hourly_name; rewrite !append_assoc; reflexivity).
    apply Hdot. discriminate.
Qed.

Lemma hourly_scan_uses_name_as_pattern_witness :
  let t0 := Datetime.mk 2019 10 20 0 38 35 in
  select_hourly_files "OOI-D20191020-T003835.nc" (Some ZplscEchogramType.HOURLY)
    t0 t0
    ["OOI-D20191020-T003835.nc"; "OOI-D20191020-T003835-nc.bak";
     "OOI-D20191020-T013835.nc"]
  = Ok ["OOI-D20191020-T003835.nc"; "OOI-D20191020-T003835-nc.bak"].
Proof.
  intros t0.
  exact (proj1 (hourly_scan_uses_name_as_pattern "20191020" "003835" t0 t0
                  ["OOI-D20191020-T003835.nc"; "OOI-D20191020-T003835-nc.bak";
                   "OOI-D20191020-T013835.nc"] eq_refl eq_refl)).
Defined.

(* ================================================================== *)
(** * The scan for an averaged or a full echogram, in closed form *)

Lemma window_pattern_cases fn m type pattern start stop :
  match_filename fn = Ok (m, type) ->
  eq_str type ZplscEchogramType.HOURLY = false ->
  search_window fn m type = Ok (pattern, start, stop) ->
  pattern = hourly_filename_regex_str
  \/ exists d, eight_digits d /\ pattern = full_hourly_file_regex d.
Proof.
  unfold match_filename.
  destruct (Re.search averaged_or_full_filename_regex fn) as [m'|] eqn:Es.
  - intros H; inversion H; subst m' type; clear H. intros _.
    destruct (range_search_inv _ _ Es)
      as (s1 & s2 & ty & date & _ & _ & Hty & Hdate & _ & _ & Hcases & Hd).
    unfold search_window. rewrite Hty, Hdate.
    destruct Hcases as [-> | ->].
    + change (eq_str (Some ZplscEchogramType.AVERAGED) ZplscEchogramType.FULL)
        with false.
      change (eq_str (Some ZplscEchogramType.AVERAGED)
                ZplscEchogramType.AVERAGED) with true.
      cbv iota.
      destruct (Datetime.strptime (Re.group m "start_date") "%Y%m%d");
        cbn [result_bind]; [|discriminate].
      destruct (Datetime.strptime (Re.group m "stop_date") "%Y%m%d");
        cbn [result_bind]; [|discriminate].
      intros H; inversion H; subst; clear H. left. reflexivity.
    + change (eq_str (Some ZplscEchogramType.FULL) ZplscEchogramType.FULL)
        with true.
      cbv iota.
      destruct date as [d|]; cbn [str_plus result_bind]; [|discriminate].
      destruct (Datetime.strptime (Some d) "%Y%m%d") as [t1|];
        cbn [result_bind]; [|discriminate].
      destruct (Datetime.add_days t1 1); cbn [result_bind]; [|discriminate].
      intros H; inversion H; subst; clear H.
      right. exists d. split; [exact (Hd d eq_refl)|reflexivity].
  - destruct (Re.re_match hourly_filename_regex fn);
      intros H; inversion H; subst. discriminate.
Qed.

Lemma window_pattern_compiles fn m type pattern start stop :
  match_filename fn = Ok (m, type) ->
  eq_str type ZplscEchogramType.HOURLY = false ->
  search_window fn m type = Ok (pattern, start, stop) ->
  exists r, Re.compile pattern = Some r.
Proof.
  intros Hm Hty Hw.
  destruct (window_pattern_cases _ _ _ _ _ _ Hm Hty Hw) as [->|(d & Hd & ->)].
  - destruct compile_hourly_filename_regex_str as (r & Hr & _).
    exists r. exact Hr.
  - destruct (compile_full_hourly_file_regex d (proj1 Hd)) as (r & Hr & _).
    exists r. exact Hr.
Qed.

Lemma matches_pattern_true pattern f :
  matches_pattern pattern f = true <-> pattern_matches pattern f.
Proof.
  unfold matches_pattern, pattern_matches.
  destruct (re_match_str pattern f) as [[mo|]|e]; split;
    try discriminate; try (intros (x & H); discriminate).
  - intros _. exists mo. reflexivity.
  - intros _. reflexivity.
Qed.

Lemma hourly_timestamp_strptime f t :
  hourly_timestamp f = Some t ->
  Datetime.strptime (Some f) HOURLY_FILENAME_DATE_FORMAT = Ok t.
Proof.
  unfold hourly_timestamp.
  destruct (Re.re_match hourly_filename_regex f); [|discriminate].
  destruct (Datetime.strptime (Some f) HOURLY_FILENAME_DATE_FORMAT);
    [|discriminate].
  intros H; inversion H; reflexivity.
Qed.

Section Scan.

Variables (pattern : string) (type : option string).
Variables (start stop : Datetime.datetime).

Hypothesis not_hourly : eq_str type ZplscEchogramType.HOURLY = false.
Hypothesis compiles : exists r, Re.compile pattern = Some r.
Hypothesis hourly_prefix :
  forall f, pattern_matches pattern f ->
    exists w rest, match_atoms hourly_atoms f = Some (w, rest).

Lemma is_hourly_file_unmatched f :
  matches_pattern pattern f = false ->
  is_hourly_file pattern type start stop f = Ok false.
Proof.
  destruct compiles as (r & Hr).
  unfold matches_pattern, is_hourly_file, re_match_str. rewrite Hr.
  cbn [result_bind]. destruct (Re.re_match r f); [discriminate|reflexivity].
Qed.

Lemma is_hourly_file_matched f :
  matches_pattern pattern f = true ->
  is_hourly_file pattern type start stop f
  = (t <-- Datetime.strptime (Some f) HOURLY_FILENAME_DATE_FORMAT ;;
     Ok (Datetime.leb start t && Datetime.ltb t stop)).
Proof.
  destruct compiles as (r & Hr).
  unfold matches_pattern, is_hourly_file, re_match_str. rewrite Hr.
  cbn [result_bind]. destruct (Re.re_match r f); [|discriminate].
  rewrite not_hourly. reflexivity.
Qed.

Lemma is_hourly_file_ok f b :
  is_hourly_file pattern type start stop f = Ok b ->
  (matches_pattern pattern f = true -> hourly_timestamp f <> None)
  /\ b = matches_pattern pattern f && in_window start stop f.
Proof.
  destruct (matches_pattern pattern f) eqn:Em.
  - rewrite (is_hourly_file_matched f Em).
    destruct (Datetime.strptime (Some f) HOURLY_FILENAME_DATE_FORMAT)
      as [t|e] eqn:Es; cbn [result_bind]; [|discriminate].
    intros H; inversion H; subst b; clear H.
    pose proof (matched_name_has_timestamp f t
                  (hourly_prefix f (proj1 (matches_pattern_true _ _) Em)) Es)
      as Ht.
    unfold in_window. rewrite Ht. split; [discriminate|reflexivity].
  - rewrite (is_hourly_file_unmatched f Em).
    intros H; inversion H. split; [discriminate|reflexivity].
Qed.

Lemma is_hourly_file_well_formed f :
  (matches_pattern pattern f = true -> hourly_timestamp f <> None) ->
  is_hourly_file pattern type start stop f
  = Ok (matches_pattern pattern f && in_window start stop f).
Proof.
  intros Hwf. destruct (matches_pattern pattern f) eqn:Em.
  - rewrite (is_hourly_file_matched f Em).
    destruct (hourly_timestamp f) as [t|] eqn:Et;
      [|contradiction (Hwf eq_refl); reflexivity].
    rewrite (hourly_timestamp_strptime f t Et). cbn [result_bind].
    unfold in_window. rewrite Et. reflexivity.
  - apply is_hourly_file_unmatched. exact Em.
Qed.

Lemma select_hourly_files_closed_form entries files :
  select_hourly_files pattern type start stop entries = Ok files
  <-> (forall f, In f entries ->
         matches_pattern pattern f = true -> hourly_timestamp f <> None)
      /\ files
         = filter (fun f => matches_pattern pattern f
                            && in_window start stop f) entries.
Proof.
  revert files. induction entries as [|a entries IH]; intros files.
  - cbn [select_hourly_files filter]. split.
    + intros H; inversion H. split; [intros f []|reflexivity].
    + intros [_ ->]. reflexivity.
  - cbn [select_hourly_files filter]. split.
    + destruct (is_hourly_file pattern type start stop a) as [keep|e] eqn:Ek;
        cbn [result_bind]; [|discriminate].
      destruct (select_hourly_files pattern type start stop entries)
        as [others|e] eqn:Eo; cbn [result_bind]; [|discriminate].
      intros H; inversion H; subst files; clear H.
      destruct (is_hourly_file_ok a keep Ek) as [Hwf ->].
      destruct (proj1 (IH others) eq_refl) as [Hall ->].
      split; [|reflexivity].
      intros f [<-|Hin]; [exact Hwf|exact (Hall f Hin)].
    + intros [Hall ->].
      rewrite (is_hourly_file_well_formed a (Hall a (or_introl eq_refl))).
      cbn [result_bind].
      rewrite (proj2 (IH _)
                 (conj (fun f Hin => Hall f (or_intror Hin)) eq_refl)).
      reflexivity.
Qed.

End Scan.

(** In a run on an averaged or a full echogram the scan of the directory
    succeeds exactly when every entry that the pattern of the hourly files
    matches at its start is a name of the hourly form with a date and a
    time of day (otherwise [strptime] raises from inside the scan); it then
    returns, in the order of the listing, the entries that the pattern
    matches and whose timestamp is at or after the start and before the
    stop. *)
Theorem scan_selects_the_files_in_range
    (fn pattern : string) (m : Re.match_object) (type : option string)
    (start stop : Datetime.datetime) (entries files : list string) :
  match_filename fn = Ok (m, type) ->
  eq_str type ZplscEchogramType.HOURLY = false ->
  search_window fn m type = Ok (pattern, start, stop) ->
  (select_hourly_files pattern type start stop entries = Ok files
   <-> (forall f, In f entries ->
          matches_pattern pattern f = true -> hourly_timestamp f <> None)
       /\ files
          = filter (fun f => matches_pattern pattern f
                             && in_window start stop f) entries).
Proof.
  intros Hm Hty Hw.
  apply select_hourly_files_closed_form.
  - exact Hty.
  - exact (window_pattern_compiles _ _ _ _ _ _ Hm Hty Hw).
  - intros f Hp. exact (window_pattern_inv _ _ _ _ _ _ f Hm Hty Hw Hp).
Qed.
Lemma scan_selects_the_files_in_range_witness :
  let fn := "CE07SHSM_Bioacoustic_Echogram_20191020-20191027_Calibrated_Sv_Averaged.nc" in
  let m := {| Re.groups := [("type", "Averaged"); ("stop_date", "20191027");
                            ("start_date", "20191020")];
              Re.matched := "Bioacoustic_Echogram_20191020-20191027_Calibrated_Sv_Averaged.nc";
              Re.rest := "" |} in
  let start := Datetime.mk 2019 10 20 0 0 0 in
  let stop := Datetime.mk 2019 10 27 0 0 0 in
  let entries := ["OOI-D20191027-T000000.nc"; "notes.txt";
                  "OOI-D20191026-T235959.nc"; "OOI-D20191020-T000000.nc";
                  "OOI-D20191019-T235959.nc"] in
  match_filename fn = Ok (m, Some ZplscEchogramType.AVERAGED)
  /\ search_window fn m (Some ZplscEchogramType.AVERAGED)
     = Ok (hourly_filename_regex_str, start, stop)
  /\ select_hourly_files hourly_filename_regex_str
       (Some ZplscEchogramType.AVERAGED) start stop entries
     = Ok ["OOI-D20191026-T235959.nc"; "OOI-D20191020-T000000.nc"].
Proof.
  intros fn m start stop entries.
  assert (H1 : match_filename fn = Ok (m, Some ZplscEchogramType.AVERAGED))
    by (vm_compute; reflexivity).
  assert (H2 : eq_str (Some ZplscEchogramType.AVERAGED)
                 ZplscEchogramType.HOURLY = false) by reflexivity.
  assert (H3 : search_window fn m (Some ZplscEchogramType.AVERAGED)
               = Ok (hourly_filename_regex_str, start, stop))
    by (vm_compute; reflexivity).
  split; [exact H1|]. split; [exact H3|].
  apply (proj2 (scan_selects_the_files_in_range fn hourly_filename_regex_str m
                  (Some ZplscEchogramType.AVERAGED) start stop entries
                  ["OOI-D20191026-T235959.nc"; "OOI-D20191020-T000000.nc"]
                  H1 H2 H3)).
  split; [|vm_compute; reflexivity].
  intros f Hin Hm. subst entries. cbn [In] in Hin.
  destruct Hin as [<-|[<-|[<-|[<-|[<-|[]]]]]];
    first [vm_compute; discriminate | vm_compute in Hm; discriminate Hm].
Defined.


(* ================================================================== *)
(** * The reference of a full echogram *)

Lemma rfind_from_absent c s :
  has_char c s = false ->
  forall i last, Str.rfind_from c s i last = last.
Proof.
  induction s as [|a s IH]; intros H i last; [reflexivity|].
  cbn [has_char] in H. apply orb_false_elim in H. destruct H as [Ha Hs].
  cbn [Str.rfind_from]. rewrite Ha. apply IH. exact Hs.
Qed.

Lemma rfind_from_last c pre post :
  has_char c post = false ->
  forall i last,
    Str.rfind_from c (pre ++ String c post) i last = i + Str.len pre.
Proof.
  intros Hp. induction pre as [|a pre IH]; intros i last.
  - cbn [append Str.rfind_from]. rewrite Ascii.eqb_refl.
    rewrite (rfind_from_absent c post Hp). unfold Str.len. simpl. lia.
  - cbn [append Str.rfind_from]. rewrite IH. unfold Str.len.
    cbn [String.length]. lia.
Qed.

Lemma rfind_last c pre post :
  has_char c post = false ->
  Str.rfind c (pre ++ String c post) = Str.len pre.
Proof. intros H. unfold Str.rfind. rewrite rfind_from_last by exact H. lia. Qed.

Lemma rfind_absent c s : has_char c s = false -> Str.rfind c s = -1.
Proof. intros H. unfold Str.rfind. apply rfind_from_absent. exact H. Qed.

Lemma take_app pre x : Str.take (String.length pre) (pre ++ x) = pre.
Proof.
  induction pre as [|a pre IH]; [destruct x; reflexivity|].
  cbn [String.length append Str.take]. rewrite IH. reflexivity.
Qed.

Lemma drop_app pre x : Str.drop (String.length pre) (pre ++ x) = x.
Proof.
  induction pre as [|a pre IH]; [reflexivity|].
  cbn [String.length append Str.drop]. exact IH.
Qed.

Lemma len_nonneg s : 0 <= Str.len s.
Proof. unfold Str.len. lia. Qed.

Lemma len_app a b : Str.len (a ++ b) = Str.len a + Str.len b.
Proof.
  unfold Str.len. induction a as [|c a IH]; [reflexivity|].
  cbn [append String.length]. lia.
Qed.

Lemma slice_to_app pre x : Str.slice_to (pre ++ x) (Str.len pre) = pre.
Proof.
  unfold Str.slice_to. pose proof (len_nonneg pre).
  destruct (Z.ltb_spec (Str.len pre) 0); [lia|].
  unfold Str.len. rewrite Nat2Z.id. apply take_app.
Qed.

Lemma slice_from_app pre x : Str.slice_from (pre ++ x) (Str.len pre) = x.
Proof.
  unfold Str.slice_from. pose proof (len_nonneg pre).
  destruct (Z.ltb_spec (Str.len pre) 0); [lia|].
  unfold Str.len. rewrite Nat2Z.id. apply drop_app.
Qed.

Lemma has_char_app c a b :
  has_char c (a ++ b) = has_char c a || has_char c b.
Proof.
  induction a as [|x a IH]; [reflexivity|].
  cbn [append has_char]. rewrite IH. apply orb_assoc.
Qed.

(** The name of a path that ends in a name without a slash. *)
Lemma split_snd dir name :
  has_char "/" name = false ->
  snd (OsPath.split (dir ++ String "/" name)) = name.
Proof.
  intros Hn. unfold OsPath.split.
  rewrite (rfind_last "/" dir name Hn).
  replace (Str.len dir + 1) with (Str.len (dir ++ "/"))
    by (rewrite len_app; reflexivity).
  replace (dir ++ String "/" name) with ((dir ++ "/") ++ name)
    by (rewrite append_assoc; reflexivity).
  rewrite slice_to_app, slice_from_app.
  destruct (negb (Str.is_empty (dir ++ "/"))
            && negb (Str.all_char "/" (dir ++ "/"))); reflexivity.
Qed.

Lemma string_length_app a b :
  String.length (a ++ b) = (String.length a + String.length b)%nat.
Proof. induction a as [|c a IH]; [reflexivity|]. simpl. rewrite IH. reflexivity. Qed.

Lemma non_dot_before_found a c x :
  Ascii.eqb c "." = false ->
  forall pre n,
    OsPath.non_dot_before (S (String.length a + n)) (pre ++ a ++ String c x)
      (Str.len pre) = true.
Proof.
  intros Hc. induction a as [|d a IH]; intros pre n.
  - cbn [append String.length Nat.add OsPath.non_dot_before].
    rewrite slice_from_app. cbn [Str.take String.eqb]. rewrite Hc.
    reflexivity.
  - cbn [append String.length Nat.add OsPath.non_dot_before].
    rewrite slice_from_app. cbn [Str.take].
    destruct (negb (String.eqb (String d "") ".")); [reflexivity|].
    replace (pre ++ String d (a ++ String c x))
      with ((pre ++ String d "") ++ a ++ String c x)
      by (rewrite append_assoc; reflexivity).
    replace (Str.len pre + 1) with (Str.len (pre ++ String d ""))
      by (rewrite len_app; reflexivity).
    apply IH.
Qed.

(** The extension of a name [<n>.<e>], where [n] has a character that is
    not a dot and [e] has neither dot nor slash. *)
Lemma splitext_name a c b e :
  Ascii.eqb c "." = false ->
  has_char "/" (a ++ String c b) = false ->
  has_char "." e = false -> has_char "/" e = false ->
  OsPath.splitext ((a ++ String c b) ++ String "." e)
  = (a ++ String c b, String "." e).
Proof.
  intros Hc Hs He Hes. unfold OsPath.splitext.
  assert (Hsep : Str.rfind "/" ((a ++ String c b) ++ String "." e) = -1).
  { apply rfind_absent. rewrite has_char_app, Hs. cbn [has_char].
    rewrite Hes. reflexivity. }
  rewrite Hsep, (rfind_last "." (a ++ String c b) e He).
  pose proof (len_nonneg (a ++ String c b)).
  destruct (Z.ltb_spec (-1) (Str.len (a ++ String c b))); [|lia].
  replace (Str.len (a ++ String c b) - (-1 + 1))
    with (Str.len (a ++ String c b)) by lia.
  unfold Str.len at 1. rewrite Nat2Z.id.
  rewrite string_length_app. cbn [String.length]. rewrite Nat.add_succ_r.
  change (-1 + 1) with (Str.len "").
  replace ((a ++ String c b) ++ String "." e)
    with ("" ++ a ++ String c (b ++ String "." e))
    by (rewrite append_assoc; reflexivity).
  rewrite (non_dot_before_found a c (b ++ String "." e) Hc "").
  cbn [andb append].
  replace (a ++ String c (b ++ String "." e))
    with ((a ++ String c b) ++ String "." e)
    by (rewrite append_assoc; reflexivity).
  rewrite slice_to_app, slice_from_app. reflexivity.
Qed.

Lemma truthy_app_char a c b : truthy (Some (a ++ String c b)) = true.
Proof. destruct a; reflexivity. Qed.

Lemma full_rewrite_step
    (dir stem time ext : string) (first_datetime last_datetime : Datetime.datetime)
    (st : parser_state) :
  data_file_name (provenance st)
  = Some (dir ++ "/" ++ stem ++ "T" ++ time ++ "." ++ ext) ->
  has_char "/" stem = false -> has_char "/" time = false ->
  has_char "/" ext = false ->
  has_char "T" time = false -> has_char "T" ext = false ->
  has_char "." ext = false ->
  modify_provenance_for_echogram_type (Some ZplscEchogramType.FULL)
    first_datetime last_datetime st
  = (Ok tt, with_data_file_name st (dir ++ "/" ++ stem ++ "T*." ++ ext)).
Proof.
  intros Href Hs1 Hs2 Hs3 Ht1 Ht2 Hdot.
  set (ref := dir ++ "/" ++ stem ++ "T" ++ time ++ "." ++ ext) in *.
  assert (Hname : snd (OsPath.split ref)
                  = (stem ++ String "T" time) ++ String "." ext).
  { unfold ref. cbn [append].
    replace (stem ++ String "T" (time ++ String "." ext))
      with ((stem ++ String "T" time) ++ String "." ext)
      by (rewrite !append_assoc; reflexivity).
    apply split_snd.
    rewrite !has_char_app. cbn [has_char]. rewrite Hs1, Hs2, Hs3.
    reflexivity. }
  assert (Hext : snd (OsPath.splitext (snd (OsPath.split ref)))
                 = String "." ext).
  { rewrite Hname.
    rewrite (splitext_name stem "T" time ext); try assumption.
    - reflexivity.
    - reflexivity.
    - rewrite has_char_app. cbn [has_char]. rewrite Hs1, Hs2. reflexivity. }
  assert (Hcut : Str.slice_to ref (Str.rfind "T" ref)
                 = dir ++ "/" ++ stem).
  { unfold ref.
    replace (dir ++ "/" ++ stem ++ "T" ++ time ++ "." ++ ext)
      with ((dir ++ "/" ++ stem) ++ String "T" (time ++ "." ++ ext))
      by (rewrite !append_assoc; reflexivity).
    rewrite rfind_last.
    - apply slice_to_app.
    - rewrite has_char_app. cbn [append has_char]. rewrite Ht1, Ht2.
      reflexivity. }
  unfold modify_provenance_for_echogram_type.
  cbv [bind get_provenance]. rewrite Href.
  change (eq_str (Some ZplscEchogramType.FULL) ZplscEchogramType.HOURLY)
    with false.
  assert (Htr : truthy (Some ref) = true).
  { unfold ref.
    replace (dir ++ "/" ++ stem ++ "T" ++ time ++ "." ++ ext)
      with (dir ++ String "/" (stem ++ "T" ++ time ++ "." ++ ext))
      by reflexivity.
    apply truthy_app_char. }
  rewrite Htr. cbn [negb orb percent_s].
  destruct (OsPath.split ref) as [daily name] eqn:Esplit. cbn [snd] in Hext.
  destruct (OsPath.splitext name) as [wo e] eqn:Esplitext. cbn [snd] in Hext.
  subst e.
  change (eq_str (Some ZplscEchogramType.FULL) ZplscEchogramType.FULL)
    with true.
  cbv iota. rewrite Hcut.
  unfold set_data_file_name, with_data_file_name.
  cbv [bind get_provenance set_provenance].
  rewrite !append_assoc. reflexivity.
Qed.

(** For a full echogram the reference to the raw file keeps its text up to
    its last [T], followed by [T*] and the extension of the file: with a
    reference [<dir>/<stem>T<time>.<ext>], in which no [T] follows the one
    before the time, the result is [<dir>/<stem>T*.<ext>]; the other keys
    of the provenance, the records and the files are left as they are.  The
    rewrite is idempotent: applied to its own result it changes nothing. *)
Theorem full_reference_rewrite
    (dir stem time ext : string) (first_datetime last_datetime : Datetime.datetime)
    (st : parser_state) :
  data_file_name (provenance st)
  = Some (dir ++ "/" ++ stem ++ "T" ++ time ++ "." ++ ext) ->
  has_char "/" stem = false -> has_char "/" time = false ->
  has_char "/" ext = false ->
  has_char "T" time = false -> has_char "T" ext = false ->
  has_char "." ext = false ->
  let once := with_data_file_name st (dir ++ "/" ++ stem ++ "T*." ++ ext) in
  modify_provenance_for_echogram_type (Some ZplscEchogramType.FULL)
    first_datetime last_datetime st
  = (Ok tt, once)
  /\ modify_provenance_for_echogram_type (Some ZplscEchogramType.FULL)
       first_datetime last_datetime once
     = (Ok tt, once).
Proof.
  intros Href Hs1 Hs2 Hs3 Ht1 Ht2 Hdot once. split.
  - exact (full_rewrite_step dir stem time ext first_datetime last_datetime st
             Href Hs1 Hs2 Hs3 Ht1 Ht2 Hdot).
  - unfold once.
    rewrite (full_rewrite_step dir stem "*" ext first_datetime last_datetime
               (with_data_file_name st (dir ++ "/" ++ stem ++ "T*." ++ ext)));
      try assumption; reflexivity.
Qed.

Lemma full_reference_rewrite_witness :
  let st := state_with_reference "/data/2019/10/20/OOI-D20191020-T003835.raw" in
  let D := Datetime.mk 2019 10 20 0 0 0 in
  let D' := Datetime.mk 2019 10 21 0 0 0 in
  modify_provenance_for_echogram_type (Some ZplscEchogramType.FULL) D D' st
  = (Ok tt, with_data_file_name st "/data/2019/10/20/OOI-D20191020-T*.raw").
Proof.
  intros st D D'.
  exact (proj1 (full_reference_rewrite "/data/2019/10/20" "OOI-D20191020-"
                  "003835" "raw" D D' st eq_refl eq_refl eq_refl eq_refl
                  eq_refl eq_refl eq_refl)).
Defined.

Lemma take_all_but_last body c :
  Str.slice_to (body ++ String c "") (-1) = body.
Proof.
  unfold Str.slice_to. cbn [Z.ltb Z.compare].
  rewrite len_app. change (Str.len (String c "")) with 1.
  pose proof (len_nonneg body).
  replace (Z.max 0 (Str.len body + 1 + -1)) with (Str.len body) by lia.
  unfold Str.len. rewrite Nat2Z.id. apply take_app.
Qed.

(** A reference without any [T]: [rfind] answers [-1], and the slice
    [data_file_name[:-1]] drops the last character of the reference.  The
    result is the reference without its last character, followed by [T*]
    and the extension of the file. *)
Theorem full_reference_without_T
    (body : string) (c : ascii) (first_datetime last_datetime : Datetime.datetime)
    (st : parser_state) :
  data_file_name (provenance st) = Some (body ++ String c "") ->
  has_char "T" (body ++ String c "") = false ->
  modify_provenance_for_echogram_type (Some ZplscEchogramType.FULL)
    first_datetime last_datetime st
  = (Ok tt,
     with_data_file_name st
       (body ++ "T*"
        ++ snd (OsPath.splitext (snd (OsPath.split (body ++ String c "")))))).
Proof.
  intros Href HT.
  unfold modify_provenance_for_echogram_type.
  cbv [bind get_provenance]. rewrite Href.
  change (eq_str (Some ZplscEchogramType.FULL) ZplscEchogramType.HOURLY)
    with false.
  rewrite truthy_app_char. cbn [negb orb percent_s].
  destruct (OsPath.split (body ++ String c "")) as [daily name].
  cbn [snd].
  destruct (OsPath.splitext name) as [wo e]. cbn [snd].
  change (eq_str (Some ZplscEchogramType.FULL) ZplscEchogramType.FULL)
    with true.
  cbv iota. rewrite (rfind_absent "T" _ HT), take_all_but_last.
  reflexivity.
Qed.

Lemma full_reference_without_T_witness :
  let st := state_with_reference "/data/2019/10/20/file.raw" in
  let D := Datetime.mk 2019 10 20 0 0 0 in
  modify_provenance_for_echogram_type (Some ZplscEchogramType.FULL) D D st
  = (Ok tt, with_data_file_name st "/data/2019/10/20/file.raT*.raw").
Proof.
  intros st D.
  exact (full_reference_without_T "/data/2019/10/20/file.ra" "w" D D st
           eq_refl eq_refl).
Defined.

(* ================================================================== *)
(** * The provenance read from the hourly file *)

Ltac read_attribute :=
  match goal with
  | |- context [NetCDF4.getattr ?g ?a] =>
      let v := fresh "a" in let E := fresh "E" in
      destruct (NetCDF4.getattr g a) as [v|?] eqn:E;
      cbn [result_bind fst snd provenance record_buffer io_log
           data_file_name conversion_software_name
           conversion_software_version conversion_time];
      [|intros H; discriminate H]
  end.

Lemma set_provenance_from_hourly_file_ok_inv fs hourly_file st st' :
  set_provenance_from_hourly_file fs hourly_file st = (Ok tt, st') ->
  exists ds g a1 a2 a3 a4,
    netcdf fs hourly_file = Some ds
    /\ NetCDF4.get_group ds "Provenance" = Ok g
    /\ NetCDF4.getattr g "src_filenames" = Ok a1
    /\ NetCDF4.getattr g "conversion_software_name" = Ok a2
    /\ NetCDF4.getattr g "conversion_software_version" = Ok a3
    /\ NetCDF4.getattr g "conversion_time" = Ok a4
    /\ st' = {| provenance := provenance_of a1 a2 a3 a4;
                record_buffer := record_buffer st;
                io_log := (io_log st ++ [Opened hourly_file; Closed hourly_file])%list |}.
Proof.
  unfold set_provenance_from_hourly_file, Dataset.
  destruct (netcdf fs hourly_file) as [ds|]; [|intros H; discriminate H].
  cbv [bind log_event ret lift set_data_file_name set_conversion_software_name
       set_conversion_software_version set_conversion_time get_provenance
       set_provenance close].
  cbn [provenance record_buffer io_log fst snd].
  destruct (NetCDF4.get_group ds "Provenance") as [g|e] eqn:Eg;
    cbn [result_bind]; [|intros H; discriminate H].
  do 4 read_attribute.
  intros H. inversion H; clear H.
  exists ds, g, a, a0, a1, a2.
  repeat (split; [first [reflexivity|assumption]|]).
  unfold provenance_of. rewrite <- app_assoc. reflexivity.
Qed.

Lemma set_provenance_from_hourly_file_ok fs hourly_file st ds g a1 a2 a3 a4 :
  netcdf fs hourly_file = Some ds ->
  NetCDF4.get_group ds "Provenance" = Ok g ->
  NetCDF4.getattr g "src_filenames" = Ok a1 ->
  NetCDF4.getattr g "conversion_software_name" = Ok a2 ->
  NetCDF4.getattr g "conversion_software_version" = Ok a3 ->
  NetCDF4.getattr g "conversion_time" = Ok a4 ->
  set_provenance_from_hourly_file fs hourly_file st
  = (Ok tt,
     {| provenance := provenance_of a1 a2 a3 a4;
        record_buffer := record_buffer st;
        io_log := (io_log st ++ [Opened hourly_file; Closed hourly_file])%list |}).
Proof.
  intros Hds Hg H1 H2 H3 H4.
  unfold set_provenance_from_hourly_file, Dataset. rewrite Hds.
  cbv [bind log_event ret lift set_data_file_name set_conversion_software_name
       set_conversion_software_version set_conversion_time get_provenance
       set_provenance close].
  cbn [provenance record_buffer io_log fst snd].
  rewrite Hg. cbn [result_bind]. rewrite H1, H2, H3, H4.
  cbn [provenance record_buffer io_log fst snd data_file_name
       conversion_software_name conversion_software_version conversion_time].
  unfold provenance_of. rewrite <- app_assoc. reflexivity.
Qed.

(** [set_provenance_from_hourly_file] returns exactly when the file opens
    and its [Provenance] group has the four attributes.  The provenance of
    the parser is then replaced as a whole, whatever it held before: the
    key [data_file_name] takes the attribute [src_filenames], the other
    three keys the attributes of their own names.  The file is opened and
    closed, and no record is appended. *)
Theorem provenance_is_read_from_four_attributes
    (fs : filesystem) (hourly_file : string) (st st' : parser_state) :
  set_provenance_from_hourly_file fs hourly_file st = (Ok tt, st')
  <-> exists ds g a1 a2 a3 a4,
        netcdf fs hourly_file = Some ds
        /\ NetCDF4.get_group ds "Provenance" = Ok g
        /\ NetCDF4.getattr g "src_filenames" = Ok a1
        /\ NetCDF4.getattr g "conversion_software_name" = Ok a2
        /\ NetCDF4.getattr g "conversion_software_version" = Ok a3
        /\ NetCDF4.getattr g "conversion_time" = Ok a4
        /\ st' = {| provenance := provenance_of a1 a2 a3 a4;
                    record_buffer := record_buffer st;
                    io_log := (io_log st
                               ++ [Opened hourly_file; Closed hourly_file])%list |}.
Proof.
  split.
  - apply set_provenance_from_hourly_file_ok_inv.
  - intros (ds & g & a1 & a2 & a3 & a4 & Hds & Hg & H1 & H2 & H3 & H4 & ->).
    exact (set_provenance_from_hourly_file_ok fs hourly_file st ds g a1 a2 a3
             a4 Hds Hg H1 H2 H3 H4).
Qed.

(** The four keys are written one after the other as the attributes are
    read.  When the [Provenance] group lacks its last attribute, the
    conversion time, the [AttributeError] leaves the parser with the first
    three keys already overwritten and the conversion time it had before,
    and with the hourly file open. *)
Theorem provenance_half_written_when_conversion_time_is_missing
    (fs : filesystem) (hourly_file : string) (st : parser_state)
    (ds : NetCDF4.dataset) (g : NetCDF4.group) (a1 a2 a3 : string) :
  netcdf fs hourly_file = Some ds ->
  NetCDF4.get_group ds "Provenance" = Ok g ->
  NetCDF4.getattr g "src_filenames" = Ok a1 ->
  NetCDF4.getattr g "conversion_software_name" = Ok a2 ->
  NetCDF4.getattr g "conversion_software_version" = Ok a3 ->
  assoc "conversion_time" (NetCDF4.attributes g) = None ->
  set_provenance_from_hourly_file fs hourly_file st
  = (Raise (AttributeError "conversion_time"),
     {| provenance :=
          {| data_file_name := Some a1;
             conversion_software_name := Some a2;
             conversion_software_version := Some a3;
             conversion_time := conversion_time (provenance st) |};
        record_buffer := record_buffer st;
        io_log := (io_log st ++ [Opened hourly_file])%list |}).
Proof.
  intros Hds Hg H1 H2 H3 H4.
  unfold set_provenance_from_hourly_file, Dataset. rewrite Hds.
  cbv [bind log_event ret lift set_data_file_name set_conversion_software_name
       set_conversion_software_version set_conversion_time get_provenance
       set_provenance close].
  cbn [provenance record_buffer io_log fst snd].
  rewrite Hg. cbn [result_bind]. rewrite H1, H2, H3.
  cbn [provenance record_buffer io_log fst snd data_file_name
       conversion_software_name conversion_software_version conversion_time].
  unfold NetCDF4.getattr. rewrite H4. reflexivity.
Qed.

Lemma provenance_half_written_when_conversion_time_is_missing_witness :
  let fs := {| listdir := fun _ => Ok ["OOI-D20191020-T003835.nc"];
               netcdf := fun _ => Some sample_dataset_without_conversion_time |} in
  let st := {| provenance := provenance_of "old.raw" "old" "0.0" "2001-01-01T00:00:00Z";
               record_buffer := []; io_log := [] |} in
  set_provenance_from_hourly_file fs "/data/OOI-D20191020-T003835.nc" st
  = (Raise (AttributeError "conversion_time"),
     {| provenance :=
          provenance_of "/data/2019/10/20/OOI-D20191020-T003835.raw"
            "echopype" "0.1.0" "2001-01-01T00:00:00Z";
        record_buffer := [];
        io_log := [Opened "/data/OOI-D20191020-T003835.nc"] |}).
Proof.
  intros fs st.
  exact (provenance_half_written_when_conversion_time_is_missing fs
           "/data/OOI-D20191020-T003835.nc" st
           sample_dataset_without_conversion_time _ _ _ _
           eq_refl eq_refl eq_refl eq_refl eq_refl eq_refl).
Defined.

(* ================================================================== *)
(** * What the transformer touches *)

Lemma add_days_raises t k e :
  Datetime.add_days t k = Raise e -> e = OverflowError.
Proof.
  unfold Datetime.add_days.
  destruct (_ && _); [|intros H; inversion H; reflexivity].
  destruct (Datetime.ord2ymd _) as [[y m] d]. discriminate.
Qed.

Lemma modify_provenance_cases type first_datetime last_datetime st r st' :
  modify_provenance_for_echogram_type type first_datetime last_datetime st
  = (r, st') ->
  conversion_software_name (provenance st')
  = conversion_software_name (provenance st)
  /\ conversion_software_version (provenance st')
     = conversion_software_version (provenance st)
  /\ conversion_time (provenance st') = conversion_time (provenance st)
  /\ record_buffer st' = record_buffer st
  /\ io_log st' = io_log st
  /\ ((r = Ok tt
       /\ (data_file_name (provenance st) = None -> st' = st)
       /\ (data_file_name (provenance st) <> None ->
           data_file_name (provenance st') <> None))
      \/ (r = Raise OverflowError /\ st' = st)).
Proof.
  unfold modify_provenance_for_echogram_type.
  cbv [bind get_provenance].
  destruct (eq_str type ZplscEchogramType.HOURLY
            || negb (truthy (data_file_name (provenance st)))) eqn:Eguard.
  - intros H; inversion H; subst. repeat (split; [reflexivity|]).
    left. split; [reflexivity|]. split; [reflexivity|tauto].
  - assert (Hsome : data_file_name (provenance st) <> None).
    { intros Hn. rewrite Hn in Eguard. cbn in Eguard.
      rewrite orb_true_r in Eguard. discriminate. }
    destruct (OsPath.split _) as [daily name].
    destruct (OsPath.splitext _) as [wo_ext ext].
    destruct (eq_str type ZplscEchogramType.FULL).
    + cbv [set_data_file_name bind get_provenance set_provenance].
      intros H; inversion H; subst.
      cbn [provenance record_buffer io_log data_file_name
           conversion_software_name conversion_software_version
           conversion_time].
      repeat (split; [reflexivity|]).
      left. split; [reflexivity|]. split; [contradiction|discriminate].
    + cbv [lift].
      destruct (Datetime.add_days last_datetime (-1)) as [last|e] eqn:El.
      * cbv [set_data_file_name bind get_provenance set_provenance
             getitem_data_file_name getitem lift ret].
        cbn [provenance record_buffer io_log data_file_name
             conversion_software_name conversion_software_version
             conversion_time].
        destruct (Datetime.ltb first_datetime last);
          intros H; apply pair_equal_spec in H; destruct H as [<- <-];
          cbn [provenance record_buffer io_log data_file_name
               conversion_software_name conversion_software_version
               conversion_time];
          repeat (split; [reflexivity|]);
          left; (split; [reflexivity|]); (split; [contradiction|discriminate]).
      * intros H; inversion H; subst.
        repeat (split; [reflexivity|]).
        right. rewrite (add_days_raises _ _ _ El). split; reflexivity.
Qed.



(* ================================================================== *)
(** * The first ping time *)

Lemma get_first_ping_time_ok_inv time_to_ntp fs path type st fpt st' :
  get_first_ping_time_from_echogram time_to_ntp fs path type st
  = (Ok fpt, st') ->
  exists ds,
    netcdf fs path = Some ds
    /\ (if eq_str type ZplscEchogramType.HOURLY
        then exists g,
               NetCDF4.get_group ds "Beam" = Ok g
               /\ NetCDF4.first_of (NetCDF4.group_variables g) "ping_time"
                  = Ok fpt
        else exists x,
               NetCDF4.first_of (NetCDF4.variables ds) "ping_time" = Ok x
               /\ fpt = time_to_ntp x)
    /\ st' = {| provenance := provenance st;
                record_buffer := record_buffer st;
                io_log := (io_log st ++ [Opened path; Closed path])%list |}.
Proof.
  unfold get_first_ping_time_from_echogram, Dataset.
  destruct (netcdf fs path) as [ds|]; [|intros H; discriminate H].
  cbv [bind log_event ret lift close].
  cbn [provenance record_buffer io_log fst snd].
  destruct (eq_str type ZplscEchogramType.HOURLY).
  - destruct (NetCDF4.get_group ds "Beam") as [g|e] eqn:Eg;
      cbn [result_bind]; [|intros H; discriminate H].
    destruct (NetCDF4.first_of (NetCDF4.group_variables g) "ping_time")
      as [x|e] eqn:Ex; [|intros H; discriminate H].
    cbn [provenance record_buffer io_log].
    intros H; inversion H; subst. exists ds. split; [reflexivity|].
    split; [exists g; split; [exact Eg|exact Ex]|].
    rewrite <- app_assoc. reflexivity.
  - destruct (NetCDF4.first_of (NetCDF4.variables ds) "ping_time")
      as [x|e] eqn:Ex; cbn [result_bind]; [|intros H; discriminate H].
    cbn [provenance record_buffer io_log].
    intros H; inversion H; subst. exists ds. split; [reflexivity|].
    split; [exists x; split; [exact Ex|reflexivity]|].
    rewrite <- app_assoc. reflexivity.
Qed.

(* ================================================================== *)
(** * What a successful run has read *)

Lemma select_hourly_files_subset pattern type start stop entries :
  forall files,
    select_hourly_files pattern type start stop entries = Ok files ->
    forall f, In f files -> In f entries.
Proof.
  induction entries as [|a entries IH]; intros files H f Hin.
  - inversion H; subst. destruct Hin.
  - cbn [select_hourly_files] in H.
    destruct (is_hourly_file pattern type start stop a) as [keep|e];
      cbn [result_bind] in H; [|discriminate].
    destruct (select_hourly_files pattern type start stop entries)
      as [others|e]; cbn [result_bind] in H; [|discriminate].
    inversion H; subst; clear H.
    destruct keep; [destruct Hin as [<-|Hin]|];
      [left; reflexivity|right; exact (IH others eq_refl f Hin)
      |right; exact (IH others eq_refl f Hin)].
Qed.

Lemma first_sorted_in files first :
  first_sorted files = Ok first -> In first files.
Proof.
  unfold first_sorted. pose proof (sorted_head files) as H.
  destruct (sorted files) as [|f fs]; [discriminate|].
  intros E; inversion E; subst. exact (proj1 H).
Qed.

(** A successful run, from the files it read to the state it leaves. *)
Lemma parse_file_reads time_to_ntp string_to_ntp driver_ts fs path st st' :
  parse_file time_to_ntp string_to_ntp driver_ts fs path st = (Ok tt, st') ->
  exists m type start stop entries first ds g a1 a2 a3 a4 ref eds fpt dts,
    match_filename (snd (OsPath.split path)) = Ok (m, type)
    /\ listdir fs (fst (OsPath.split path)) = Ok entries
    /\ In first entries
    /\ netcdf fs (OsPath.join (fst (OsPath.split path)) [first]) = Some ds
    /\ NetCDF4.get_group ds "Provenance" = Ok g
    /\ NetCDF4.getattr g "src_filenames" = Ok a1
    /\ NetCDF4.getattr g "conversion_software_name" = Ok a2
    /\ NetCDF4.getattr g "conversion_software_version" = Ok a3
    /\ NetCDF4.getattr g "conversion_time" = Ok a4
    /\ fst (modify_provenance_for_echogram_type type start stop
              (with_provenance st (provenance_of a1 a2 a3 a4))) = Ok tt
    /\ data_file_name
         (provenance
            (snd (modify_provenance_for_echogram_type type start stop
                    (with_provenance st (provenance_of a1 a2 a3 a4)))))
       = Some ref
    /\ provenance st' = provenance_of ref a2 a3 a4
    /\ netcdf fs path = Some eds
    /\ (if eq_str type ZplscEchogramType.HOURLY
        then exists b,
               NetCDF4.get_group eds "Beam" = Ok b
               /\ NetCDF4.first_of (NetCDF4.group_variables b) "ping_time"
                  = Ok fpt
        else exists x,
               NetCDF4.first_of (NetCDF4.variables eds) "ping_time" = Ok x
               /\ fpt = time_to_ntp x)
    /\ string_to_ntp a4 = Ok dts
    /\ record_buffer st'
       = (record_buffer st
          ++ [{| raw_data :=
                   {| INTERNAL_TIMESTAMP :=
                        float_plus fpt
                          (if eq_str type ZplscEchogramType.FULL
                           then PyFloat float_0_001 else PyInt 0);
                      FILE_TIME := fpt;
                      ECHOGRAM_PATH := path |};
                 internal_timestamp :=
                   float_plus fpt
                     (if eq_str type ZplscEchogramType.FULL
                      then PyFloat float_0_001 else PyInt 0);
                 driver_timestamp := dts |}])%list.
Proof.
  intros E.
  destruct (parse_file_ok_inv _ _ _ _ _ _ _ E)
    as (m & type & pattern & start & stop & entries & files & first
        & st1 & st2 & st3 & fpt & ct & dts
        & Hm & Hw & Hl & Hs & Hne & Hf & H1 & H2 & H3 & Hct & Hd & ->).
  destruct (set_provenance_from_hourly_file_ok_inv _ _ _ _ H1)
    as (ds & g & a1 & a2 & a3 & a4 & Hds & Hg & A1 & A2 & A3 & A4 & ->).
  destruct (get_first_ping_time_ok_inv _ _ _ _ _ _ _ H3)
    as (eds & Heds & Hping & ->).
  destruct (modify_provenance_cases _ _ _ _ _ _ H2)
    as (K2 & K3 & K4 & Kr & Kl & _).
  cbn [provenance record_buffer io_log conversion_time
       conversion_software_name conversion_software_version provenance_of]
    in K2, K3, K4, Kr, Hct.
  rewrite K4 in Hct. inversion Hct; subst ct; clear Hct.
  (* the transformer reads and writes the provenance only *)
  assert (Hsame :
            modify_provenance_for_echogram_type type start stop
              (with_provenance st (provenance_of a1 a2 a3 a4))
            = (Ok tt, with_provenance st (provenance st2))).
  { revert H2. unfold modify_provenance_for_echogram_type, with_provenance.
    cbv [bind get_provenance].
    cbn [provenance record_buffer io_log data_file_name provenance_of
         percent_s].
    destruct (eq_str type ZplscEchogramType.HOURLY || _).
    - intros H; inversion H; subst. reflexivity.
    - destruct (OsPath.split a1) as [daily name].
      destruct (OsPath.splitext name) as [wo_ext ext].
      destruct (eq_str type ZplscEchogramType.FULL).
      + cbv [set_data_file_name bind get_provenance set_provenance].
        intros H; inversion H; subst. reflexivity.
      + cbv [lift].
        destruct (Datetime.add_days stop (-1)) as [last|e];
          [|intros H; discriminate H].
        cbv [set_data_file_name bind get_provenance set_provenance
             getitem_data_file_name getitem lift ret].
        cbn [provenance record_buffer io_log data_file_name
             conversion_software_name conversion_software_version
             conversion_time].
        destruct (Datetime.ltb start last);
          intros H; apply pair_equal_spec in H; destruct H as [_ <-];
          reflexivity. }
  destruct (data_file_name (provenance st2)) as [ref|] eqn:Eref.
  2:{ destruct (modify_provenance_cases _ _ _ _ _ _ H2)
        as (_ & _ & _ & _ & _ & [(_ & _ & Hkeep)|(Hr & _)]);
        [|discriminate Hr].
      exfalso. apply Hkeep; [discriminate|exact Eref]. }
  exists m, type, start, stop, entries, first, ds, g, a1, a2, a3, a4, ref,
    eds, fpt, dts.
  split; [exact Hm|]. split; [exact Hl|].
  split; [exact (select_hourly_files_subset _ _ _ _ _ _ Hs _
                   (first_sorted_in _ _ Hf))|].
  split; [exact Hds|]. split; [exact Hg|].
  split; [exact A1|]. split; [exact A2|]. split; [exact A3|].
  split; [exact A4|].
  split; [rewrite Hsame; reflexivity|].
  split; [rewrite Hsame; exact Eref|].
  split.
  { cbn [provenance]. destruct (provenance st2) as [p1 p2 p3 p4].
    cbn [data_file_name conversion_software_name conversion_software_version
         conversion_time] in *.
    unfold provenance_of. congruence. }
  split; [exact Heds|]. split; [exact Hping|]. split; [exact Hd|].
  cbn [record_buffer]. rewrite Kr. reflexivity.
Qed.

(* ================================================================== *)
(** * The processing information after a run *)

(** After a successful [parse_file], [add_provenance_to_processing_info]
    sets the three keys of the processing information, each once and in
    this order: the data file is the reference as the transformer left it,
    the parser and its version are the attributes
    [conversion_software_name] and [conversion_software_version] of the
    [Provenance] group of the hourly file that was opened, an entry of the
    directory of the echogram.  The conversion time is not passed on. *)
Theorem processing_info_after_a_run
    (time_to_ntp : float -> float) (string_to_ntp : string -> result float)
    (driver_ts : float) (fs : filesystem) (path : string)
    (st st' : parser_state) :
  parse_file time_to_ntp string_to_ntp driver_ts fs path st = (Ok tt, st') ->
  exists entries first ds g ref name version,
    listdir fs (fst (OsPath.split path)) = Ok entries
    /\ In first entries
    /\ netcdf fs (OsPath.join (fst (OsPath.split path)) [first]) = Some ds
    /\ NetCDF4.get_group ds "Provenance" = Ok g
    /\ NetCDF4.getattr g "conversion_software_name" = Ok name
    /\ NetCDF4.getattr g "conversion_software_version" = Ok version
    /\ data_file_name (provenance st') = Some ref
    /\ forall handler,
         add_provenance_to_processing_info (provenance st') handler
         = (handler ++ [(ProcessingInfoKey.DATA_FILE, ref);
                        (ProcessingInfoKey.PARSER, name);
                        (ProcessingInfoKey.PARSER_VERSION, version)])%list.
Proof.
  intros E.
  destruct (parse_file_reads _ _ _ _ _ _ _ E)
    as (m & type & start & stop & entries & first & ds & g & a1 & a2 & a3
        & a4 & ref & eds & fpt & dts
        & _ & Hl & Hin & Hds & Hg & _ & A2 & A3 & _ & _ & _ & Hp & _).
  exists entries, first, ds, g, ref, a2, a3.
  repeat (split; [assumption|]).
  rewrite Hp. split; [reflexivity|].
  intros handler. unfold add_provenance_to_processing_info, setProcessingInfo.
  cbn [provenance_of data_file_name conversion_software_name
       conversion_software_version].
  rewrite <- !app_assoc. reflexivity.
Qed.

Lemma processing_info_after_a_run_witness :
  let fs := sample_fs ["OOI-D20191020-T013835.nc"; "OOI-D20191020-T003835.nc"] in
  let run := sample_parse_file fs sample_full_path in
  fst run = Ok tt
  /\ add_provenance_to_processing_info (provenance (snd run)) []
     = [(ProcessingInfoKey.DATA_FILE, "/data/2019/10/20/OOI-D20191020-T*.raw");
        (ProcessingInfoKey.PARSER, "echopype");
        (ProcessingInfoKey.PARSER_VERSION, "0.1.0")].
Proof.
  intros fs run.
  assert (H : parse_file sample_time_to_ntp sample_string_to_ntp
                sample_driver_timestamp fs sample_full_path initial_state
              = (Ok tt, snd run)) by (vm_compute; reflexivity).
  split; [vm_compute; reflexivity|].
  destruct (processing_info_after_a_run _ _ _ _ _ _ _ H)
    as (entries & first & ds & g & ref & name & version
        & _ & _ & _ & _ & _ & _ & _ & Hinfo).
  pose proof (Hinfo []) as K. rewrite K.
  vm_compute in K. inversion K. reflexivity.
Defined.

(* ================================================================== *)
(** * The record of a run and the files behind it *)

(** The driver timestamp of the record of a successful run is not the
    one that the particle is given when it is made: it is
    [string_to_ntp_date_time] of the attribute [conversion_time] of the
    [Provenance] group of the hourly file that was opened. *)
Theorem driver_timestamp_is_the_conversion_time
    (time_to_ntp : float -> float) (string_to_ntp : string -> result float)
    (driver_ts : float) (fs : filesystem) (path : string)
    (st st' : parser_state) :
  parse_file time_to_ntp string_to_ntp driver_ts fs path st = (Ok tt, st') ->
  exists first ds g time particle,
    netcdf fs (OsPath.join (fst (OsPath.split path)) [first]) = Some ds
    /\ NetCDF4.get_group ds "Provenance" = Ok g
    /\ NetCDF4.getattr g "conversion_time" = Ok time
    /\ record_buffer st' = (record_buffer st ++ [particle])%list
    /\ string_to_ntp time = Ok (driver_timestamp particle).
Proof.
  intros E.
  destruct (parse_file_reads _ _ _ _ _ _ _ E)
    as (m & type & start & stop & entries & first & ds & g & a1 & a2 & a3
        & a4 & ref & eds & fpt & dts
        & _ & _ & _ & Hds & Hg & _ & _ & _ & A4 & _ & _ & _ & _ & _ & Hd
        & Hr).
  eexists first, ds, g, a4, _.
  split; [exact Hds|]. split; [exact Hg|]. split; [exact A4|].
  split; [exact Hr|]. exact Hd.
Qed.

Lemma driver_timestamp_is_the_conversion_time_witness :
  let fs := sample_fs ["OOI-D20191020-T013835.nc"; "OOI-D20191020-T003835.nc"] in
  let run := sample_parse_file fs sample_averaged_path in
  fst run = Ok tt
  /\ exists particle,
       record_buffer (snd run) = [particle]
       /\ sample_string_to_ntp "2019-10-21T00:00:00Z"
          = Ok (driver_timestamp particle).
Proof.
  intros fs run.
  assert (H : parse_file sample_time_to_ntp sample_string_to_ntp
                sample_driver_timestamp fs sample_averaged_path initial_state
              = (Ok tt, snd run)) by (vm_compute; reflexivity).
  split; [vm_compute; reflexivity|].
  destruct (driver_timestamp_is_the_conversion_time _ _ _ _ _ _ _ H)
    as (first & ds & g & time & particle & _ & _ & _ & Hr & Hd).
  exists particle. split; [exact Hr|].
  destruct (sample_string_to_ntp time) as [x|] eqn:Ex; [|discriminate Hd].
  inversion Hd; subst x. unfold sample_string_to_ntp in *.
  destruct (Str.is_empty time); [discriminate Ex|]. exact Ex.
Defined.

(** The record of a successful run carries the path of the echogram as
    it was given and, as its file time, the first value of the variable
    [ping_time] of the echogram file itself: for an hourly echogram the
    variable of the group [Beam], as it is stored; for the other types the
    variable of the file, passed through [time_to_ntp_date_time]. *)
Theorem file_time_is_the_first_ping_of_the_echogram
    (time_to_ntp : float -> float) (string_to_ntp : string -> result float)
    (driver_ts : float) (fs : filesystem) (path : string)
    (st st' : parser_state) :
  parse_file time_to_ntp string_to_ntp driver_ts fs path st = (Ok tt, st') ->
  exists m type eds particle,
    match_filename (snd (OsPath.split path)) = Ok (m, type)
    /\ netcdf fs path = Some eds
    /\ record_buffer st' = (record_buffer st ++ [particle])%list
    /\ ECHOGRAM_PATH (raw_data particle) = path
    /\ (if eq_str type ZplscEchogramType.HOURLY
        then exists b,
               NetCDF4.get_group eds "Beam" = Ok b
               /\ NetCDF4.first_of (NetCDF4.group_variables b) "ping_time"
                  = Ok (FILE_TIME (raw_data particle))
        else exists x,
               NetCDF4.first_of (NetCDF4.variables eds) "ping_time" = Ok x
               /\ FILE_TIME (raw_data particle) = time_to_ntp x).
Proof.
  intros E.
  destruct (parse_file_reads _ _ _ _ _ _ _ E)
    as (m & type & start & stop & entries & first & ds & g & a1 & a2 & a3
        & a4 & ref & eds & fpt & dts
        & Hm & _ & _ & _ & _ & _ & _ & _ & _ & _ & _ & _ & Heds & Hping & _
        & Hr).
  eexists m, type, eds, _.
  split; [exact Hm|]. split; [exact Heds|]. split; [exact Hr|].
  cbn [raw_data ECHOGRAM_PATH FILE_TIME]. split; [reflexivity|exact Hping].
Qed.

Lemma file_time_is_the_first_ping_of_the_echogram_witness :
  let fs := sample_fs ["OOI-D20191020-T003835.nc"] in
  let run := sample_parse_file fs sample_hourly_path in
  fst run = Ok tt
  /\ exists particle,
       record_buffer (snd run) = [particle]
       /\ ECHOGRAM_PATH (raw_data particle) = sample_hourly_path
       /\ FILE_TIME (raw_data particle) = sample_ping_time.
Proof.
  intros fs run.
  assert (H : parse_file sample_time_to_ntp sample_string_to_ntp
                sample_driver_timestamp fs sample_hourly_path initial_state
              = (Ok tt, snd run)) by (vm_compute; reflexivity).
  split; [vm_compute; reflexivity|].
  destruct (file_time_is_the_first_ping_of_the_echogram _ _ _ _ _ _ _ H)
    as (m & type & eds & particle & Hm & Heds & Hr & Hp & Hping).
  exists particle. split; [exact Hr|]. split; [exact Hp|].
  assert (Ht : type = Some ZplscEchogramType.HOURLY).
  { revert Hm. vm_compute. intros Hm; inversion Hm; reflexivity. }
  subst type. cbn [eq_str] in Hping.
  change (String.eqb ZplscEchogramType.HOURLY ZplscEchogramType.HOURLY)
    with true in Hping.
  destruct Hping as (b & Hb & Hx).
  assert (Hd : eds = sample_hourly_dataset).
  { revert Heds. vm_compute. intros K; inversion K; reflexivity. }
  subst eds. vm_compute in Hb. inversion Hb; subst b.
  vm_compute in Hx. inversion Hx as [K]. vm_compute. symmetry. exact K.
Defined.

(* ================================================================== *)
(** * The footprint of a run, whatever its outcome *)

Lemma lift_inv {A} (r : result A) st x st1 :
  lift r st = (x, st1) -> x = r /\ st1 = st.
Proof. unfold lift. intros H; inversion H; auto. Qed.

Lemma set_provenance_from_hourly_file_trace fs hourly_file st r st' :
  set_provenance_from_hourly_file fs hourly_file st = (r, st') ->
  record_buffer st' = record_buffer st
  /\ exists l,
       io_log st' = (io_log st ++ l)%list
       /\ ((r = Ok tt /\ l = [Opened hourly_file; Closed hourly_file])
           \/ ((exists e, r = Raise e)
               /\ (l = [] \/ l = [Opened hourly_file]))).
Proof.
  intros H.
  split.
  { pose proof (keeps_set_provenance_from_hourly_file fs hourly_file st) as K.
    rewrite H in K. exact K. }
  destruct r as [[]|e].
  - destruct (set_provenance_from_hourly_file_ok_inv _ _ _ _ H)
      as (ds & g & a1 & a2 & a3 & a4 & _ & _ & _ & _ & _ & _ & ->).
    eexists. split; [reflexivity|]. left. split; reflexivity.
  - revert H. unfold set_provenance_from_hourly_file, Dataset.
    destruct (netcdf fs hourly_file) as [ds|].
    2:{ intros H; inversion H; subst. exists []. rewrite app_nil_r.
        split; [reflexivity|]. right. split; [eexists; reflexivity|].
        left; reflexivity. }
    cbv [bind log_event ret lift set_data_file_name
         set_conversion_software_name set_conversion_software_version
         set_conversion_time get_provenance set_provenance close].
    cbn [provenance record_buffer io_log fst snd].
    repeat
      match goal with
      | |- context [result_bind (NetCDF4.get_group ?d ?n) ?k] =>
          destruct (result_bind (NetCDF4.get_group d n) k);
          cbn [provenance record_buffer io_log fst snd]
      end;
      intros H; inversion H; subst; cbn [io_log];
      exists [Opened hourly_file];
      (split; [reflexivity|]); right;
      (split; [eexists; reflexivity|right; reflexivity]).
Qed.

Lemma get_first_ping_time_trace time_to_ntp fs path type st r st' :
  get_first_ping_time_from_echogram time_to_ntp fs path type st = (r, st') ->
  record_buffer st' = record_buffer st
  /\ exists l,
       io_log st' = (io_log st ++ l)%list
       /\ (((exists x, r = Ok x) /\ l = [Opened path; Closed path])
           \/ ((exists e, r = Raise e) /\ (l = [] \/ l = [Opened path]))).
Proof.
  intros H.
  split.
  { pose proof (keeps_get_first_ping_time time_to_ntp fs path type st) as K.
    rewrite H in K. exact K. }
  destruct r as [x|e].
  - destruct (get_first_ping_time_ok_inv _ _ _ _ _ _ _ H)
      as (ds & _ & _ & ->).
    eexists. split; [reflexivity|]. left.
    split; [eexists; reflexivity|reflexivity].
  - revert H. unfold get_first_ping_time_from_echogram, Dataset.
    destruct (netcdf fs path) as [ds|].
    2:{ intros H; inversion H; subst. exists []. rewrite app_nil_r.
        split; [reflexivity|]. right. split; [eexists; reflexivity|].
        left; reflexivity. }
    cbv [bind log_event ret lift close].
    cbn [provenance record_buffer io_log fst snd].
    match goal with
    | |- context [if ?b then ?x else ?y] => destruct (if b then x else y)
    end;
      intros H; inversion H; subst; cbn [io_log];
      exists [Opened path];
      (split; [reflexivity|]); right;
      (split; [eexists; reflexivity|right; reflexivity]).
Qed.

Lemma parse_file_trace time_to_ntp string_to_ntp driver_ts fs path st r st' :
  parse_file time_to_ntp string_to_ntp driver_ts fs path st = (r, st') ->
  exists h l,
    io_log st' = (io_log st ++ l)%list
    /\ In l (file_traces h path)
    /\ (r = Ok tt ->
        l = [Opened h; Closed h; Opened path; Closed path])
    /\ ((exists e, r = Raise e) -> record_buffer st' = record_buffer st).
Proof.
  unfold parse_file. destruct (OsPath.split path) as [dir fn].
  intros H.
  assert (Hstop : forall e, r = Raise e -> st' = st ->
            exists h l,
              io_log st' = (io_log st ++ l)%list
              /\ In l (file_traces h path)
              /\ (r = Ok tt ->
                  l = [Opened h; Closed h; Opened path; Closed path])
              /\ ((exists e, r = Raise e) ->
                  record_buffer st' = record_buffer st)).
  { intros e -> ->. exists "", []. rewrite app_nil_r.
    split; [reflexivity|]. split; [left; reflexivity|].
    split; [discriminate|reflexivity]. }
  apply bind_inv in H. destruct H as [([m type] & s0 & Hc & H)|(e & Hc & ->)];
    apply lift_inv in Hc; destruct Hc as [Hc ->];
    [|exact (Hstop e eq_refl eq_refl)].
  apply bind_inv in H.
  destruct H as [([[pattern start] stop] & s0 & Hc1 & H)|(e & Hc1 & ->)];
    apply lift_inv in Hc1; destruct Hc1 as [Hc1 ->];
    [|exact (Hstop e eq_refl eq_refl)].
  apply bind_inv in H. destruct H as [(entries & s0 & Hc2 & H)|(e & Hc2 & ->)];
    apply lift_inv in Hc2; destruct Hc2 as [Hc2 ->];
    [|exact (Hstop e eq_refl eq_refl)].
  apply bind_inv in H. destruct H as [(files & s0 & Hc3 & H)|(e & Hc3 & ->)];
    apply lift_inv in Hc3; destruct Hc3 as [Hc3 ->];
    [|exact (Hstop e eq_refl eq_refl)].
  destruct (List.length files =? 0)%nat.
  { unfold raise in H. inversion H; subst.
    exact (Hstop _ eq_refl eq_refl). }
  apply bind_inv in H. destruct H as [(first & s0 & Hc4 & H)|(e & Hc4 & ->)];
    apply lift_inv in Hc4; destruct Hc4 as [Hc4 ->];
    [|exact (Hstop e eq_refl eq_refl)].
  clear Hstop. exists (OsPath.join dir [first]).
  apply bind_inv in H. destruct H as [([] & st1 & H1 & H)|(e & H1 & ->)].
  2:{ destruct (set_provenance_from_hourly_file_trace _ _ _ _ _ H1)
        as (Kr & l & Kl & [[K _]|[_ [-> | ->]]]); [discriminate K| |];
        eexists; (split; [exact Kl|]);
        (split; [cbn; tauto|]); (split; [discriminate|intros _; exact Kr]). }
  destruct (set_provenance_from_hourly_file_trace _ _ _ _ _ H1)
    as (Kr1 & l1 & Kl1 & [[_ ->]|[(e & K) _]]); [|discriminate K].
  apply bind_inv in H. destruct H as [([] & st2 & H2 & H)|(e & H2 & ->)].
  2:{ destruct (modify_provenance_cases _ _ _ _ _ _ H2)
        as (_ & _ & _ & Kr & Kl & _).
      eexists. split; [rewrite Kl; exact Kl1|].
      split; [cbn; tauto|]. split; [discriminate|].
      intros _. rewrite Kr. exact Kr1. }
  destruct (modify_provenance_cases _ _ _ _ _ _ H2)
    as (_ & _ & _ & Kr2 & Kl2 & _).
  apply bind_inv in H. destruct H as [(fpt & st3 & H3 & H)|(e & H3 & ->)].
  2:{ destruct (get_first_ping_time_trace _ _ _ _ _ _ _ H3)
        as (Kr & l & Kl & [[(x & K) _]|[_ [-> | ->]]]); [discriminate K| |];
        eexists; (split; [rewrite Kl, Kl2, Kl1, <- app_assoc; reflexivity|]);
        (split; [cbn; tauto|]);
        (split; [discriminate|intros _; rewrite Kr, Kr2; exact Kr1]). }
  destruct (get_first_ping_time_trace _ _ _ _ _ _ _ H3)
    as (Kr3 & l3 & Kl3 & [[_ ->]|[(e & K) _]]); [|discriminate K].
  assert (Hlog : io_log st3
                 = (io_log st ++ [Opened (OsPath.join dir [first]);
                                  Closed (OsPath.join dir [first]);
                                  Opened path; Closed path])%list).
  { rewrite Kl3, Kl2, Kl1, <- app_assoc. reflexivity. }
  assert (Hrec : record_buffer st3 = record_buffer st).
  { rewrite Kr3, Kr2. exact Kr1. }
  exists [Opened (OsPath.join dir [first]); Closed (OsPath.join dir [first]);
          Opened path; Closed path].
  apply bind_inv in H. destruct H as [(p & sA & H4 & H)|(e & H4 & ->)];
    unfold get_provenance in H4;
    [inversion H4; subst p sA; clear H4|discriminate H4].
  apply bind_inv in H. destruct H as [(ct & s0 & H5 & H)|(e & H5 & ->)];
    apply lift_inv in H5; destruct H5 as [H5 ->].
  2:{ split; [exact Hlog|]. split; [cbn; tauto|].
      split; [discriminate|intros _; exact Hrec]. }
  apply bind_inv in H. destruct H as [(dts & s0 & H6 & H)|(e & H6 & ->)];
    apply lift_inv in H6; destruct H6 as [H6 ->].
  2:{ split; [exact Hlog|]. split; [cbn; tauto|].
      split; [discriminate|intros _; exact Hrec]. }
  unfold append_record in H. inversion H; subst. cbn [io_log].
  split; [exact Hlog|]. split; [cbn; tauto|].
  split; [reflexivity|]. intros (e & K). discriminate K.
Qed.

(** A run of [parse_file], whatever its outcome, opens at most two files
    and never holds two of them open: the hourly file first, and the
    echogram only after the hourly file has been closed.  A run that
    returns has opened and closed both. *)
Theorem files_are_opened_one_at_a_time
    (time_to_ntp : float -> float) (string_to_ntp : string -> result float)
    (driver_ts : float) (fs : filesystem) (path : string)
    (st st' : parser_state) (r : result unit) :
  parse_file time_to_ntp string_to_ntp driver_ts fs path st = (r, st') ->
  exists h l,
    io_log st' = (io_log st ++ l)%list
    /\ In l (file_traces h path)
    /\ (r = Ok tt -> l = [Opened h; Closed h; Opened path; Closed path]).
Proof.
  intros H. destruct (parse_file_trace _ _ _ _ _ _ _ _ H)
    as (h & l & Hl & Hin & Hok & _).
  exists h, l. split; [exact Hl|]. split; [exact Hin|exact Hok].
Qed.

Lemma files_are_opened_one_at_a_time_witness :
  let fs := sample_fs_without_provenance ["OOI-D20191020-T003835.nc"] in
  let run := sample_parse_file fs sample_averaged_path in
  fst run = Raise (KeyError "Provenance")
  /\ exists h, io_log (snd run) = [Opened h].
Proof.
  intros fs run.
  assert (H : parse_file sample_time_to_ntp sample_string_to_ntp
                sample_driver_timestamp fs sample_averaged_path initial_state
              = (Raise (KeyError "Provenance"), snd run))
    by (vm_compute; reflexivity).
  split; [vm_compute; reflexivity|].
  destruct (files_are_opened_one_at_a_time _ _ _ _ _ _ _ _ H)
    as (h & l & Hl & Hin & _).
  exists h. cbn [io_log initial_state app] in Hl. rewrite Hl.
  assert (Hlen : List.length (io_log (snd run)) = 1%nat)
    by (vm_compute; reflexivity).
  rewrite Hl in Hlen.
  cbn [file_traces In] in Hin.
  destruct Hin as [<-|[<-|[<-|[<-|[<-|[]]]]]]; try discriminate Hlen.
  reflexivity.
Defined.

(** A run of [parse_file] that raises, at whatever step, leaves the
    records of the parser as they were: a record is appended only by a run
    that returns. *)
Theorem failed_run_appends_no_record
    (time_to_ntp : float -> float) (string_to_ntp : string -> result float)
    (driver_ts : float) (fs : filesystem) (path : string)
    (st st' : parser_state) (e : exn) :
  parse_file time_to_ntp string_to_ntp driver_ts fs path st = (Raise e, st') ->
  record_buffer st' = record_buffer st.
Proof.
  intros H. destruct (parse_file_trace _ _ _ _ _ _ _ _ H)
    as (h & l & _ & _ & _ & Hrec).
  apply Hrec. exists e. reflexivity.
Qed.

Lemma failed_run_appends_no_record_witness :
  let fs := sample_fs_without_provenance ["OOI-D20191020-T003835.nc"] in
  let run := sample_parse_file fs sample_averaged_path in
  fst run = Raise (KeyError "Provenance")
  /\ record_buffer (snd run) = [].
Proof.
  intros fs run.
  assert (H : parse_file sample_time_to_ntp sample_string_to_ntp
                sample_driver_timestamp fs sample_averaged_path initial_state
              = (Raise (KeyError "Provenance"), snd run))
    by (vm_compute; reflexivity).
  split; [vm_compute; reflexivity|].
  exact (failed_run_appends_no_record _ _ _ _ _ _ _ _ H).
Defined.

(* ================================================================== *)
(** * The two exceptions of the parser, on sample files *)

Lemma unmatched_filename_raises_format_error_witness :
  parse_file sample_time_to_ntp sample_string_to_ntp sample_driver_timestamp
    (sample_fs ["OOI-D20191020-T003835.nc"]) "/data/random_file.nc"
    initial_state
  = (Raise (SampleException (format_error_msg "random_file.nc")),
     initial_state).
Proof.
  assert (H1 : Re.search averaged_or_full_filename_regex
                 (snd (OsPath.split "/data/random_file.nc")) = None)
    by (vm_compute; reflexivity).
  assert (H2 : Re.re_match hourly_filename_regex
                 (snd (OsPath.split "/data/random_file.nc")) = None)
    by (vm_compute; reflexivity).
  exact (proj1 (unmatched_filename_raises_format_error sample_time_to_ntp
                  sample_string_to_ntp sample_driver_timestamp
                  (sample_fs ["OOI-D20191020-T003835.nc"])
                  "/data/random_file.nc" initial_state H1 H2)).
Defined.

Lemma no_hourly_file_raises_correlation_error_witness :
  let m := {| Re.groups := [("type", "Averaged"); ("stop_date", "20191027");
                            ("start_date", "20191020")];
              Re.matched := "Bioacoustic_Echogram_20191020-20191027_Calibrated_Sv_Averaged.nc";
              Re.rest := "" |} in
  let start := Datetime.mk 2019 10 20 0 0 0 in
  let stop := Datetime.mk 2019 10 27 0 0 0 in
  parse_file sample_time_to_ntp sample_string_to_ntp sample_driver_timestamp
    (sample_fs ["OOI-D20191028-T003835.nc"; "notes.txt"]) sample_averaged_path
    initial_state
  = (Raise (SampleException
              (correlation_error_msg start stop
                 (Some ZplscEchogramType.AVERAGED)
                 "CE07SHSM_Bioacoustic_Echogram_20191020-20191027_Calibrated_Sv_Averaged.nc"
                 hourly_filename_regex_str)),
     initial_state).
Proof.
  intros m start stop.
  assert (H1 : match_filename (snd (OsPath.split sample_averaged_path))
               = Ok (m, Some ZplscEchogramType.AVERAGED))
    by (vm_compute; reflexivity).
  assert (H2 : search_window (snd (OsPath.split sample_averaged_path)) m
                 (Some ZplscEchogramType.AVERAGED)
               = Ok (hourly_filename_regex_str, start, stop))
    by (vm_compute; reflexivity).
  assert (H3 : listdir (sample_fs ["OOI-D20191028-T003835.nc"; "notes.txt"])
                 (fst (OsPath.split sample_averaged_path))
               = Ok ["OOI-D20191028-T003835.nc"; "notes.txt"])
    by (vm_compute; reflexivity).
  assert (H4 : select_hourly_files hourly_filename_regex_str
                 (Some ZplscEchogramType.AVERAGED) start stop
                 ["OOI-D20191028-T003835.nc"; "notes.txt"] = Ok [])
    by (vm_compute; reflexivity).
  exact (proj1 (no_hourly_file_raises_correlation_error sample_time_to_ntp
                  sample_string_to_ntp sample_driver_timestamp
                  (sample_fs ["OOI-D20191028-T003835.nc"; "notes.txt"])
                  sample_averaged_path initial_state m
                  (Some ZplscEchogramType.AVERAGED) hourly_filename_regex_str
                  start stop ["OOI-D20191028-T003835.nc"; "notes.txt"]
                  H1 H2 H3 H4)).
Defined.

(* ================================================================== *)
(** * The reference of an averaged echogram under a dated directory *)

Lemma endswith_app_nonempty a b c :
  b <> "" -> has_char c b = false -> Str.endswith (a ++ b) c = false.
Proof.
  intros Hne Hb.
  assert (Hb' : Str.endswith b c = false).
  { clear Hne. induction b as [|x b IH]; [reflexivity|].
    cbn [has_char] in Hb. apply orb_false_elim in Hb. destruct Hb as [Hx Hb].
    cbn [Str.endswith]. destruct b; [exact Hx|exact (IH Hb)]. }
  induction a as [|x a IH]; [exact Hb'|].
  cbn [append Str.endswith].
  destruct (a ++ b) eqn:E; [|exact IH].
  destruct a; [|discriminate E]. cbn in E. contradiction.
Qed.

Lemma rstrip_app s c :
  s <> "" -> Str.endswith s c = false ->
  Str.rstrip c (s ++ String c "") = s.
Proof.
  induction s as [|x s IH]; intros Hne He; [contradiction Hne; reflexivity|].
  cbn [append Str.rstrip].
  destruct s as [|y s].
  - cbn [append Str.rstrip]. rewrite Ascii.eqb_refl.
    cbn [Str.endswith] in He. rewrite He. reflexivity.
  - rewrite IH; [reflexivity|discriminate|exact He].
Qed.

Lemma all_char_app_false s c x :
  s <> "" -> Str.endswith s c = false -> Str.all_char c (s ++ x) = false.
Proof.
  induction s as [|y s IH]; intros Hne He; [contradiction Hne; reflexivity|].
  cbn [append Str.all_char].
  destruct s as [|z s].
  - cbn [Str.endswith] in He. rewrite He. reflexivity.
  - rewrite IH; [apply andb_false_r|discriminate|exact He].
Qed.

Lemma is_empty_app_char a c b : Str.is_empty (a ++ String c b) = false.
Proof. destruct a; reflexivity. Qed.

(** [os.path.split] of a directory and a name. *)
Lemma split_dir_name a b :
  a <> "" -> Str.endswith a "/" = false -> has_char "/" b = false ->
  OsPath.split (a ++ String "/" b) = (a, b).
Proof.
  intros Hne He Hb. unfold OsPath.split.
  rewrite (rfind_last "/" a b Hb).
  replace (Str.len a + 1) with (Str.len (a ++ "/"))
    by (rewrite len_app; reflexivity).
  replace (a ++ String "/" b) with ((a ++ "/") ++ b)
    by (rewrite append_assoc; reflexivity).
  rewrite slice_to_app, slice_from_app.
  rewrite is_empty_app_char, (all_char_app_false a "/" "/" Hne He).
  cbn [negb andb]. rewrite (rstrip_app a "/" Hne He). reflexivity.
Qed.

Lemma join_step a b ps :
  a <> "" -> Str.endswith a "/" = false -> Str.startswith b "/" = false ->
  OsPath.join a (b :: ps) = OsPath.join (a ++ "/" ++ b) ps.
Proof.
  intros Hne He Hb. cbn [OsPath.join]. rewrite Hb, He.
  destruct a; [contradiction Hne; reflexivity|reflexivity].
Qed.

Lemma digit_char_not_slash z : Ascii.eqb (Datetime.digit_char z) "/" = false.
Proof.
  unfold Datetime.digit_char.
  pose proof (Z.mod_pos_bound z 10 ltac:(lia)) as H.
  remember (z mod 10) as k eqn:Ek. clear Ek.
  assert (Hk : k = 0 \/ k = 1 \/ k = 2 \/ k = 3 \/ k = 4 \/ k = 5 \/ k = 6
               \/ k = 7 \/ k = 8 \/ k = 9) by lia.
  repeat (destruct Hk as [->|Hk]; [reflexivity|]). subst k. reflexivity.
Qed.

Lemma zpad2_no_slash z :
  has_char "/" (Datetime.zpad 2 z) = false /\ Datetime.zpad 2 z <> "".
Proof.
  cbn [Datetime.zpad append has_char].
  rewrite !digit_char_not_slash. split; [reflexivity|discriminate].
Qed.

Lemma startswith_no_char s c : has_char c s = false -> Str.startswith s c = false.
Proof.
  destruct s as [|a s]; [reflexivity|].
  cbn [has_char Str.startswith]. intros H.
  apply orb_false_elim in H. exact (proj1 H).
Qed.

Lemma app_char_nonempty a c b : a ++ String c b <> "".
Proof. destruct a; discriminate. Qed.

Section Layout.

Variables (root Y M D pre post ext : string).

Let name : string := (pre ++ String "D" post) ++ String "." ext.
Let ref : string :=
  (((root ++ String "/" Y) ++ String "/" M) ++ String "/" D) ++ String "/" name.

Hypothesis Y_plain : has_char "/" Y = false.
Hypothesis M_plain : has_char "/" M = false.
Hypothesis D_plain : has_char "/" D = false.
Hypothesis Y_nonempty : Y <> "".
Hypothesis M_nonempty : M <> "".
Hypothesis D_nonempty : D <> "".
Hypothesis pre_plain : has_char "/" pre = false.
Hypothesis post_plain : has_char "/" post = false.
Hypothesis ext_plain : has_char "/" ext = false.
Hypothesis post_no_D : has_char "D" post = false.
Hypothesis ext_no_dot : has_char "." ext = false.

Lemma name_plain : has_char "/" name = false.
Proof.
  unfold name. rewrite !has_char_app. cbn [has_char].
  rewrite pre_plain, post_plain, ext_plain. reflexivity.
Qed.

Lemma layout_split : OsPath.split ref = (((root ++ String "/" Y) ++ String "/" M) ++ String "/" D, name).
Proof.
  unfold ref. apply split_dir_name.
  - apply app_char_nonempty.
  - replace (((root ++ String "/" Y) ++ String "/" M) ++ String "/" D)
      with ((((root ++ String "/" Y) ++ String "/" M) ++ "/") ++ D)
      by (rewrite !append_assoc; reflexivity).
    apply endswith_app_nonempty; assumption.
  - apply name_plain.
Qed.

Lemma layout_year_dir : year_dir ref = root ++ String "/" Y.
Proof.
  unfold year_dir. rewrite layout_split. cbn [fst].
  rewrite split_dir_name; [cbn [fst]| | |exact D_plain].
  - rewrite split_dir_name; [reflexivity| | |exact M_plain].
    + apply app_char_nonempty.
    + replace (root ++ String "/" Y) with ((root ++ "/") ++ Y)
        by (rewrite append_assoc; reflexivity).
      apply endswith_app_nonempty; assumption.
  - apply app_char_nonempty.
  - replace ((root ++ String "/" Y) ++ String "/" M)
      with (((root ++ String "/" Y) ++ "/") ++ M)
      by (rewrite !append_assoc; reflexivity).
    apply endswith_app_nonempty; assumption.
Qed.

Lemma layout_template : wildcard_template ref = pre ++ "D*-T*." ++ ext.
Proof.
  unfold wildcard_template. rewrite layout_split. cbn [snd]. unfold name.
  rewrite (splitext_name pre "D" post ext); try assumption.
  - cbn [fst snd]. rewrite (rfind_last "D" pre post post_no_D), slice_to_app.
    reflexivity.
  - reflexivity.
  - rewrite has_char_app. cbn [has_char]. rewrite pre_plain, post_plain.
    reflexivity.
Qed.

Lemma layout_day_path t : day_path ref t = wildcard_day_path root Y pre ext t.
Proof.
  unfold day_path, wildcard_day_path.
  rewrite layout_year_dir, layout_template.
  destruct (zpad2_no_slash (Datetime.month t)) as [Hm Hmne].
  destruct (zpad2_no_slash (Datetime.day t)) as [Hd Hdne].
  rewrite join_step.
  2: apply app_char_nonempty.
  2:{ replace (root ++ String "/" Y) with ((root ++ "/") ++ Y)
        by (rewrite append_assoc; reflexivity).
      apply endswith_app_nonempty; assumption. }
  2: apply startswith_no_char; exact Hm.
  rewrite join_step.
  2:{ intros E. destruct root; discriminate E. }
  2:{ replace ((root ++ String "/" Y) ++ "/" ++ Datetime.zpad 2 (Datetime.month t))
        with (((root ++ String "/" Y) ++ "/") ++ Datetime.zpad 2 (Datetime.month t))
        by (rewrite !append_assoc; reflexivity).
      apply endswith_app_nonempty; assumption. }
  2: apply startswith_no_char; exact Hd.
  rewrite join_step.
  2:{ intros E. destruct root; discriminate E. }
  2:{ match goal with
      | |- Str.endswith (?a ++ "/" ++ ?b) _ = _ =>
          replace (a ++ "/" ++ b) with ((a ++ "/") ++ b)
            by (rewrite !append_assoc; reflexivity)
      end.
      apply endswith_app_nonempty; assumption. }
  2:{ destruct pre as [|c p]; [reflexivity|].
      cbn [append Str.startswith]. cbn [has_char] in pre_plain.
      apply orb_false_elim in pre_plain. exact (proj1 pre_plain). }
  cbn [OsPath.join]. rewrite !append_assoc. reflexivity.
Qed.

End Layout.

(** For an averaged echogram whose reference is a raw file under a dated
    directory, [<root>/<Y>/<M>/<D>/<pre>D<post>.<ext>], the first path of
    the new reference, and the second one when there is one, are
    [<root>/<Y>/<MM>/<DD>/<pre>D*-T*.<ext>]: the month and the day are
    those of the start and of the last day of the range, and the year
    directory is the one of the reference, whatever the years of the
    range. *)
Theorem averaged_reference_keeps_the_year_directory
    (root Y M D pre post ext : string)
    (first_datetime last_datetime last_day : Datetime.datetime)
    (st : parser_state) :
  data_file_name (provenance st)
  = Some (root ++ "/" ++ Y ++ "/" ++ M ++ "/" ++ D ++ "/"
          ++ pre ++ "D" ++ post ++ "." ++ ext) ->
  has_char "/" Y = false -> has_char "/" M = false ->
  has_char "/" D = false ->
  Y <> "" -> M <> "" -> D <> "" ->
  has_char "/" pre = false -> has_char "/" post = false ->
  has_char "/" ext = false ->
  has_char "D" post = false -> has_char "." ext = false ->
  Datetime.add_days last_datetime (-1) = Ok last_day ->
  modify_provenance_for_echogram_type (Some ZplscEchogramType.AVERAGED)
    first_datetime last_datetime st
  = (Ok tt,
     with_data_file_name st
       (wildcard_day_path root Y pre ext first_datetime
        ++ (if Datetime.ltb first_datetime last_day
            then " ... " ++ wildcard_day_path root Y pre ext last_day
            else ""))).
Proof.
  intros Href HY HM HD HYn HMn HDn Hpre Hpost Hext HpD Hdot Hlast.
  assert (Hshape :
            root ++ "/" ++ Y ++ "/" ++ M ++ "/" ++ D ++ "/"
            ++ pre ++ "D" ++ post ++ "." ++ ext
            = (((root ++ String "/" Y) ++ String "/" M) ++ String "/" D)
              ++ String "/" ((pre ++ String "D" post) ++ String "." ext))
    by (rewrite !append_assoc; reflexivity).
  rewrite Hshape in Href.
  rewrite (averaged_reference_rewrite _ first_datetime last_datetime last_day
             st Href (app_char_nonempty _ _ _) Hlast).
  rewrite !(layout_day_path root Y M D pre post ext) by assumption.
  reflexivity.
Qed.

Lemma averaged_reference_keeps_the_year_directory_witness :
  let st := state_with_reference "/data/2019/12/30/OOI-D20191230-T003835.raw" in
  let first := Datetime.mk 2019 12 30 0 0 0 in
  let stop := Datetime.mk 2020 1 2 0 0 0 in
  modify_provenance_for_echogram_type (Some ZplscEchogramType.AVERAGED)
    first stop st
  = (Ok tt,
     with_data_file_name st
       "/data/2019/12/30/OOI-D*-T*.raw ... /data/2019/01/01/OOI-D*-T*.raw").
Proof.
  intros st first stop.
  assert (Hlast : Datetime.add_days stop (-1)
                  = Ok (Datetime.mk 2020 1 1 0 0 0))
    by (vm_compute; reflexivity).
  exact (averaged_reference_keeps_the_year_directory "/data" "2019" "12" "30"
           "OOI-" "20191230-T003835" "raw" first stop _ st eq_refl
           eq_refl eq_refl eq_refl
           ltac:(discriminate) ltac:(discriminate) ltac:(discriminate)
           eq_refl eq_refl eq_refl eq_refl eq_refl Hlast).
Defined.
